(** * Maven-Jar-Analyzer: the resolution and bytecode-indexing pipeline

    A shallow embedding of [maven_jar_analyzer.py] (class [MavenJarAnalyzer]),
    of the tool handlers of [maven_jar_mcp_server.py] and of the decompile
    endpoint of [maven_jar_remote_server.py], with the properties the
    specification states about them.

    Conventions of the embedding:
    - a Python [str] is a [string]; text outside ASCII is carried as its
      UTF-8 bytes and [lower] acts on the letters A..Z only;
    - a JSON object read with [d[k]] / [d.get(k)] is a [gmap string string];
    - a Python [dict] whose insertion order is observable (the result of the
      class lookup, the decompiled texts) is an association list without
      duplicate keys, in insertion order;
    - the outside world (file system, archives, external processes) is a
      record [Env] of oracles; a computation returns the list of effects it
      performed together with a value or a raised exception. *)

From Stdlib Require Import ZArith Ascii String List Lia Bool DecimalString HexString.
From Stdlib.Strings Require Import Byte.
From stdpp Require Import base option list strings gmap.

Local Open Scope Z_scope.

(** ** Python string operations used by the sources *)

Module PyStr.

Definition len (s : string) : nat := String.length s.

(** [s[n:]] and [s[:n]] for [0 <= n]. *)
Fixpoint drop (n : nat) (s : string) : string :=
  match n, s with
  | O, _ => s
  | S _, EmptyString => EmptyString
  | S k, String _ s' => drop k s'
  end.

Fixpoint take (n : nat) (s : string) : string :=
  match n, s with
  | O, _ => EmptyString
  | S _, EmptyString => EmptyString
  | S k, String c s' => String c (take k s')
  end.

(** [s[:-k]] for [k > 0]: the stop index is [max (len s - k) 0]. *)
Definition slice_to_neg (k : nat) (s : string) : string :=
  take (len s - k) s.

(** [p] is an initial segment of [s]. *)
Fixpoint is_prefix (p s : string) : bool :=
  match p with
  | EmptyString => true
  | String a p' =>
      match s with
      | EmptyString => false
      | String b s' => Ascii.eqb a b && is_prefix p' s'
      end
  end.

(** [s.startswith(p)] *)
Definition startswith (s p : string) : bool := is_prefix p s.

(** [s.endswith(suf)] *)
Definition endswith (s suf : string) : bool :=
  (len suf <=? len s)%nat && String.eqb (drop (len s - len suf) s) suf.

(** [c.lower()] on one ASCII character. *)
Definition lower_ascii (c : ascii) : ascii :=
  let n := nat_of_ascii c in
  if (65 <=? n)%nat && (n <=? 90)%nat then ascii_of_nat (n + 32) else c.

(** [s.isascii()] *)
Fixpoint is_ascii (s : string) : bool :=
  match s with
  | EmptyString => true
  | String c s' => (nat_of_ascii c <? 128)%nat && is_ascii s'
  end.

(** [s.lower()] of a text of ASCII characters ([is_ascii]): the letters A to
    Z are folded.  Characters outside ASCII are left as they are, which is
    not what Python does to cased letters outside ASCII; what is said of
    lower-cased names below is said of ASCII names. *)
Fixpoint lower (s : string) : string :=
  match s with
  | EmptyString => EmptyString
  | String c s' => String (lower_ascii c) (lower s')
  end.

(** [s.replace(old, new)] for a non-empty [old]: occurrences are found left
    to right and do not overlap.  [skip] counts the characters of a matched
    occurrence that are still to be passed over. *)
Fixpoint replace_from (old new : string) (skip : nat) (s : string) : string :=
  match s with
  | EmptyString => EmptyString
  | String c s' =>
      match skip with
      | S k => replace_from old new k s'
      | O =>
          if is_prefix old s
          then new +:+ replace_from old new (len old - 1) s'
          else String c (replace_from old new 0 s')
      end
  end.

Definition replace (old new s : string) : string := replace_from old new 0 s.

(** [s.split(sep)] for a one-character separator: never the empty list. *)
Fixpoint split (sep : ascii) (s : string) : list string :=
  match s with
  | EmptyString => [EmptyString]
  | String c s' =>
      if Ascii.eqb c sep then EmptyString :: split sep s'
      else match split sep s' with
           | [] => [String c EmptyString]
           | w :: ws => String c w :: ws
           end
  end.

(** [sub in s] *)
Fixpoint contains (sub s : string) : bool :=
  is_prefix sub s ||
  match s with
  | EmptyString => false
  | String _ s' => contains sub s'
  end.

(** [s * n] *)
Fixpoint repeat (s : string) (n : nat) : string :=
  match n with
  | O => EmptyString
  | S k => s +:+ repeat s k
  end.

(** [sep.join(l)] *)
Definition join (sep : string) (l : list string) : string := String.concat sep l.

(** Number of positions of [s] at which [old] starts. *)
Fixpoint occurrences (old s : string) : nat :=
  match s with
  | EmptyString => if is_prefix old EmptyString then 1%nat else 0%nat
  | String _ s' => ((if is_prefix old s then 1 else 0) + occurrences old s')%nat
  end.

(** The spec's wording "every [a] replaced by [b]", character by character. *)
Fixpoint subst_char (a b : ascii) (s : string) : string :=
  match s with
  | EmptyString => EmptyString
  | String c s' => String (if Ascii.eqb c a then b else c) (subst_char a b s')
  end.

(** [str(n)] for a non-negative integer. *)
Definition str_of_nat (n : nat) : string := NilZero.string_of_uint (Nat.to_uint n).

(** [s.index(c)] for a character [c] that occurs in [s]: its first position.
    The sources call it under the test [c in s] only. *)
Fixpoint index (c : ascii) (s : string) : nat :=
  match s with
  | EmptyString => 0%nat
  | String a s' => if Ascii.eqb a c then 0%nat else S (index c s')
  end.

(** [s[a:b]] for [0 <= a] and [0 <= b] *)
Definition slice (a b : nat) (s : string) : string := take (b - a) (drop a s).

End PyStr.

(** ** Exceptions, effects and the outside world *)

Definition dq : string := String (ascii_of_nat 34) EmptyString.
Definition sq : string := String (ascii_of_nat 39) EmptyString.
Definition backslash : ascii := ascii_of_nat 92.

(** Two lower-case hexadecimal digits. *)
Definition hex_digit (n : nat) : ascii :=
  if (n <? 10)%nat then ascii_of_nat (48 + n) else ascii_of_nat (87 + n).

Definition hex2 (n : nat) : string :=
  String (hex_digit (n / 16)) (String (hex_digit (n mod 16)) EmptyString).

(** One character of [repr(s)] between quotes [q]: the quote and the
    backslash are escaped, and so are the control characters. *)
Definition repr_char (q c : ascii) : string :=
  let n := nat_of_ascii c in
  if Ascii.eqb c q || Ascii.eqb c backslash then String backslash (String c EmptyString)
  else if (n =? 9)%nat then String backslash "t"
  else if (n =? 10)%nat then String backslash "n"
  else if (n =? 13)%nat then String backslash "r"
  else if (n <? 32)%nat || (n =? 127)%nat then String backslash ("x" +:+ hex2 n)
  else String c EmptyString.

Fixpoint repr_body (q : ascii) (s : string) : string :=
  match s with
  | EmptyString => EmptyString
  | String c s' => repr_char q c +:+ repr_body q s'
  end.

(** [repr(s)] of a text of ASCII characters: single quotes, unless [s] holds
    a single quote and no double quote.  Characters outside ASCII are kept,
    as Python keeps the printable ones. *)
Definition py_repr (s : string) : string :=
  let q := if PyStr.contains sq s && negb (PyStr.contains dq s)
           then ascii_of_nat 34 else ascii_of_nat 39 in
  String q (repr_body q s +:+ String q EmptyString).

(** The exceptions that occur; all of them are subclasses of [Exception]. *)
Inductive PyExc : Type :=
  | KeyError (key : string)
  | IndexError (msg : string)
  | Exception (msg : string)
  | HTTPException (status_code : Z) (detail : string)
  | OSError (msg : string)
  | BadZipFile (msg : string).

(** [str(e)] *)
Definition exc_str (e : PyExc) : string :=
  match e with
  | KeyError k => py_repr k
  | IndexError m => m
  | Exception m => m
  | HTTPException c d => PyStr.str_of_nat (Z.to_nat c) +:+ ": " +:+ d
  | OSError m => m
  | BadZipFile m => m
  end.

(** [subprocess.CompletedProcess] with captured text output. *)
Record CompletedProcess : Type := {
  returncode : Z;
  stdout : string;
  stderr : string
}.

(** Effects, in the order they are performed. *)
Inductive Event : Type :=
  | EvPrint (text : string)
  | EvMakedirs (path : string)
  | EvOpenWrite (path : string)
  | EvWriteText (path content : string)
  | EvWriteBytes (path : string) (content : list Byte.byte)
  | EvRun (argv : list string) (cwd : option string)
  | EvExit (result : CompletedProcess)
  | EvListdir (path : string)
  | EvOpenArchive (jar_path : string)
  | EvMkdtemp
  | EvRmtree (path : string).

(** The outside world.  An oracle answers [inl e] when the library call
    raises [e]. *)
Record Env : Type := {
  abspath : string -> string;
  makedirs : string -> option PyExc;
  open_write : string -> option PyExc;
  listdir : string -> PyExc + list string;
  path_exists : string -> bool;
  (** the resolver: [subprocess.run(argv, cwd=...)] *)
  run_maven : list string -> string -> PyExc + CompletedProcess;
  (** the disassembler, given its arguments and the extracted class file *)
  run_javap : list string -> list Byte.byte -> PyExc + CompletedProcess;
  (** [zipfile.ZipFile(path, 'r')]: the entries (name, content) in archive order *)
  archive : string -> PyExc + list (string * list Byte.byte);
  (** [jar.read(name)] on a listed entry of the archive at a path: [Some e]
      when the entry cannot be read (bad CRC, encryption, unsupported
      compression) *)
  read_error : string -> string -> option PyExc;
  (** [tempfile.TemporaryDirectory()] *)
  mkdtemp : PyExc + string
}.

(** A finished computation: what it did, and what it returned or raised. *)
Inductive Res (A : Type) : Type :=
  | Ret (a : A)
  | Raise (e : PyExc).
Arguments Ret {A} a.
Arguments Raise {A} e.

Definition M (A : Type) : Type := list Event * Res A.

Definition trace_of {A} (m : M A) : list Event := fst m.
Definition result_of {A} (m : M A) : Res A := snd m.

Definition m_ret {A} (a : A) : M A := ([], Ret a).

Definition m_bind {A B} (f : A -> M B) (m : M A) : M B :=
  match m with
  | (t, Ret a) => let '(t', r) := f a in (t ++ t', r)
  | (t, Raise e) => (t, Raise e)
  end.

#[global] Instance M_ret : MRet M := @m_ret.
#[global] Instance M_bind : MBind M := @m_bind.

Definition emit (ev : Event) : M unit := ([ev], Ret tt).
Definition raise {A} (e : PyExc) : M A := ([], Raise e).

(** [try: body except Exception as e: handler e] *)
Definition try_except {A} (body : M A) (handler : PyExc -> M A) : M A :=
  match body with
  | (t, Ret a) => (t, Ret a)
  | (t, Raise e) => let '(t', r) := handler e in (t ++ t', r)
  end.

(** [try: body finally: cleanup] (also the exit of a [with] block) *)
Definition try_finally {A} (body : M A) (cleanup : M unit) : M A :=
  match body with
  | (t, r) =>
      match cleanup with
      | (t', Ret _) => (t ++ t', r)
      | (t', Raise e) => (t ++ t', Raise e)
      end
  end.

(** Lift an oracle's answer. *)
Definition lift {A} (x : PyExc + A) : M A :=
  match x with
  | inl e => raise e
  | inr a => mret a
  end.

Definition check (x : option PyExc) : M unit :=
  match x with
  | Some e => raise e
  | None => mret tt
  end.

Definition print (text : string) : M unit := emit (EvPrint text).

(** [subprocess.run(argv, capture_output=True, text=True, cwd=cwd)]: the
    process is started, and the call returns when it has exited. *)
Definition subprocess_run (argv : list string) (cwd : option string)
    (outcome : PyExc + CompletedProcess) : M CompletedProcess :=
  emit (EvRun argv cwd);;
  result ← lift outcome;
  emit (EvExit result);;
  mret result.

(** ** [os.path] on POSIX paths *)

Module OsPath.

(** [os.path.join(a, b)] *)
Definition join (a b : string) : string :=
  if PyStr.startswith b "/" then b
  else if String.eqb a "" || PyStr.endswith a "/" then a +:+ b
  else a +:+ "/" +:+ b.

(** [os.path.basename(p)]: what follows the last slash. *)
Definition basename (p : string) : string :=
  List.last (PyStr.split "/" p) "".

End OsPath.

(** ** Data of the pipeline *)

(** A coordinate or a repository as it arrives: a JSON object of strings. *)
Abbreviation JsonObj := (gmap string string).

(** The dict built by [get_classes_from_jar] for one [.class] entry. *)
Record ClassRecord : Type := {
  class_name : string;
  file_path : string;
  jar_path : string
}.

(** A Python dict in insertion order. *)
Module ODict.

Definition t (V : Type) : Type := list (string * V).

Fixpoint get {V} (k : string) (d : t V) : option V :=
  match d with
  | [] => None
  | (k', v) :: d' => if String.eqb k k' then Some v else get k d'
  end.

(** [k in d] *)
Definition mem {V} (k : string) (d : t V) : bool :=
  match get k d with Some _ => true | None => false end.

(** [d[k] = v]: an existing key keeps its position. *)
Fixpoint set {V} (k : string) (v : V) (d : t V) : t V :=
  match d with
  | [] => [(k, v)]
  | (k', v') :: d' =>
      if String.eqb k k' then (k', v) :: d' else (k', v') :: set k v d'
  end.

Definition keys {V} (d : t V) : list string := map fst d.

End ODict.

Definition nl : string := String (ascii_of_nat 10) EmptyString.

(** Each line followed by a line feed. *)
Definition unlines (l : list string) : string :=
  fold_right (fun line acc => line +:+ nl +:+ acc) EmptyString l.

(** ** [maven_jar_analyzer.py]: class [MavenJarAnalyzer] *)

Module Analyzer.

Record MavenJarAnalyzer : Type := { maven_cmd : string }.

(** [__init__(self, maven_home=None)] *)
Definition init (maven_home : option string) : MavenJarAnalyzer :=
  match maven_home with
  | Some h =>
      if String.eqb h "" then {| maven_cmd := "mvn" |}
      else {| maven_cmd := OsPath.join (OsPath.join h "bin") "mvn" |}
  | None => {| maven_cmd := "mvn" |}
  end.

(** The literal pieces of the manifest text. *)
Definition pom_header : string :=
  unlines [
    "<?xml version=" +:+ dq +:+ "1.0" +:+ dq +:+ " encoding=" +:+ dq +:+ "UTF-8" +:+ dq +:+ "?>";
    "<project xmlns=" +:+ dq +:+ "http://maven.apache.org/POM/4.0.0" +:+ dq;
    "         xmlns:xsi=" +:+ dq +:+ "http://www.w3.org/2001/XMLSchema-instance" +:+ dq;
    "         xsi:schemaLocation=" +:+ dq +:+ "http://maven.apache.org/POM/4.0.0 ";
    "         http://maven.apache.org/xsd/maven-4.0.0.xsd" +:+ dq +:+ ">";
    "    <modelVersion>4.0.0</modelVersion>";
    "    ";
    "    <groupId>temp.analyzer</groupId>";
    "    <artifactId>dependency-analyzer</artifactId>";
    "    <version>1.0-SNAPSHOT</version>";
    "    "
  ].

Definition repository_block (id name url snapshots : string) : string :=
  unlines [
    "        <repository>";
    "            <id>" +:+ id +:+ "</id>";
    "            <name>" +:+ name +:+ "</name>";
    "            <url>" +:+ url +:+ "</url>";
    "            <snapshots>";
    "                <enabled>" +:+ snapshots +:+ "</enabled>";
    "            </snapshots>";
    "        </repository>"
  ].

Definition dependency_block (groupId artifactId version : string) : string :=
  unlines [
    "        <dependency>";
    "            <groupId>" +:+ groupId +:+ "</groupId>";
    "            <artifactId>" +:+ artifactId +:+ "</artifactId>";
    "            <version>" +:+ version +:+ "</version>";
    "        </dependency>"
  ].

(** [d[k]] *)
Definition getitem (d : JsonObj) (k : string) : M string :=
  match d !! k with
  | Some v => mret v
  | None => raise (KeyError k)
  end.

(** [for repo in repositories: pom_content += f'''...'''] *)
Fixpoint repositories_loop (repositories : list JsonObj) (pom_content : string)
  : M string :=
  match repositories with
  | [] => mret pom_content
  | repo :: rest =>
      id ← getitem repo "id";
      name ← getitem repo "name";
      url ← getitem repo "url";
      let snapshots := default "true" (repo !! "snapshots") in
      repositories_loop rest
        (pom_content +:+ repository_block id name url snapshots)
  end.

(** [for dep in dependencies: pom_content += f'''...'''] *)
Fixpoint dependencies_loop (dependencies : list JsonObj) (pom_content : string)
  : M string :=
  match dependencies with
  | [] => mret pom_content
  | dep :: rest =>
      groupId ← getitem dep "groupId";
      artifactId ← getitem dep "artifactId";
      version ← getitem dep "version";
      dependencies_loop rest
        (pom_content +:+ dependency_block groupId artifactId version)
  end.

Section WithEnv.
Context (env : Env).

(** [open(path, mode)] for writing *)
Definition open_for_write (path : string) : M unit :=
  emit (EvOpenWrite path);; check (open_write env path).

Definition create_temp_pom (dependencies : list JsonObj) (output_dir : string)
    (repositories : option (list JsonObj)) : M string :=
  let pom_content := pom_header in
  pom_content ←
    match repositories with
    | Some ((_ :: _) as repos) =>
        c ← repositories_loop repos (pom_content +:+ unlines ["    <repositories>"]);
        mret (c +:+ unlines ["    </repositories>"; "    "])
    | _ => mret pom_content
    end;
  pom_content ←
    dependencies_loop dependencies (pom_content +:+ unlines ["    <dependencies>"]);
  let pom_content := pom_content +:+ unlines ["    </dependencies>"] +:+ "</project>" in
  let pom_path := OsPath.join output_dir "pom.xml" in
  open_for_write pom_path;;
  emit (EvWriteText pom_path pom_content);;
  mret pom_path.

Definition download_dependencies (self : MavenJarAnalyzer)
    (pom_path output_dir : string) : M (list string) :=
  let target_dir := OsPath.join output_dir "dependencies" in
  emit (EvMakedirs target_dir);;
  check (makedirs env target_dir);;
  let abs_pom_path := abspath env pom_path in
  let abs_target_dir := abspath env target_dir in
  let cmd := [ maven_cmd self; "-f"; abs_pom_path;
               "dependency:copy-dependencies";
               "-DoutputDirectory=" +:+ abs_target_dir;
               "-DincludeScope=compile" ] in
  print ("执行Maven命令: " +:+ PyStr.join " " cmd);;
  print (PyStr.repeat "=" 80);;
  let cwd := abspath env output_dir in
  result ← subprocess_run cmd (Some cwd) (run_maven env cmd cwd);
  if negb (returncode result =? 0) then
    print ("Maven命令执行失败:" +:+ nl +:+ stderr result);;
    raise (Exception "Maven命令执行失败")
  else
    print (stdout result);;
    emit (EvListdir target_dir);;
    names ← lift (listdir env target_dir);
    mret (map (OsPath.join target_dir)
              (List.filter (fun f => PyStr.endswith f ".jar") names)).

(** [zipfile.ZipFile(jar_path, 'r')] *)
Definition ZipFile (jar_path : string) : M (list (string * list Byte.byte)) :=
  emit (EvOpenArchive jar_path);; lift (archive env jar_path).

(** [jar.namelist()] *)
Definition namelist (jar : list (string * list Byte.byte)) : list string :=
  map fst jar.

(** [jar.read(name)] on the archive opened at [jar_path]: of several entries
    of one name the last one is read. *)
Definition zip_read (jar_path : string) (jar : list (string * list Byte.byte))
    (name : string) : M (list Byte.byte) :=
  match List.find (fun e => String.eqb (fst e) name) (rev jar) with
  | Some e => check (read_error env jar_path name);; mret (snd e)
  | None => raise (KeyError ("There is no item named " +:+ py_repr name
                               +:+ " in the archive"))
  end.

(** The body of [for file_info in jar.namelist()], on the list [classes]
    that the function fills. *)
Fixpoint namelist_loop (jar_path : string) (names : list string)
    (classes : list ClassRecord) : list ClassRecord :=
  match names with
  | [] => classes
  | file_info :: rest =>
      if PyStr.endswith file_info ".class" then
        let class_name := PyStr.replace "/" "." (PyStr.slice_to_neg 6 file_info) in
        namelist_loop jar_path rest
          (classes ++ [ {| class_name := class_name;
                           file_path := file_info;
                           jar_path := jar_path |} ])
      else namelist_loop jar_path rest classes
  end.

(** The only statement of the [try] block that can raise is the opening of
    the archive, at which point [classes] is still empty. *)
Definition get_classes_from_jar (jar_path : string) : M (list ClassRecord) :=
  let classes := [] in
  try_except
    (jar ← ZipFile jar_path;
     mret (namelist_loop jar_path (namelist jar) classes))
    (fun e =>
       print ("解析jar包失败 " +:+ jar_path +:+ ": " +:+ exc_str e);;
       mret classes).

Definition get_class_bytecode (jar_path class_file_path : string)
  : M (list Byte.byte) :=
  jar ← ZipFile jar_path;
  zip_read jar_path jar class_file_path.

(** [find_class_in_jars]: the matches of one archive appended to
    [matched_classes]. *)
Definition pattern_matches (class_name_pattern : string) (classes : list ClassRecord)
  : list ClassRecord :=
  List.filter
    (fun cls => PyStr.contains (PyStr.lower class_name_pattern)
                               (PyStr.lower (class_name cls)))
    classes.

Fixpoint find_class_loop (jar_files : list string) (class_name_pattern : string)
    (matched_classes : list ClassRecord) : M (list ClassRecord) :=
  match jar_files with
  | [] => mret matched_classes
  | jar_file :: rest =>
      classes ← get_classes_from_jar jar_file;
      find_class_loop rest class_name_pattern
        (matched_classes ++ pattern_matches class_name_pattern classes)
  end.

Definition find_class_in_jars (jar_files : list string) (class_name_pattern : string)
  : M (list ClassRecord) :=
  find_class_loop jar_files class_name_pattern [].

(** [cls['class_name'].split('.')[-1]] *)
Definition simple_name (cls : ClassRecord) : string :=
  List.last (PyStr.split "." (class_name cls)) "".

(** [x in l] on a list of strings *)
Definition str_in (x : string) (l : list string) : bool :=
  existsb (String.eqb x) l.

(** [if k not in result: result[k] = []] then [result[k].append(cls)] *)
Definition add_match (cls : ClassRecord) (result : ODict.t (list ClassRecord))
  : ODict.t (list ClassRecord) :=
  let class_simple_name := simple_name cls in
  let result :=
    if negb (ODict.mem class_simple_name result)
    then ODict.set class_simple_name [] result
    else result in
  ODict.set class_simple_name
    (default [] (ODict.get class_simple_name result) ++ [cls]) result.

(** [for cls in classes: ...] of [find_exact_class_in_jars] *)
Fixpoint exact_classes_loop (classes : list ClassRecord)
    (class_names_lower : list string) (result : ODict.t (list ClassRecord))
  : ODict.t (list ClassRecord) :=
  match classes with
  | [] => result
  | cls :: rest =>
      if str_in (PyStr.lower (simple_name cls)) class_names_lower
      then exact_classes_loop rest class_names_lower (add_match cls result)
      else exact_classes_loop rest class_names_lower result
  end.

(** [for jar_file in jar_files: ...] of [find_exact_class_in_jars] *)
Fixpoint exact_jars_loop (jar_files : list string) (class_names_lower : list string)
    (result : ODict.t (list ClassRecord)) : M (ODict.t (list ClassRecord)) :=
  match jar_files with
  | [] => mret result
  | jar_file :: rest =>
      classes ← get_classes_from_jar jar_file;
      exact_jars_loop rest class_names_lower
        (exact_classes_loop classes class_names_lower result)
  end.

Definition find_exact_class_in_jars (jar_files : list string)
    (class_names : list string) : M (ODict.t (list ClassRecord)) :=
  let result := [] in
  let class_names_lower := map PyStr.lower class_names in
  exact_jars_loop jar_files class_names_lower result.

(** [int.from_bytes(bs, 'big')] *)
Definition int_from_bytes_big (bs : list Byte.byte) : Z :=
  fold_left (fun acc b => acc * 256 + Z.of_N (Byte.to_N b)) bs 0.

(** The minimal summary returned by [analyze_class_basic]. *)
Record BasicInfo : Type := {
  magic : string;
  java_version : string;
  java_compatible : string;
  bytecode_size : nat
}.

Definition java_version_map : list (Z * string) :=
  [ (52, "8"); (53, "9"); (54, "10"); (55, "11"); (56, "12");
    (57, "13"); (58, "14"); (59, "15"); (60, "16"); (61, "17");
    (62, "18"); (63, "19"); (64, "20"); (65, "21") ].

(** [java_version_map.get(major, fallback)] *)
Definition version_map_get (major : Z) (fallback : string) : string :=
  match List.find (fun kv => fst kv =? major) java_version_map with
  | Some kv => snd kv
  | None => fallback
  end.

Definition str_of_int (z : Z) : string := PyStr.str_of_nat (Z.to_nat z).

(** [analyze_class_basic] from the bytes on: [None] is Python's [None]. *)
Definition analyze_bytecode (bytecode : list Byte.byte) : option BasicInfo :=
  if (length bytecode <? 8)%nat then None
  else
    let magic := int_from_bytes_big (take 4 bytecode) in
    if negb (magic =? 0xCAFEBABE) then None
    else
      let minor_version := int_from_bytes_big (take 2 (drop 4 bytecode)) in
      let major_version := int_from_bytes_big (take 2 (drop 6 bytecode)) in
      Some {| magic := HexString.of_Z magic;
              java_version := str_of_int major_version +:+ "." +:+ str_of_int minor_version;
              java_compatible :=
                version_map_get major_version
                  ("Unknown (" +:+ str_of_int major_version +:+ ")");
              bytecode_size := length bytecode |}.

Definition analyze_class_basic (jar_path class_file_path : string)
  : M (option BasicInfo) :=
  bytecode ← get_class_bytecode jar_path class_file_path;
  mret (analyze_bytecode bytecode).

(** [with tempfile.TemporaryDirectory() as temp_dir: body temp_dir].  The
    removal of the directory at the exit of the block is taken to succeed. *)
Definition with_TemporaryDirectory {A} (body : string -> M A) : M A :=
  emit EvMkdtemp;;
  temp_dir ← lift (mkdtemp env);
  try_finally (body temp_dir) (emit (EvRmtree temp_dir)).

Definition decompile_class (jar_path class_file_path : string) : M string :=
  try_except
    (with_TemporaryDirectory (fun temp_dir =>
       let temp_class_file :=
         OsPath.join temp_dir (OsPath.basename class_file_path) in
       jar ← ZipFile jar_path;
       open_for_write temp_class_file;;
       data ← zip_read jar_path jar class_file_path;
       emit (EvWriteBytes temp_class_file data);;
       let argv := ["javap"; "-c"; "-p"; "-constants"; temp_class_file] in
       result ← subprocess_run argv None (run_javap env argv data);
       if returncode result =? 0 then mret (stdout result)
       else mret ("反编译失败: " +:+ stderr result)))
    (fun e => mret ("反编译出错: " +:+ exc_str e)).

(** [get_class_source_code] *)
Definition get_class_source_code (jar_path class_file_path : string) : M string :=
  print (nl +:+ "正在反编译: " +:+ class_file_path);;
  print (PyStr.repeat "-" 80);;
  javap_result ← decompile_class jar_path class_file_path;
  mret javap_result.

(** The table of [_parse_access_flags], in the order it is written. *)
Definition flag_map : list (Z * string) :=
  [ (0x0001, "public"); (0x0002, "private"); (0x0004, "protected");
    (0x0008, "static"); (0x0010, "final"); (0x0020, "synchronized");
    (0x0040, "volatile"); (0x0080, "transient"); (0x0100, "native");
    (0x0200, "interface"); (0x0400, "abstract"); (0x1000, "synthetic") ].

(** [for flag_value, flag_name in flag_map.items(): if flags & flag_value: ...] *)
Fixpoint access_flags_loop (items : list (Z * string)) (flags : Z)
    (access_flags : list string) : list string :=
  match items with
  | [] => access_flags
  | (flag_value, flag_name) :: rest =>
      if negb (Z.land flags flag_value =? 0)
      then access_flags_loop rest flags (access_flags ++ [flag_name])
      else access_flags_loop rest flags access_flags
  end.

Definition _parse_access_flags (flags : Z) : list string :=
  access_flags_loop flag_map flags [].

(** The table of [_parse_field_type]. *)
Definition type_map : list (string * string) :=
  [ ("B", "byte"); ("C", "char"); ("D", "double"); ("F", "float");
    ("I", "int"); ("J", "long"); ("S", "short"); ("Z", "boolean");
    ("V", "void") ].

(** [type_map.get(descriptor, fallback)] *)
Definition type_map_get (descriptor fallback : string) : string :=
  match List.find (fun kv => String.eqb (fst kv) descriptor) type_map with
  | Some kv => snd kv
  | None => fallback
  end.

(** [_parse_field_type] as a function of the descriptor: the value that a
    call returns.  The recursive call is on [descriptor[1:]]; the call
    itself, which the interpreter's recursion limit can cut short, is
    [_parse_field_type_call] below. *)
Fixpoint _parse_field_type (descriptor : string) : string :=
  match descriptor with
  | String "["%char rest => _parse_field_type rest +:+ "[]"
  | _ =>
      if PyStr.startswith descriptor "L" && PyStr.endswith descriptor ";"
      then PyStr.replace "/" "." (PyStr.slice_to_neg 1 (PyStr.drop 1 descriptor))
      else type_map_get descriptor descriptor
  end.

Definition _format_method_signature (name descriptor : string) : string :=
  if PyStr.contains "(" descriptor && PyStr.contains ")" descriptor then
    let params_str :=
      PyStr.slice (PyStr.index "(" descriptor + 1) (PyStr.index ")" descriptor)
        descriptor in
    let return_str := PyStr.drop (PyStr.index ")" descriptor + 1) descriptor in
    name +:+ "(" +:+ params_str +:+ ") -> " +:+ return_str
  else name +:+ descriptor.

(** The interpreter, as far as [_parse_field_type] meets it: the number of
    nested calls of the function that it still allows, and the
    [RecursionError] that it raises beyond. *)
Record Interpreter : Type := {
  frames : nat;
  recursion_error : PyExc
}.

Context (py : Interpreter).

(** A call of [_parse_field_type] with [n] nested calls still allowed. *)
Fixpoint parse_field_type_frames (n : nat) (descriptor : string) : M string :=
  match n with
  | O => raise (recursion_error py)
  | S n' =>
      match descriptor with
      | String "["%char rest =>
          t ← parse_field_type_frames n' rest;
          mret (t +:+ "[]")
      | _ => mret (_parse_field_type descriptor)
      end
  end.

Definition _parse_field_type_call (descriptor : string) : M string :=
  parse_field_type_frames (frames py) descriptor.

(** What the analyzer reads of the objects that [javatools.unpack_class]
    returns.  Reading an attribute of a method or a field gives a value or
    raises (an [AttributeError] when the object has no such attribute). *)
Record JavaMemberInfo : Type := {
  member_name : PyExc + string;
  member_descriptor : PyExc + string;
  member_access_flags : PyExc + Z
}.

Record JavaClassInfo : Type := {
  get_this : string;
  get_super : option string;
  get_interfaces : list string;
  cls_access_flags : Z;
  version : Z * Z;
  methods : list JavaMemberInfo;
  fields : list JavaMemberInfo
}.

(** The dicts built by [analyze_class_with_javatools]. *)
Record MethodInfo : Type := {
  method_name : string;
  method_descriptor : string;
  method_access_flags : list string;
  signature : string
}.

Record FieldInfo : Type := {
  field_name : string;
  field_descriptor : string;
  field_access_flags : list string;
  field_type : string
}.

Record DeepInfo : Type := {
  info_class_name : string;
  super_class : option string;
  interfaces : list string;
  info_access_flags : list string;
  info_methods : list MethodInfo;
  info_fields : list FieldInfo;
  info_java_version : string
}.

(** The dict [method_info]: the attributes are read in the order of the
    dict's keys. *)
Definition method_info (method : JavaMemberInfo) : M MethodInfo :=
  name ← lift (member_name method);
  descriptor ← lift (member_descriptor method);
  access_flags ← lift (member_access_flags method);
  mret {| method_name := name;
          method_descriptor := descriptor;
          method_access_flags := _parse_access_flags access_flags;
          signature := _format_method_signature name descriptor |}.

Definition field_info (field : JavaMemberInfo) : M FieldInfo :=
  name ← lift (member_name field);
  descriptor ← lift (member_descriptor field);
  access_flags ← lift (member_access_flags field);
  type ← _parse_field_type_call descriptor;
  mret {| field_name := name;
          field_descriptor := descriptor;
          field_access_flags := _parse_access_flags access_flags;
          field_type := type |}.

(** [for method in class_data.methods: info['methods'].append(method_info)] *)
Fixpoint methods_loop (methods : list JavaMemberInfo) (info_methods : list MethodInfo)
  : M (list MethodInfo) :=
  match methods with
  | [] => mret info_methods
  | method :: rest =>
      method_info ← method_info method;
      methods_loop rest (info_methods ++ [method_info])
  end.

(** [for field in class_data.fields: info['fields'].append(field_info)] *)
Fixpoint fields_loop (fields : list JavaMemberInfo) (info_fields : list FieldInfo)
  : M (list FieldInfo) :=
  match fields with
  | [] => mret info_fields
  | field :: rest =>
      field_info ← field_info field;
      fields_loop rest (info_fields ++ [field_info])
  end.

(** The dict [info]: its literal, then the two loops. *)
Definition deep_info (class_data : JavaClassInfo) : M DeepInfo :=
  let class_name := PyStr.replace "/" "." (get_this class_data) in
  let super_class :=
    match get_super class_data with
    | Some s => if String.eqb s "" then None else Some (PyStr.replace "/" "." s)
    | None => None
    end in
  let interfaces := map (PyStr.replace "/" ".") (get_interfaces class_data) in
  let access_flags := _parse_access_flags (cls_access_flags class_data) in
  let java_version :=
    str_of_int (fst (version class_data)) +:+ "." +:+
    str_of_int (snd (version class_data)) in
  info_methods ← methods_loop (methods class_data) [];
  info_fields ← fields_loop (fields class_data) [];
  mret {| info_class_name := class_name;
          super_class := super_class;
          interfaces := interfaces;
          info_access_flags := access_flags;
          info_methods := info_methods;
          info_fields := info_fields;
          info_java_version := java_version |}.

(** [javatools.unpack_class], or [None] when the module cannot be imported. *)
Context (unpack_class : option (list Byte.byte -> PyExc + JavaClassInfo)).

(** The result is the detailed dict, or what [analyze_class_basic] returns. *)
Definition analyze_class_with_javatools (jar_path class_file_path : string)
  : M (DeepInfo + option BasicInfo) :=
  match unpack_class with
  | None =>
      print "警告: javatools未安装，使用基础分析";;
      info ← analyze_class_basic jar_path class_file_path;
      mret (inr info)
  | Some unpack_class =>
      try_except
        (bytecode ← get_class_bytecode jar_path class_file_path;
         class_data ← lift (unpack_class bytecode);
         info ← deep_info class_data;
         mret (inl info))
        (fun e =>
           print ("使用javatools分析失败: " +:+ exc_str e);;
           info ← analyze_class_basic jar_path class_file_path;
           mret (inr info))
  end.

End WithEnv.

End Analyzer.

(** ** [maven_jar_mcp_server.py]: the tool handlers *)

Module McpServer.

(** [analyzer = MavenJarAnalyzer()] *)
Definition analyzer : Analyzer.MavenJarAnalyzer := Analyzer.init None.

(** The [arguments] object of a tool call; [None] is an absent key. *)
Record Arguments : Type := {
  arg_dependencies : option (list JsonObj);
  arg_target_classes : option (list string);
  arg_repositories : option (list JsonObj);
  arg_work_dir : option string;
  arg_jar_path : option string;
  arg_class_file_path : option string
}.

Record Summary : Type := {
  total_jars : nat;
  found_classes_count : nat;
  missing_classes : list string
}.

(** The object that [handle_analyze_dependency] serialises. *)
Record AnalyzeResult : Type := {
  found_classes : ODict.t (list ClassRecord);
  jar_files : list string;
  work_dir : string;
  summary : Summary
}.

(** The object that [handle_decompile_class] serialises. *)
Record DecompileResult : Type := {
  dr_class_name : string;
  dr_jar_path : string;
  dr_class_file_path : string;
  decompiled_code : string
}.

(** What a handler returns: the JSON text of one of these objects.  Writing
    such an object with [json.dumps] and reading it back with [json.loads]
    gives the same keys in the same order with the same values. *)
Inductive ToolOutput : Type :=
  | OutAnalyze (result : AnalyzeResult)
  | OutDecompile (result : DecompileResult)
  | OutFindAndDecompile (analyze_data : AnalyzeResult)
      (decompiled_classes : ODict.t string)
  | OutError (error : string).

(** The keys of the serialised [AnalyzeResult]. *)
Definition analyze_data_keys : list string :=
  ["found_classes"; "jar_files"; "work_dir"; "summary"].

(** The dict rebuilt from [cls_info] in the result. *)
Definition copy_cls_info (cls_info : ClassRecord) : ClassRecord :=
  {| class_name := class_name cls_info;
     jar_path := jar_path cls_info;
     file_path := file_path cls_info |}.

Section WithEnv.
Context (env : Env).

Definition handle_analyze_dependency (arguments : Arguments) : M AnalyzeResult :=
  let dependencies := default [] (arg_dependencies arguments) in
  let target_classes := default [] (arg_target_classes arguments) in
  let repositories := arg_repositories arguments in
  let work_dir := default "./maven_temp" (arg_work_dir arguments) in
  emit (EvMakedirs work_dir);;
  check (makedirs env work_dir);;
  pom_path ← Analyzer.create_temp_pom env dependencies work_dir repositories;
  jar_files ← Analyzer.download_dependencies env analyzer pom_path work_dir;
  found_classes ← Analyzer.find_exact_class_in_jars env jar_files target_classes;
  mret {| found_classes :=
            map (fun '(class_name, class_list) =>
                   (class_name, map copy_cls_info class_list)) found_classes;
          jar_files := jar_files;
          work_dir := work_dir;
          summary :=
            {| total_jars := length jar_files;
               found_classes_count := length found_classes;
               missing_classes :=
                 List.filter (fun cls => negb (ODict.mem cls found_classes))
                             target_classes |} |}.

(** [not s] for an optional string *)
Definition falsy (s : option string) : bool :=
  match s with
  | None => true
  | Some v => String.eqb v ""
  end.

(** [class_file_path.replace('/', '.').replace('.class', '')] *)
Definition decompiled_class_name (class_file_path : string) : string :=
  PyStr.replace ".class" "" (PyStr.replace "/" "." class_file_path).

Definition handle_decompile_class (arguments : Arguments) : M ToolOutput :=
  let jar_path := arg_jar_path arguments in
  let class_file_path := arg_class_file_path arguments in
  if falsy jar_path || falsy class_file_path then
    mret (OutError "jar_path and class_file_path are required")
  else
    let jar_path := default "" jar_path in
    let class_file_path := default "" class_file_path in
    decompiled_code ← Analyzer.decompile_class env jar_path class_file_path;
    let class_name := decompiled_class_name class_file_path in
    mret (OutDecompile {| dr_class_name := class_name;
                          dr_jar_path := jar_path;
                          dr_class_file_path := class_file_path;
                          decompiled_code := decompiled_code |}).

(** [for class_name, class_list in found_classes.items(): ...] *)
Fixpoint decompile_loop (items : list (string * list ClassRecord))
    (decompiled_classes : ODict.t string) : M (ODict.t string) :=
  match items with
  | [] => mret decompiled_classes
  | (class_name, class_list) :: rest =>
      match class_list with
      | cls_info :: _ =>
          decompiled_code ←
            Analyzer.decompile_class env (jar_path cls_info) (file_path cls_info);
          decompile_loop rest (ODict.set class_name decompiled_code decompiled_classes)
      | [] => decompile_loop rest decompiled_classes
      end
  end.

Definition handle_find_and_decompile (arguments : Arguments) : M ToolOutput :=
  analyze_data ← handle_analyze_dependency arguments;
  if Analyzer.str_in "error" analyze_data_keys then
    mret (OutAnalyze analyze_data)
  else
    let decompiled_classes := [] in
    let found_classes := found_classes analyze_data in
    decompiled_classes ← decompile_loop found_classes decompiled_classes;
    mret (OutFindAndDecompile analyze_data decompiled_classes).

(** [call_tool]: an exception of a handler becomes an error object. *)
Definition call_tool (name : string) (arguments : Arguments) : M ToolOutput :=
  try_except
    (if String.eqb name "analyze_maven_dependency" then
       result ← handle_analyze_dependency arguments; mret (OutAnalyze result)
     else if String.eqb name "decompile_class" then
       handle_decompile_class arguments
     else if String.eqb name "find_and_decompile_classes" then
       handle_find_and_decompile arguments
     else mret (OutError ("Unknown tool: " +:+ name)))
    (fun e => mret (OutError (exc_str e))).

End WithEnv.

End McpServer.

(** ** [maven_jar_remote_server.py]: the decompile endpoint *)

Module RemoteServer.

Record DecompileClassRequest : Type := {
  req_jar_path : string;
  req_class_file_path : string
}.

(** [request.class_file_path.replace('/', '.').replace('.class', '')] *)
Definition decompiled_class_name (class_file_path : string) : string :=
  PyStr.replace ".class" "" (PyStr.replace "/" "." class_file_path).

Section WithEnv.
Context (env : Env).

(** [POST /api/decompile] *)
Definition decompile_class (request : DecompileClassRequest)
  : M McpServer.DecompileResult :=
  try_except
    (if negb (path_exists env (req_jar_path request)) then
       raise (HTTPException 404 ("Jar file not found: " +:+ req_jar_path request))
     else
       decompiled_code ←
         Analyzer.decompile_class env (req_jar_path request) (req_class_file_path request);
       let class_name := decompiled_class_name (req_class_file_path request) in
       mret {| McpServer.dr_class_name := class_name;
               McpServer.dr_jar_path := req_jar_path request;
               McpServer.dr_class_file_path := req_class_file_path request;
               McpServer.decompiled_code := decompiled_code |})
    (fun e => raise (HTTPException 500 (exc_str e))).

(** [for class_name, class_list in found_classes.items(): ...] of
    [POST /api/find-and-decompile] *)
Fixpoint decompile_loop (items : list (string * list ClassRecord))
    (decompiled_classes : ODict.t string) : M (ODict.t string) :=
  match items with
  | [] => mret decompiled_classes
  | (class_name, class_list) :: rest =>
      match class_list with
      | cls_info :: _ =>
          decompiled_classes ←
            try_except
              (decompiled_code ←
                 Analyzer.decompile_class env (jar_path cls_info) (file_path cls_info);
               mret (ODict.set class_name decompiled_code decompiled_classes))
              (fun e =>
                 mret (ODict.set class_name ("Error: " +:+ exc_str e) decompiled_classes));
          decompile_loop rest decompiled_classes
      | [] => decompile_loop rest decompiled_classes
      end
  end.

(** [analyzer = MavenJarAnalyzer()] *)
Definition analyzer : Analyzer.MavenJarAnalyzer := Analyzer.init None.

(** The request models; a field with a default holds the default when the
    request leaves it out. *)
Record MavenDependency : Type := {
  groupId : string;
  artifactId : string;
  dep_version : string
}.

Record MavenRepository : Type := {
  repo_id : string;
  repo_name : string;
  repo_url : string;
  snapshots : string
}.

Record AnalyzeDependencyRequest : Type := {
  req_dependencies : list MavenDependency;
  req_target_classes : list string;
  req_repositories : option (list MavenRepository);
  req_work_dir : option string
}.

Record FindAndDecompileRequest : Type := {
  fd_dependencies : list MavenDependency;
  fd_target_classes : list string;
  fd_repositories : option (list MavenRepository)
}.

(** [dep.dict()] and [repo.dict()] *)
Definition dependency_dict (dep : MavenDependency) : JsonObj :=
  {[ "groupId" := groupId dep; "artifactId" := artifactId dep;
     "version" := dep_version dep ]}.

Definition repository_dict (repo : MavenRepository) : JsonObj :=
  {[ "id" := repo_id repo; "name" := repo_name repo; "url" := repo_url repo;
     "snapshots" := snapshots repo ]}.

(** The dict returned by [POST /api/analyze]. *)
Record AnalyzeResult : Type := {
  found_classes : ODict.t (list ClassRecord);
  jar_files : list string;
  work_dir : string;
  temp_dir : bool
}.

(** The dict returned by [DELETE /api/cleanup/...]. *)
Record CleanupResult : Type := {
  status : string;
  message : string
}.

(** What the endpoints ask of the file system beyond [Env]. *)
Record RemoteEnv : Type := {
  (** [tempfile.mkdtemp(prefix="maven_analyze_")] *)
  mkdtemp_analyze : PyExc + string;
  (** [shutil.rmtree(path)] *)
  rmtree : string -> option PyExc
}.

Context (renv : RemoteEnv).

(** [POST /api/analyze].  The work directory is set up before the [try]
    block; [EvMakedirs] records the directory that [mkdtemp] has created. *)
Definition analyze_dependency (request : AnalyzeDependencyRequest) : M AnalyzeResult :=
  let work_dir := req_work_dir request in
  '(work_dir, temp_dir_created) ←
    (if McpServer.falsy work_dir then
       work_dir ← lift (mkdtemp_analyze renv);
       emit (EvMakedirs work_dir);;
       mret (work_dir, true)
     else
       let work_dir := default "" work_dir in
       emit (EvMakedirs work_dir);;
       check (makedirs env work_dir);;
       mret (work_dir, false));
  try_except
    (let dependencies := map dependency_dict (req_dependencies request) in
     let repositories :=
       match req_repositories request with
       | Some ((_ :: _) as repos) => Some (map repository_dict repos)
       | _ => None
       end in
     pom_path ← Analyzer.create_temp_pom env dependencies work_dir repositories;
     jar_files ← Analyzer.download_dependencies env analyzer pom_path work_dir;
     match jar_files with
     | [] => raise (HTTPException 404 "No jar files downloaded")
     | _ :: _ =>
         found_classes ←
           Analyzer.find_exact_class_in_jars env jar_files (req_target_classes request);
         mret {| found_classes := found_classes;
                 jar_files := jar_files;
                 work_dir := work_dir;
                 temp_dir := temp_dir_created |}
     end)
    (fun e =>
       (if temp_dir_created && path_exists env work_dir
        then emit (EvRmtree work_dir)
        else mret tt);;
       raise (HTTPException 500 (exc_str e))).

(** [POST /api/find-and-decompile]: the analysis result and the dict
    [decompiled_classes] that is merged into it. *)
Definition find_and_decompile (request : FindAndDecompileRequest)
  : M (AnalyzeResult * ODict.t string) :=
  let analyze_request :=
    {| req_dependencies := fd_dependencies request;
       req_target_classes := fd_target_classes request;
       req_repositories := fd_repositories request;
       req_work_dir := None |} in
  analyze_result ← analyze_dependency analyze_request;
  let decompiled_classes := [] in
  let found_classes := found_classes analyze_result in
  decompiled_classes ← decompile_loop found_classes decompiled_classes;
  mret (analyze_result, decompiled_classes).

(** [DELETE /api/cleanup/{work_dir}] *)
Definition cleanup_work_dir (work_dir : string) : M CleanupResult :=
  try_except
    (if path_exists env work_dir then
       emit (EvRmtree work_dir);;
       check (rmtree renv work_dir);;
       mret {| status := "success"; message := "Cleaned up " +:+ work_dir |}
     else
       mret {| status := "not_found";
               message := "Directory not found: " +:+ work_dir |})
    (fun e => raise (HTTPException 500 (exc_str e))).

End WithEnv.

End RemoteServer.

(** ** [maven_jar_analyzer.py]: the command-line check *)

Module Cli.

(** [l[0]] *)
Definition first {A} (l : list A) : M A :=
  match l with
  | x :: _ => mret x
  | [] => raise (IndexError "list index out of range")
  end.

Section WithEnv.
Context (env : Env).

(** Step 4 of [verify_spring_security_dependency], for one target:
    [if target_class in found_classes: cls_info = found_classes[target_class][0]; ...] *)
Definition decompile_target (target_class : string)
    (found_classes : ODict.t (list ClassRecord)) : M unit :=
  if ODict.mem target_class found_classes then
    cls_info ← first (default [] (ODict.get target_class found_classes));
    print (nl +:+ PyStr.repeat "=" 80);;
    print ("类: " +:+ target_class);;
    print ("完整类名: " +:+ class_name cls_info);;
    print (PyStr.repeat "=" 80);;
    source_code ←
      Analyzer.get_class_source_code env (jar_path cls_info) (file_path cls_info);
    print source_code;;
    print (nl +:+ PyStr.repeat "=" 80)
  else mret tt.

(** [for target_class in target_classes: ...] *)
Fixpoint decompile_targets (target_classes : list string)
    (found_classes : ODict.t (list ClassRecord)) : M unit :=
  match target_classes with
  | [] => mret tt
  | target_class :: rest =>
      decompile_target target_class found_classes;;
      decompile_targets rest found_classes
  end.

End WithEnv.

End Cli.

(** ** A small world to run the model in *)

Module Demo.

Definition cafebabe52 : list Byte.byte :=
  [xca; xfe; xba; xbe; x00; x00; x00; x34; x00; x10].

Definition broken : list Byte.byte := [x00; x01].

Definition ok_process (out : string) : CompletedProcess :=
  {| returncode := 0; stdout := out; stderr := "" |}.

Definition failed_process (err : string) : CompletedProcess :=
  {| returncode := 1; stdout := ""; stderr := err |}.

(** The resolver leaves the files [files] in the output directory.
    [lib-1.0.jar] holds [org/example/Foo.class] and [org/example/Bar.class];
    [shaded.jar] holds a class of the same simple name [Foo] and a class
    [foo]; any other file is no archive.  The disassembler fails on a class
    file of less than 8 bytes. *)
Definition env_with (resolver_status : Z) (files : list string) : Env := {|
  abspath p :=
    if PyStr.startswith p "/" then p
    else if PyStr.startswith p "./" then "/work/" +:+ PyStr.drop 2 p
    else "/work/" +:+ p;
  makedirs _ := None;
  open_write _ := None;
  listdir _ := inr files;
  path_exists _ := true;
  run_maven _ _ :=
    inr {| returncode := resolver_status;
           stdout := if resolver_status =? 0 then "BUILD SUCCESS" else "";
           stderr := if resolver_status =? 0 then "" else "Could not resolve dependencies" |};
  run_javap argv data :=
    if (length data <? 8)%nat then inr (failed_process "Error: unexpected end of file")
    else inr (ok_process ("Compiled from " +:+ default "" (last argv)));
  archive p :=
    if String.eqb p "./maven_temp/dependencies/lib-1.0.jar" then
      inr [ ("META-INF/MANIFEST.MF", []);
            ("org/example/Foo.class", cafebabe52);
            ("org/example/Bar.class", broken) ]
    else if String.eqb p "./maven_temp/dependencies/shaded.jar" then
      inr [ ("shaded/Foo.class", cafebabe52);
            ("shaded/foo.class", cafebabe52) ]
    else inl (BadZipFile "File is not a zip file");
  read_error _ _ := None;
  mkdtemp := inr "/tmp/tmpdir"
|}.

Definition env (resolver_status : Z) : Env :=
  env_with resolver_status ["lib-1.0.jar"; "notes.txt"; "shaded.jar"; "bad.jar"].

Definition coordinate : JsonObj :=
  {[ "groupId" := "org.example"; "artifactId" := "lib"; "version" := "1.0" ]}.

Definition request (names : list string) : McpServer.Arguments := {|
  McpServer.arg_dependencies := Some [coordinate];
  McpServer.arg_target_classes := Some names;
  McpServer.arg_repositories := None;
  McpServer.arg_work_dir := None;
  McpServer.arg_jar_path := None;
  McpServer.arg_class_file_path := None
|}.

End Demo.

(** ** Notions used to state the properties *)

(** The record that the indexer builds for the entry [file_info]. *)
Definition entry_record (jar_path file_info : string) : ClassRecord :=
  {| class_name := PyStr.replace "/" "." (PyStr.slice_to_neg 6 file_info);
     file_path := file_info;
     jar_path := jar_path |}.

(** Entries that hold compiled code. *)
Definition is_class_entry (file_info : string) : bool :=
  PyStr.endswith file_info ".class".

(** The value [get_classes_from_jar] returns for an artifact. *)
Definition classes_of (env : Env) (jar_path : string) : list ClassRecord :=
  match result_of (Analyzer.get_classes_from_jar env jar_path) with
  | Ret classes => classes
  | Raise _ => []
  end.

(** The text [decompile_class] returns for an entry. *)
Definition decompiled_text (env : Env) (jar_path class_file_path : string) : string :=
  match result_of (Analyzer.decompile_class env jar_path class_file_path) with
  | Ret text => text
  | Raise _ => ""
  end.

(** The first step of every decompilation is the request of a temporary
    directory. *)
Definition is_decompile_event (ev : Event) : bool :=
  match ev with
  | EvMkdtemp => true
  | _ => false
  end.

(** The opening of an archive, which starts the indexing of an artifact. *)
Definition is_index_event (ev : Event) : bool :=
  match ev with
  | EvOpenArchive _ => true
  | _ => false
  end.

(** The opening of a file for writing and the writing itself. *)
Definition is_write_event (ev : Event) : bool :=
  match ev with
  | EvOpenWrite _ | EvWriteText _ _ | EvWriteBytes _ _ => true
  | _ => false
  end.

(** The qualified name the indexer derives from an entry path. *)
Definition indexed_class_name (file_info : string) : string :=
  class_name (entry_record "" file_info).

(** The records of [classes] that the exact lookup files under the key [k]. *)
Definition hits (class_names_lower : list string) (k : string)
    (classes : list ClassRecord) : list ClassRecord :=
  List.filter
    (fun cls =>
       Analyzer.str_in (PyStr.lower (Analyzer.simple_name cls)) class_names_lower
       && String.eqb (Analyzer.simple_name cls) k)
    classes.

(** All records of a list of artifacts, in scan order. *)
Definition all_classes (env : Env) (jar_files : list string) : list ClassRecord :=
  flat_map (classes_of env) jar_files.

(** One turn of the decompile loop on the dict of texts. *)
Definition record_text (env : Env) (decompiled_classes : ODict.t string)
    (item : string * list ClassRecord) : ODict.t string :=
  match snd item with
  | cls_info :: _ =>
      ODict.set (fst item)
        (decompiled_text env (jar_path cls_info) (file_path cls_info))
        decompiled_classes
  | [] => decompiled_classes
  end.

(** A coordinate without one of its three fields. *)
Definition lacks_field (dep : JsonObj) : Prop :=
  dep !! "groupId" = None \/ dep !! "artifactId" = None \/ dep !! "version" = None.

(** The magic number of a class file, as bytes. *)
Definition magic_bytes : list Byte.byte := [xca; xfe; xba; xbe].

(** The records of [classes] whose simple name is exactly [key]. *)
Definition same_name (key : string) (classes : list ClassRecord) : list ClassRecord :=
  List.filter (fun cls => String.eqb (Analyzer.simple_name cls) key) classes.

(** The block that the synthesis writes for a coordinate with its three
    fields. *)
Definition dependency_text (dep : JsonObj) : string :=
  Analyzer.dependency_block (default "" (dep !! "groupId"))
    (default "" (dep !! "artifactId")) (default "" (dep !! "version")).

(** The manifest for a list of coordinates and no repository. *)
Definition pom_text (dependencies : list JsonObj) : string :=
  Analyzer.pom_header +:+ unlines ["    <dependencies>"] +:+
  fold_right (fun dep acc => dependency_text dep +:+ acc) "" dependencies +:+
  unlines ["    </dependencies>"] +:+ "</project>".

(** The start of a subprocess. *)
Definition is_run_event (ev : Event) : bool :=
  match ev with
  | EvRun _ _ => true
  | _ => false
  end.

(** The removal of a directory tree. *)
Definition is_rmtree_event (ev : Event) : bool :=
  match ev with
  | EvRmtree _ => true
  | _ => false
  end.


(** The work directory that [POST /api/analyze] uses for a request, and
    whether the endpoint has created it as a temporary directory; [inl e]
    when the directory cannot be set up. *)
Definition work_dir_setup (env : Env) (renv : RemoteServer.RemoteEnv)
    (request : RemoteServer.AnalyzeDependencyRequest) : PyExc + (string * bool) :=
  if McpServer.falsy (RemoteServer.req_work_dir request) then
    match RemoteServer.mkdtemp_analyze renv with
    | inr d => inr (d, true)
    | inl e => inl e
    end
  else
    match makedirs env (default "" (RemoteServer.req_work_dir request)) with
    | None => inr (default "" (RemoteServer.req_work_dir request), false)
    | Some e => inl e
    end.

(** The coordinates and repositories of a request as the analyzer gets them. *)
Definition request_dependencies (request : RemoteServer.AnalyzeDependencyRequest)
  : list JsonObj :=
  map RemoteServer.dependency_dict (RemoteServer.req_dependencies request).

Definition request_repositories (request : RemoteServer.AnalyzeDependencyRequest)
  : option (list JsonObj) :=
  match RemoteServer.req_repositories request with
  | Some ((_ :: _) as repos) => Some (map RemoteServer.repository_dict repos)
  | _ => None
  end.

(** The analysis request that [POST /api/find-and-decompile] builds. *)
Definition analyze_request_of (request : RemoteServer.FindAndDecompileRequest)
  : RemoteServer.AnalyzeDependencyRequest :=
  {| RemoteServer.req_dependencies := RemoteServer.fd_dependencies request;
     RemoteServer.req_target_classes := RemoteServer.fd_target_classes request;
     RemoteServer.req_repositories := RemoteServer.fd_repositories request;
     RemoteServer.req_work_dir := None |}.

(** Requests to the remote server in the small world. *)
Module DemoRemote.

Definition renv : RemoteServer.RemoteEnv := {|
  RemoteServer.mkdtemp_analyze := inr "/tmp/maven_analyze_1";
  RemoteServer.rmtree _ := None
|}.

Definition dependency : RemoteServer.MavenDependency := {|
  RemoteServer.groupId := "org.example";
  RemoteServer.artifactId := "lib";
  RemoteServer.dep_version := "1.0"
|}.

Definition request (names : list string) (work_dir : option string)
  : RemoteServer.AnalyzeDependencyRequest := {|
  RemoteServer.req_dependencies := [dependency];
  RemoteServer.req_target_classes := names;
  RemoteServer.req_repositories := None;
  RemoteServer.req_work_dir := work_dir
|}.

Definition find_request (names : list string) : RemoteServer.FindAndDecompileRequest := {|
  RemoteServer.fd_dependencies := [dependency];
  RemoteServer.fd_target_classes := names;
  RemoteServer.fd_repositories := None
|}.

End DemoRemote.


(** The small world seen from a temporary work directory: an artifact is
    recognised by its file name. *)
Definition remote_demo_env : Env := {|
  abspath := abspath (Demo.env 0);
  makedirs := makedirs (Demo.env 0);
  open_write := open_write (Demo.env 0);
  listdir := listdir (Demo.env 0);
  path_exists := path_exists (Demo.env 0);
  run_maven := run_maven (Demo.env 0);
  run_javap := run_javap (Demo.env 0);
  archive p := archive (Demo.env 0) ("./maven_temp/dependencies/" +:+ OsPath.basename p);
  read_error := read_error (Demo.env 0);
  mkdtemp := mkdtemp (Demo.env 0)
|}.


(** A class as a parser reports it whose members have the attributes that
    the analyzer reads, and the same class from a parser whose members have
    no attribute [name]. *)
Definition sample_member (name descriptor : string) (flags : Z)
  : Analyzer.JavaMemberInfo := {|
  Analyzer.member_name := inr name;
  Analyzer.member_descriptor := inr descriptor;
  Analyzer.member_access_flags := inr flags
|}.

Definition nameless_member (descriptor : string) (flags : Z)
  : Analyzer.JavaMemberInfo := {|
  Analyzer.member_name := inl (Exception "'JavaMemberInfo' object has no attribute 'name'");
  Analyzer.member_descriptor := inr descriptor;
  Analyzer.member_access_flags := inr flags
|}.

Definition sample_class_with (methods fields : list Analyzer.JavaMemberInfo)
  : Analyzer.JavaClassInfo := {|
  Analyzer.get_this := "org/example/Foo";
  Analyzer.get_super := Some "java/lang/Object";
  Analyzer.get_interfaces := ["java/io/Serializable"];
  Analyzer.cls_access_flags := 0x0021;
  Analyzer.version := (52, 0);
  Analyzer.methods := methods;
  Analyzer.fields := fields
|}.

Definition sample_class : Analyzer.JavaClassInfo :=
  sample_class_with [sample_member "main" "([Ljava/lang/String;)V" 0x0009]
                    [sample_member "names" "[Ljava/lang/String;" 0x0012].

Definition nameless_class : Analyzer.JavaClassInfo :=
  sample_class_with [nameless_member "([Ljava/lang/String;)V" 0x0009]
                    [nameless_member "[Ljava/lang/String;" 0x0012].

(** An interpreter with the default recursion limit. *)
Definition sample_interpreter : Analyzer.Interpreter := {|
  Analyzer.frames := 1000;
  Analyzer.recursion_error := Exception "maximum recursion depth exceeded"
|}.


(** Reading one of the three attributes of a member raises [e]. *)
Definition read_failure (member : Analyzer.JavaMemberInfo) (e : PyExc) : Prop :=
  Analyzer.member_name member = inl e \/
  Analyzer.member_descriptor member = inl e \/
  Analyzer.member_access_flags member = inl e.

(** The dict [info] describes the method [method], and the field [field]. *)
Definition method_info_of (method : Analyzer.JavaMemberInfo) (info : Analyzer.MethodInfo)
  : Prop :=
  Analyzer.member_name method = inr (Analyzer.method_name info) /\
  Analyzer.member_descriptor method = inr (Analyzer.method_descriptor info) /\
  (exists flags,
     Analyzer.member_access_flags method = inr flags /\
     Analyzer.method_access_flags info = Analyzer._parse_access_flags flags) /\
  Analyzer.signature info =
    Analyzer._format_method_signature (Analyzer.method_name info)
      (Analyzer.method_descriptor info).

Definition field_info_of (field : Analyzer.JavaMemberInfo) (info : Analyzer.FieldInfo)
  : Prop :=
  Analyzer.member_name field = inr (Analyzer.field_name info) /\
  Analyzer.member_descriptor field = inr (Analyzer.field_descriptor info) /\
  (exists flags,
     Analyzer.member_access_flags field = inr flags /\
     Analyzer.field_access_flags info = Analyzer._parse_access_flags flags) /\
  Analyzer.field_type info = Analyzer._parse_field_type (Analyzer.field_descriptor info).


(** * Properties *)

(** ** Running the model *)

Example ex_endswith : PyStr.endswith "org/example/Foo.class" ".class" = true.
Proof. reflexivity. Qed.
Example ex_slice : PyStr.slice_to_neg 6 "org/example/Foo.class" = "org/example/Foo".
Proof. reflexivity. Qed.
Example ex_replace1 : PyStr.replace "/" "." "org/example/Foo" = "org.example.Foo".
Proof. reflexivity. Qed.
Example ex_replace2 : PyStr.replace ".class" "" "a.class.Foo.class" = "a.Foo".
Proof. reflexivity. Qed.
Example ex_replace3 : PyStr.replace "aa" "b" "aaa" = "ba".
Proof. reflexivity. Qed.
Example ex_split : PyStr.split "." "org.example.Foo" = ["org"; "example"; "Foo"].
Proof. reflexivity. Qed.
Example ex_split2 : PyStr.split "." "a." = ["a"; ""].
Proof. reflexivity. Qed.
Example ex_lower : PyStr.lower "FooBar_9" = "foobar_9".
Proof. reflexivity. Qed.
Example ex_str : PyStr.str_of_nat 52 = "52" /\ PyStr.str_of_nat 0 = "0".
Proof. split; reflexivity. Qed.
Example ex_utf8 : PyStr.len "反编译失败: " = 17%nat.
Proof. reflexivity. Qed.
Example ex_join : OsPath.join "./maven_temp" "pom.xml" = "./maven_temp/pom.xml".
Proof. reflexivity. Qed.
Example ex_basename : OsPath.basename "org/example/Foo.class" = "Foo.class".
Proof. reflexivity. Qed.


(** The end-to-end scenarios of the specification: one artifact with the
    classes [Foo] and [Bar]. *)
Example scenario_A :
  exists data,
    result_of (McpServer.handle_analyze_dependency
                 (Demo.env_with 0 ["lib-1.0.jar"]) (Demo.request ["Foo"])) = Ret data /\
    McpServer.found_classes data =
      [("Foo", [ {| class_name := "org.example.Foo";
                    file_path := "org/example/Foo.class";
                    jar_path := "./maven_temp/dependencies/lib-1.0.jar" |} ])] /\
    McpServer.missing_classes (McpServer.summary data) = [].
Proof. eexists. repeat split; reflexivity. Qed.

Example scenario_B :
  exists data,
    result_of (McpServer.handle_analyze_dependency
                 (Demo.env_with 0 ["lib-1.0.jar"]) (Demo.request ["Baz"])) = Ret data /\
    McpServer.found_classes data = [] /\
    McpServer.missing_classes (McpServer.summary data) = ["Baz"].
Proof. eexists. repeat split; reflexivity. Qed.

Example scenario_C :
  McpServer.call_tool (Demo.env_with 1 ["lib-1.0.jar"]) "analyze_maven_dependency"
    (Demo.request ["Foo"]) =
  (trace_of (McpServer.handle_analyze_dependency
               (Demo.env_with 1 ["lib-1.0.jar"]) (Demo.request ["Foo"])),
   Ret (McpServer.OutError "Maven命令执行失败")).
Proof. vm_compute. reflexivity. Qed.

Example scenario_D :
  exists data,
    result_of (McpServer.handle_find_and_decompile
                 (Demo.env_with 0 ["lib-1.0.jar"]) (Demo.request ["Foo"; "Bar"])) =
    Ret (McpServer.OutFindAndDecompile data
           [("Foo", "Compiled from /tmp/tmpdir/Foo.class");
            ("Bar", "反编译失败: Error: unexpected end of file")]).
Proof. eexists. reflexivity. Qed.

Example ex_summary :
  Analyzer.analyze_bytecode Demo.cafebabe52 =
  Some {| Analyzer.magic := "0xcafebabe";
          Analyzer.java_version := "52.0";
          Analyzer.java_compatible := "8";
          Analyzer.bytecode_size := 10 |}.
Proof. reflexivity. Qed.

(** ** Strings *)

Module PyStrFacts.
Import PyStr.

Lemma app_cons c s t : String c s +:+ t = String c (s +:+ t).
Proof. reflexivity. Qed.

Lemma app_nil_l s : "" +:+ s = s.
Proof. reflexivity. Qed.

Lemma app_nil_r s : s +:+ "" = s.
Proof. induction s as [|c s IH]; [reflexivity|]. rewrite app_cons. by f_equal. Qed.

Lemma app_assoc s t u : (s +:+ t) +:+ u = s +:+ (t +:+ u).
Proof. induction s as [|c s IH]; [reflexivity|]. rewrite !app_cons. by f_equal. Qed.

Lemma len_app s t : len (s +:+ t) = (len s + len t)%nat.
Proof.
  induction s as [|c s IH]; [reflexivity|].
  rewrite app_cons. unfold len in *. simpl. by rewrite IH.
Qed.

Lemma take_drop n s : take n s +:+ drop n s = s.
Proof.
  revert s. induction n as [|n IH]; intros [|c s]; try reflexivity.
  simpl. rewrite app_cons. by rewrite IH.
Qed.

Lemma take_app_len q suf : take (len q) (q +:+ suf) = q.
Proof.
  induction q as [|c q IH]; [reflexivity|].
  rewrite app_cons. unfold len in *. simpl. by rewrite IH.
Qed.

Lemma drop_app_len q suf : drop (len q) (q +:+ suf) = suf.
Proof.
  induction q as [|c q IH]; [reflexivity|].
  rewrite app_cons. unfold len in *. simpl. by rewrite IH.
Qed.

(** [s.endswith(suf)] says that [s] is some text followed by [suf]. *)
Lemma endswith_spec s suf : endswith s suf = true <-> exists q, s = q +:+ suf.
Proof.
  unfold endswith. split.
  - intros [Hlen Heq]%andb_prop. apply String.eqb_eq in Heq.
    exists (take (len s - len suf) s).
    transitivity (take (len s - len suf) s +:+ drop (len s - len suf) s).
    + symmetry. apply take_drop.
    + by rewrite Heq.
  - intros [q ->]. rewrite len_app.
    replace (len q + len suf - len suf)%nat with (len q) by lia.
    rewrite drop_app_len, String.eqb_refl, andb_true_r.
    apply Nat.leb_le. lia.
Qed.

(** [(q + suf)[:-len(suf)]] is [q]. *)
Lemma slice_to_neg_app q suf : slice_to_neg (len suf) (q +:+ suf) = q.
Proof.
  unfold slice_to_neg. rewrite len_app.
  replace (len q + len suf - len suf)%nat with (len q) by lia.
  apply take_app_len.
Qed.

Lemma prefix_app old r : is_prefix old (old +:+ r) = true.
Proof.
  induction old as [|c old IH]; [reflexivity|].
  rewrite app_cons. simpl. by rewrite Ascii.eqb_refl, IH.
Qed.

Lemma prefix_refl old : is_prefix old old = true.
Proof. rewrite <- (app_nil_r old) at 2. apply prefix_app. Qed.

(** Replacing a one-character text is a character-wise substitution. *)
Lemma replace_char a b s :
  replace (String a "") (String b "") s = subst_char a b s.
Proof.
  unfold replace. induction s as [|c s IH]; [reflexivity|].
  cbn [replace_from subst_char is_prefix len String.length Nat.sub].
  rewrite andb_true_r, (Ascii.eqb_sym c a).
  destruct (Ascii.eqb a c).
  - by rewrite app_cons, app_nil_l, IH.
  - by rewrite IH.
Qed.

Lemma subst_char_app a b s t :
  subst_char a b (s +:+ t) = subst_char a b s +:+ subst_char a b t.
Proof.
  induction s as [|c s IH]; [reflexivity|].
  rewrite app_cons. simpl. rewrite app_cons. by rewrite IH.
Qed.

(** Once a whole occurrence has been matched, the rest of it is passed over. *)
Lemma replace_from_skip_all old new s k :
  (len s <= k)%nat -> replace_from old new k s = "".
Proof.
  revert k. induction s as [|c s IH]; intros k Hk; [reflexivity|].
  unfold len in *. simpl in *. destruct k as [|k]; [lia|]. apply IH. lia.
Qed.

Lemma occurrences_suffix_pos old q :
  old <> "" -> (1 <= occurrences old (q +:+ old))%nat.
Proof.
  intros Hne. induction q as [|c q IH].
  - rewrite app_nil_l. destruct old as [|c old]; [done|].
    cbn [occurrences]. rewrite prefix_refl. lia.
  - rewrite app_cons. cbn [occurrences]. lia.
Qed.

(** Deleting [old] from a text that ends in [old] and holds it nowhere else
    removes exactly the suffix. *)
Lemma replace_only_suffix old q :
  old <> "" ->
  occurrences old (q +:+ old) = 1%nat ->
  replace old "" (q +:+ old) = q.
Proof.
  intros Hne. unfold replace. induction q as [|c q IH]; intros Hocc.
  - rewrite app_nil_l. destruct old as [|c old]; [done|].
    cbn [replace_from]. rewrite prefix_refl, app_nil_l.
    apply replace_from_skip_all. unfold len. simpl. lia.
  - pose proof (occurrences_suffix_pos old q Hne) as Hpos.
    change (String c q +:+ old) with (String c (q +:+ old)) in *.
    cbn [occurrences] in Hocc. cbn [replace_from].
    destruct (is_prefix old (String c (q +:+ old))); [lia|].
    f_equal. apply IH. simpl in Hocc. lia.
Qed.

Lemma split_nonempty sep s : split sep s <> [].
Proof.
  destruct s as [|c s]; [done|]. simpl.
  destruct (Ascii.eqb c sep); [done|]. by destruct (split sep s).
Qed.

Lemma contains_app_r pre s : contains s (pre +:+ s) = true.
Proof.
  induction pre as [|c pre IH].
  - rewrite app_nil_l. destruct s; simpl; [done|].
    by rewrite Ascii.eqb_refl, prefix_refl.
  - rewrite app_cons. cbn [contains]. rewrite IH. apply orb_true_r.
Qed.

End PyStrFacts.

(** ** Computations *)

Ltac munfold :=
  unfold mbind, mret, M_bind, M_ret, m_bind, m_ret, try_except, try_finally,
    subprocess_run, lift, check, raise, print, emit, trace_of, result_of in *.

(** Case analysis on the next answer of the outside world. *)
Ltac case_oracle :=
  match goal with
  | |- context [mkdtemp ?e] => destruct (mkdtemp e) eqn:?
  | |- context [archive ?e ?j] => destruct (archive e j) eqn:?
  | |- context [open_write ?e ?p] => destruct (open_write e p) eqn:?
  | |- context [makedirs ?e ?p] => destruct (makedirs e p) eqn:?
  | |- context [List.find ?f ?l] => destruct (List.find f l) eqn:?
  | |- context [run_javap ?e ?a ?d] => destruct (run_javap e a d) eqn:?
  | |- context [run_maven ?e ?a ?d] => destruct (run_maven e a d) eqn:?
  | |- context [listdir ?e ?d] => destruct (listdir e d) eqn:?
  | |- context [read_error ?e ?j ?n] => destruct (read_error e j n) eqn:?
  | |- context [returncode ?r =? 0] => destruct (returncode r =? 0) eqn:?
  end; simpl.

Ltac in_trace H :=
  rewrite list_elem_of_In in H; simpl in H;
  repeat (destruct H as [H|H]; try discriminate H); try done.

Lemma result_bind {A B} (m : M A) (f : A -> M B) :
  result_of (m ≫= f) =
  match result_of m with
  | Ret a => result_of (f a)
  | Raise e => Raise e
  end.
Proof. destruct m as [t [a|e]]; munfold; simpl; [by destruct (f a)|done]. Qed.

Lemma trace_bind {A B} (m : M A) (f : A -> M B) :
  trace_of (m ≫= f) =
  trace_of m ++ match result_of m with
                | Ret a => trace_of (f a)
                | Raise _ => []
                end.
Proof.
  destruct m as [t [a|e]]; munfold; simpl; [by destruct (f a)|].
  by rewrite app_nil_r.
Qed.


Lemma bind_pure_l {A B} (a : A) (f : A -> M B) : ([], Ret a) ≫= f = f a.
Proof. munfold. simpl. by destruct (f a). Qed.

Lemma bind_ret_l {A B} (a : A) (f : A -> M B) : mret a ≫= f = f a.
Proof. apply bind_pure_l. Qed.

Lemma bind_raise_l {A B} t e (f : A -> M B) : (t, Raise e) ≫= f = (t, Raise e).
Proof. reflexivity. Qed.

Lemma result_print text : result_of (print text) = Ret tt.
Proof. reflexivity. Qed.

Lemma trace_print text : trace_of (print text) = [EvPrint text].
Proof. reflexivity. Qed.

Lemma result_try_except {A} (body : M A) (handler : PyExc -> M A) :
  result_of (try_except body handler) =
  match result_of body with
  | Ret a => Ret a
  | Raise e => result_of (handler e)
  end.
Proof. destruct body as [t [a|e]]; munfold; simpl; [done|by destruct (handler e)]. Qed.

Lemma trace_try_except {A} (body : M A) (handler : PyExc -> M A) :
  trace_of (try_except body handler) =
  trace_of body ++ match result_of body with
                   | Ret _ => []
                   | Raise e => trace_of (handler e)
                   end.
Proof.
  destruct body as [t [a|e]]; munfold; simpl; [by rewrite app_nil_r|].
  by destruct (handler e).
Qed.

Lemma trace_try_finally_emit {A} (body : M A) (ev : Event) :
  trace_of (try_finally body (emit ev)) = trace_of body ++ [ev].
Proof. by destruct body as [t r]. Qed.

Lemma result_try_finally_emit {A} (body : M A) (ev : Event) :
  result_of (try_finally body (emit ev)) = result_of body.
Proof. by destruct body as [t r]. Qed.


(** ** The indexer *)

Lemma copy_cls_info_id cls : McpServer.copy_cls_info cls = cls.
Proof. by destruct cls. Qed.

Lemma namelist_loop_spec jar names classes :
  Analyzer.namelist_loop jar names classes =
  classes ++ map (entry_record jar) (List.filter is_class_entry names).
Proof.
  revert classes. induction names as [|p names IH]; intros classes; simpl.
  - by rewrite app_nil_r.
  - unfold is_class_entry at 1. destruct (PyStr.endswith p ".class"); rewrite IH; [|done].
    by rewrite <- app_assoc.
Qed.

Lemma get_classes_readable env jar entries :
  archive env jar = inr entries ->
  Analyzer.get_classes_from_jar env jar =
  ([EvOpenArchive jar],
   Ret (map (entry_record jar) (List.filter is_class_entry (map fst entries)))).
Proof.
  intros H. unfold Analyzer.get_classes_from_jar, Analyzer.ZipFile, Analyzer.namelist.
  munfold. rewrite H. simpl. by rewrite namelist_loop_spec.
Qed.

Lemma get_classes_unreadable env jar e :
  archive env jar = inl e ->
  Analyzer.get_classes_from_jar env jar =
  ([EvOpenArchive jar; EvPrint ("解析jar包失败 " +:+ jar +:+ ": " +:+ exc_str e)],
   Ret []).
Proof.
  intros H. unfold Analyzer.get_classes_from_jar, Analyzer.ZipFile.
  munfold. by rewrite H.
Qed.

Lemma get_classes_result env jar :
  result_of (Analyzer.get_classes_from_jar env jar) = Ret (classes_of env jar).
Proof.
  unfold classes_of. destruct (archive env jar) as [e|entries] eqn:H.
  - by rewrite (get_classes_unreadable _ _ _ H).
  - by rewrite (get_classes_readable _ _ _ H).
Qed.

Lemma get_classes_trace env jar ev :
  ev ∈ trace_of (Analyzer.get_classes_from_jar env jar) ->
  ev = EvOpenArchive jar \/ exists text, ev = EvPrint text.
Proof.
  destruct (archive env jar) as [e|entries] eqn:H.
  - rewrite (get_classes_unreadable _ _ _ H). simpl.
    intros [<-|[<-|[]]]%list_elem_of_In; eauto.
  - rewrite (get_classes_readable _ _ _ H). simpl.
    intros [<-|[]]%list_elem_of_In; eauto.
Qed.

Lemma entry_record_name q :
  indexed_class_name (q +:+ ".class") = PyStr.subst_char "/" "." q.
Proof.
  unfold indexed_class_name, entry_record. simpl.
  change 6%nat with (PyStr.len ".class").
  by rewrite PyStrFacts.slice_to_neg_app, PyStrFacts.replace_char.
Qed.

(** C7: for every archive that can be read, the indexer returns exactly one
    record per entry whose name ends in ".class", in archive order, and none
    for any other entry; the qualified name of a record is the entry path
    without its 6-character suffix ".class" and with every '/' replaced by
    '.'. *)
Theorem get_classes_from_jar_index env jar entries :
  archive env jar = inr entries ->
  exists classes,
    result_of (Analyzer.get_classes_from_jar env jar) = Ret classes /\
    map file_path classes = List.filter is_class_entry (map fst entries) /\
    Forall (fun cls =>
              jar_path cls = jar /\
              exists q, file_path cls = q +:+ ".class" /\
                        PyStr.len (file_path cls) = (PyStr.len q + 6)%nat /\
                        class_name cls = PyStr.subst_char "/" "." q)
           classes.
Proof.
  intros H. rewrite (get_classes_readable _ _ _ H).
  eexists. split; [reflexivity|]. split.
  - rewrite map_map. simpl. apply map_id.
  - apply Forall_forall. intros cls [p [<- Hp]]%list_elem_of_In%in_map_iff.
    apply filter_In in Hp as [_ Hp]. apply PyStrFacts.endswith_spec in Hp as [q ->].
    split; [done|]. exists q. split; [done|]. split.
    + unfold entry_record. cbn [file_path]. by rewrite PyStrFacts.len_app.
    + apply entry_record_name.
Qed.

Lemma get_classes_from_jar_index_witness :
  exists classes,
    result_of (Analyzer.get_classes_from_jar (Demo.env 0)
                 "./maven_temp/dependencies/lib-1.0.jar") = Ret classes /\
    map file_path classes = ["org/example/Foo.class"; "org/example/Bar.class"] /\
    map class_name classes = ["org.example.Foo"; "org.example.Bar"].
Proof.
  destruct (get_classes_from_jar_index (Demo.env 0)
              "./maven_temp/dependencies/lib-1.0.jar" _ eq_refl)
    as (classes & Hres & Hpaths & _).
  exists classes. split; [exact Hres|]. split; [exact Hpaths|].
  vm_compute in Hres. injection Hres as <-. reflexivity.
Defined.

(** ** Insertion-ordered dicts *)

Module ODictFacts.
Import ODict.

Section Facts.
Context {V : Type}.
Implicit Types (d : ODict.t V) (k : string) (v : V).

Lemma get_set_eq k v d : get k (set k v d) = Some v.
Proof.
  induction d as [|[k' v'] d IH]; simpl.
  - by rewrite String.eqb_refl.
  - destruct (String.eqb k k') eqn:E; simpl; rewrite E; [done|apply IH].
Qed.

Lemma get_set_ne k k' v d : k <> k' -> get k' (set k v d) = get k' d.
Proof.
  intros Hne. induction d as [|[k0 v0] d IH]; simpl.
  - destruct (String.eqb_spec k' k); [congruence|done].
  - destruct (String.eqb_spec k k0) as [->|]; simpl.
    + destruct (String.eqb_spec k' k0); [congruence|done].
    + by rewrite IH.
Qed.

Lemma set_set k v v' d : set k v' (set k v d) = set k v' d.
Proof.
  induction d as [|[k0 v0] d IH]; simpl.
  - by rewrite String.eqb_refl.
  - destruct (String.eqb k k0) eqn:E; simpl; rewrite E; [done|by rewrite IH].
Qed.

Lemma get_None_keys k d : get k d = None <-> k ∉ keys d.
Proof.
  induction d as [|[k0 v0] d IH]; simpl.
  - split; [intros _; apply not_elem_of_nil|done].
  - rewrite not_elem_of_cons. destruct (String.eqb_spec k k0) as [->|Hne].
    + split; [done|]. intros [? _]. congruence.
    + rewrite IH. tauto.
Qed.

Lemma get_Some_keys k v d : get k d = Some v -> k ∈ keys d.
Proof.
  intros H. destruct (decide (k ∈ keys d)) as [|Hn]; [done|].
  apply get_None_keys in Hn. congruence.
Qed.

Lemma get_Some_elem k v d : get k d = Some v -> (k, v) ∈ d.
Proof.
  induction d as [|[k0 v0] d IH]; simpl; [done|].
  destruct (String.eqb_spec k k0) as [->|Hne].
  - intros [= ->]. apply list_elem_of_here.
  - intros H. apply list_elem_of_further. by apply IH.
Qed.

Lemma keys_set_fresh k v d : k ∉ keys d -> keys (set k v d) = keys d ++ [k].
Proof.
  induction d as [|[k0 v0] d IH]; simpl; [done|].
  rewrite not_elem_of_cons. intros [Hne Hnin].
  destruct (String.eqb_spec k k0); [congruence|]. simpl. unfold keys in *. by rewrite IH.
Qed.

Lemma keys_set_present k v d : k ∈ keys d -> keys (set k v d) = keys d.
Proof.
  induction d as [|[k0 v0] d IH]; simpl.
  - intros H. by apply elem_of_nil in H.
  - destruct (String.eqb_spec k k0) as [->|Hne]; [done|].
    intros [?|Hin]%elem_of_cons; [congruence|]. simpl. unfold keys in *. by rewrite IH.
Qed.

Lemma NoDup_keys_set k v d : NoDup (keys d) -> NoDup (keys (set k v d)).
Proof.
  intros Hd. destruct (decide (k ∈ keys d)) as [Hin|Hnin].
  - by rewrite keys_set_present.
  - rewrite keys_set_fresh by done. apply NoDup_app. split; [done|].
    split; [|apply NoDup_singleton].
    intros x Hx ->%list_elem_of_singleton. done.
Qed.

(** After [d[k] = v] every entry is the new one or an old one. *)
Lemma elem_of_set k v d k' v' :
  (k', v') ∈ set k v d -> (k' = k /\ v' = v) \/ (k', v') ∈ d.
Proof.
  induction d as [|[k0 v0] d IH]; simpl.
  - intros [= -> ->]%list_elem_of_singleton. by left.
  - destruct (String.eqb_spec k k0) as [->|Hne].
    + intros [[= -> ->]|Hin]%elem_of_cons; [by left|].
      right. by apply list_elem_of_further.
    + intros [[= -> ->]|Hin]%elem_of_cons.
      * right. apply list_elem_of_here.
      * destruct (IH Hin) as [?|?]; [by left|]. right. by apply list_elem_of_further.
Qed.

Lemma elem_get k v d : NoDup (keys d) -> (k, v) ∈ d -> get k d = Some v.
Proof.
  induction d as [|[k0 v0] d IH]; intros Hnd Hin.
  - by apply elem_of_nil in Hin.
  - change (NoDup (k0 :: keys d)) in Hnd. apply NoDup_cons in Hnd as [Hk0 Hnd].
    simpl. apply elem_of_cons in Hin as [[= -> ->]|Hin].
    + by rewrite String.eqb_refl.
    + destruct (String.eqb_spec k k0) as [->|_]; [|by apply IH].
      exfalso. apply Hk0. apply (list_elem_of_fmap_2 fst) in Hin.
      by rewrite list_fmap_alt in Hin.
Qed.

End Facts.

End ODictFacts.

(** ** The exact lookup *)

Section ExactLookup.
Context (env : Env).
Implicit Types (result : ODict.t (list ClassRecord)) (cls : ClassRecord).

Lemma add_match_set cls result :
  Analyzer.add_match cls result =
  ODict.set (Analyzer.simple_name cls)
    (default [] (ODict.get (Analyzer.simple_name cls) result) ++ [cls]) result.
Proof.
  unfold Analyzer.add_match, ODict.mem.
  destruct (ODict.get (Analyzer.simple_name cls) result) eqn:E; simpl.
  - by rewrite E.
  - by rewrite ODictFacts.get_set_eq, ODictFacts.set_set.
Qed.

Lemma get_add_match k cls result :
  ODict.get k (Analyzer.add_match cls result) =
  if String.eqb (Analyzer.simple_name cls) k
  then Some (default [] (ODict.get k result) ++ [cls])
  else ODict.get k result.
Proof.
  rewrite add_match_set. destruct (String.eqb_spec (Analyzer.simple_name cls) k) as [<-|Hne].
  - apply ODictFacts.get_set_eq.
  - by apply ODictFacts.get_set_ne.
Qed.

(** What the loop over the classes leaves under a key. *)
Lemma get_exact_classes_loop k classes lowers result :
  ODict.get k (Analyzer.exact_classes_loop classes lowers result) =
  match hits lowers k classes with
  | [] => ODict.get k result
  | h => Some (default [] (ODict.get k result) ++ h)
  end.
Proof.
  revert result. induction classes as [|cls classes IH]; intros result; [done|].
  cbn [Analyzer.exact_classes_loop hits List.filter].
  destruct (Analyzer.str_in _ lowers); cbn [andb]; [|apply IH].
  rewrite IH, get_add_match. fold (hits lowers k classes).
  destruct (String.eqb (Analyzer.simple_name cls) k); [|done].
  destruct (hits lowers k classes); simpl; [done|].
  by rewrite <- app_assoc.
Qed.

Lemma exact_classes_loop_app a b lowers result :
  Analyzer.exact_classes_loop (a ++ b) lowers result =
  Analyzer.exact_classes_loop b lowers (Analyzer.exact_classes_loop a lowers result).
Proof.
  revert result. induction a as [|cls a IH]; intros result; [done|].
  simpl. destruct (Analyzer.str_in _ lowers); apply IH.
Qed.

Lemma NoDup_exact_classes_loop classes lowers result :
  NoDup (ODict.keys result) ->
  NoDup (ODict.keys (Analyzer.exact_classes_loop classes lowers result)).
Proof.
  revert result. induction classes as [|cls classes IH]; intros result H; [done|].
  simpl. destruct (Analyzer.str_in _ lowers); apply IH; [|done].
  rewrite add_match_set. by apply ODictFacts.NoDup_keys_set.
Qed.

(** No key is ever left with an empty list. *)
Lemma nonempty_exact_classes_loop classes lowers result :
  Forall (fun item => snd item <> []) result ->
  Forall (fun item => snd item <> [])
         (Analyzer.exact_classes_loop classes lowers result).
Proof.
  revert result. induction classes as [|cls classes IH]; intros result H; [done|].
  simpl. destruct (Analyzer.str_in _ lowers); apply IH; [|done].
  rewrite add_match_set. apply Forall_forall. intros [k' v'] Hin.
  apply ODictFacts.elem_of_set in Hin as [[_ ->]|Hin]; simpl.
  - intros [_ ?]%app_eq_nil. done.
  - by apply (proj1 (Forall_forall _ _) H (k', v')).
Qed.

Lemma exact_jars_loop_result jar_files lowers result :
  result_of (Analyzer.exact_jars_loop env jar_files lowers result) =
  Ret (Analyzer.exact_classes_loop (all_classes env jar_files) lowers result).
Proof.
  revert result. induction jar_files as [|jar jars IH]; intros result; [done|].
  cbn [Analyzer.exact_jars_loop all_classes flat_map].
  rewrite result_bind, get_classes_result, IH.
  by rewrite exact_classes_loop_app.
Qed.

Lemma exact_jars_loop_trace jar_files lowers result ev :
  ev ∈ trace_of (Analyzer.exact_jars_loop env jar_files lowers result) ->
  (exists jar, ev = EvOpenArchive jar) \/ exists text, ev = EvPrint text.
Proof.
  revert result. induction jar_files as [|jar jars IH]; intros result.
  - simpl. intros H. by apply elem_of_nil in H.
  - cbn [Analyzer.exact_jars_loop]. rewrite trace_bind, get_classes_result.
    intros [H|H]%elem_of_app.
    + apply get_classes_trace in H as [->|?]; eauto.
    + by apply IH in H.
Qed.

Lemma find_exact_result jar_files class_names :
  result_of (Analyzer.find_exact_class_in_jars env jar_files class_names) =
  Ret (Analyzer.exact_classes_loop (all_classes env jar_files)
         (map PyStr.lower class_names) []).
Proof. apply exact_jars_loop_result. Qed.

Lemma hits_app lowers k a b : hits lowers k (a ++ b) = hits lowers k a ++ hits lowers k b.
Proof. apply List.filter_app. Qed.

Lemma str_in_spec x l : Analyzer.str_in x l = true <-> x ∈ l.
Proof.
  unfold Analyzer.str_in. rewrite existsb_exists, list_elem_of_In. split.
  - intros (y & Hy & ->%String.eqb_eq). done.
  - intros H. exists x. by rewrite String.eqb_refl.
Qed.

Lemma elem_of_hits lowers k classes cls :
  cls ∈ hits lowers k classes <->
  cls ∈ classes /\ PyStr.lower (Analyzer.simple_name cls) ∈ lowers /\
  Analyzer.simple_name cls = k.
Proof.
  unfold hits. rewrite list_elem_of_In, filter_In, andb_true_iff, str_in_spec.
  by rewrite String.eqb_eq, <- list_elem_of_In.
Qed.

Lemma lower_requested name class_names :
  name ∈ class_names -> PyStr.lower name ∈ map PyStr.lower class_names.
Proof. rewrite !list_elem_of_In. apply in_map. Qed.

End ExactLookup.

(** ** The decompiler *)

Section Decompiler.
Context (env : Env).

(** A handler that returns a text leaves nothing to propagate. *)
Lemma try_except_returns {A} (body : M A) (h : PyExc -> A) :
  exists a, result_of (try_except body (fun e => mret (h e))) = Ret a.
Proof. destruct body as [t [a|e]]; munfold; simpl; eauto. Qed.

Lemma decompile_class_returns jar path :
  result_of (Analyzer.decompile_class env jar path) = Ret (decompiled_text env jar path).
Proof.
  unfold decompiled_text, Analyzer.decompile_class.
  match goal with
  | |- context [try_except ?body _] =>
      destruct (try_except_returns body (fun e => "反编译出错: " +:+ exc_str e))
        as [text Htext]
  end.
  cbv beta in Htext. by rewrite Htext.
Qed.


(** The first thing a decompilation does is to ask for a temporary directory. *)
Lemma decompile_class_starts jar path :
  exists rest, trace_of (Analyzer.decompile_class env jar path) = EvMkdtemp :: rest.
Proof.
  unfold Analyzer.decompile_class, Analyzer.with_TemporaryDirectory.
  rewrite trace_try_except, trace_bind. simpl. eauto.
Qed.

Lemma decompile_loop_result items decompiled_classes :
  result_of (McpServer.decompile_loop env items decompiled_classes) =
  Ret (fold_left (record_text env) items decompiled_classes).
Proof.
  revert decompiled_classes.
  induction items as [|[k [|cls_info l]] items IH]; intros d; simpl; [done|apply IH|].
  rewrite result_bind, decompile_class_returns. apply IH.
Qed.

(** With distinct keys, a key holds the text of the first record of its list. *)
Lemma get_fold_record_text items d k :
  NoDup (ODict.keys items) ->
  ODict.get k (fold_left (record_text env) items d) =
  match ODict.get k items with
  | Some (cls_info :: _) =>
      Some (decompiled_text env (jar_path cls_info) (file_path cls_info))
  | _ => ODict.get k d
  end.
Proof.
  revert d. induction items as [|[k0 l0] items IH]; intros d Hnd; [done|].
  change (NoDup (k0 :: ODict.keys items)) in Hnd.
  apply NoDup_cons in Hnd as [Hk0 Hnd]. cbn [fold_left ODict.get].
  rewrite IH by done. destruct (String.eqb_spec k k0) as [->|Hne].
  - apply ODictFacts.get_None_keys in Hk0. rewrite Hk0.
    unfold record_text. destruct l0; simpl; [done|]. apply ODictFacts.get_set_eq.
  - assert (ODict.get k (record_text env d (k0, l0)) = ODict.get k d) as ->; [|done].
    unfold record_text. destruct l0; simpl; [done|].
    apply ODictFacts.get_set_ne. congruence.
Qed.

(** With distinct keys and no empty list, every key gets a text, in order. *)
Lemma keys_fold_record_text items d :
  NoDup (ODict.keys d ++ ODict.keys items) ->
  Forall (fun item => snd item <> []) items ->
  ODict.keys (fold_left (record_text env) items d) = ODict.keys d ++ ODict.keys items.
Proof.
  revert d. induction items as [|[k0 l0] items IH]; intros d Hnd Hne; simpl.
  - by rewrite app_nil_r.
  - apply Forall_cons in Hne as [Hl0 Hne].
    change (ODict.keys ((k0, l0) :: items)) with (k0 :: ODict.keys items) in *.
    destruct l0 as [|cls_info l0]; [done|]. unfold record_text at 2.
    cbn [fst snd].
    assert (k0 ∉ ODict.keys d) as Hfresh.
    { apply NoDup_app in Hnd as (_ & Hdis & _). intros Hin.
      apply (Hdis k0 Hin). apply list_elem_of_here. }
    rewrite IH; [|rewrite ODictFacts.keys_set_fresh by done|done].
    + rewrite ODictFacts.keys_set_fresh by done. by rewrite <- app_assoc.
    + by rewrite <- app_assoc.
Qed.

Lemma remote_decompile_loop_result items decompiled_classes :
  result_of (RemoteServer.decompile_loop env items decompiled_classes) =
  Ret (fold_left (record_text env) items decompiled_classes).
Proof.
  revert decompiled_classes.
  induction items as [|[k [|cls_info l]] items IH]; intros d; simpl; [done|apply IH|].
  rewrite result_bind, result_try_except, result_bind, decompile_class_returns.
  apply IH.
Qed.

Lemma get_class_source_code_result jar path :
  result_of (Analyzer.get_class_source_code env jar path) =
  Ret (decompiled_text env jar path).
Proof.
  unfold Analyzer.get_class_source_code.
  repeat rewrite result_bind, result_print.
  by rewrite result_bind, decompile_class_returns.
Qed.

(** The command-line check prints the text of the first record of a found
    target. *)
Lemma decompile_target_first target found rep others :
  ODict.get target found = Some (rep :: others) ->
  result_of (Cli.decompile_target env target found) = Ret tt /\
  EvPrint (decompiled_text env (jar_path rep) (file_path rep))
    ∈ trace_of (Cli.decompile_target env target found).
Proof.
  intros Hget. unfold Cli.decompile_target, ODict.mem. rewrite Hget.
  cbn [default from_option id Cli.first]. rewrite bind_ret_l. split.
  - repeat rewrite result_bind, result_print.
    rewrite result_bind, get_class_source_code_result.
    by rewrite result_bind, result_print.
  - repeat rewrite trace_bind, result_print, trace_print.
    rewrite trace_bind, get_class_source_code_result.
    rewrite trace_bind, result_print, !trace_print.
    do 5 (apply elem_of_app; right). apply list_elem_of_here.
Qed.

Lemma decompile_target_returns target found :
  Forall (fun item => snd item <> []) found ->
  result_of (Cli.decompile_target env target found) = Ret tt.
Proof.
  intros Hne. destruct (ODict.get target found) as [[|rep others]|] eqn:Hget.
  - apply ODictFacts.get_Some_elem in Hget.
    by apply (proj1 (Forall_forall _ _) Hne) in Hget.
  - by apply (decompile_target_first _ _ _ _ Hget).
  - unfold Cli.decompile_target, ODict.mem. by rewrite Hget.
Qed.

Lemma decompile_targets_first targets found target rep others :
  Forall (fun item => snd item <> []) found ->
  target ∈ targets ->
  ODict.get target found = Some (rep :: others) ->
  result_of (Cli.decompile_targets env targets found) = Ret tt /\
  EvPrint (decompiled_text env (jar_path rep) (file_path rep))
    ∈ trace_of (Cli.decompile_targets env targets found).
Proof.
  intros Hne Hin Hget. split.
  - clear Hin. induction targets as [|t targets IH]; [done|].
    cbn [Cli.decompile_targets]. by rewrite result_bind, decompile_target_returns.
  - induction targets as [|t targets IH]; [by apply elem_of_nil in Hin|].
    cbn [Cli.decompile_targets]. rewrite trace_bind, decompile_target_returns by done.
    apply elem_of_app. apply elem_of_cons in Hin as [<-|Hin].
    + left. by apply (decompile_target_first _ _ _ _ Hget).
    + right. by apply IH.
Qed.

End Decompiler.

(** ** Manifest synthesis *)

Section Synthesizer.
Context (env : Env).

Lemma getitem_shape (d : JsonObj) k :
  Analyzer.getitem d k =
  match d !! k with
  | Some v => ([], Ret v)
  | None => ([], Raise (KeyError k))
  end.
Proof. unfold Analyzer.getitem. by destruct (d !! k). Qed.

(** The loops over repositories and coordinates do nothing but build text;
    the only exception they raise is the [KeyError] of a missing field. *)
Lemma repositories_loop_shape repos c :
  (exists c', Analyzer.repositories_loop repos c = ([], Ret c')) \/
  (exists k, Analyzer.repositories_loop repos c = ([], Raise (KeyError k))).
Proof.
  revert c. induction repos as [|repo repos IH]; intros c; [left; by eexists|].
  cbn [Analyzer.repositories_loop]. rewrite !getitem_shape.
  destruct (repo !! "id"); [|right; by eexists].
  destruct (repo !! "name"); [|right; by eexists].
  destruct (repo !! "url"); [|right; by eexists].
  munfold. simpl.
  match goal with |- context [Analyzer.repositories_loop repos ?c'] =>
    destruct (IH c') as [[c2 ->]|[k ->]] end; [left|right]; by eexists.
Qed.

Lemma dependencies_loop_shape deps c :
  (exists c', Analyzer.dependencies_loop deps c = ([], Ret c')) \/
  (exists k, Analyzer.dependencies_loop deps c = ([], Raise (KeyError k))).
Proof.
  revert c. induction deps as [|dep deps IH]; intros c; [left; by eexists|].
  cbn [Analyzer.dependencies_loop]. rewrite !getitem_shape.
  destruct (dep !! "groupId"); [|right; by eexists].
  destruct (dep !! "artifactId"); [|right; by eexists].
  destruct (dep !! "version"); [|right; by eexists].
  munfold. simpl.
  match goal with |- context [Analyzer.dependencies_loop deps ?c'] =>
    destruct (IH c') as [[c2 ->]|[k ->]] end; [left|right]; by eexists.
Qed.

Lemma dependencies_loop_missing deps c dep :
  dep ∈ deps -> lacks_field dep ->
  exists k, Analyzer.dependencies_loop deps c = ([], Raise (KeyError k)).
Proof.
  revert c. induction deps as [|dep0 deps IH]; intros c Hin Hlack.
  - by apply elem_of_nil in Hin.
  - cbn [Analyzer.dependencies_loop]. rewrite !getitem_shape.
    destruct (dep0 !! "groupId") as [g|] eqn:Hg; [|by eexists].
    destruct (dep0 !! "artifactId") as [a|] eqn:Ha; [|by eexists].
    destruct (dep0 !! "version") as [v|] eqn:Hv; [|by eexists].
    apply elem_of_cons in Hin as [->|Hin].
    { destruct Hlack as [?|[?|?]]; congruence. }
    munfold. simpl.
    match goal with |- context [Analyzer.dependencies_loop deps ?c'] =>
      destruct (IH c' Hin Hlack) as [k ->] end.
    by eexists.
Qed.

(** The text of the manifest is complete before the file is opened. *)
Lemma create_temp_pom_shape deps out repos :
  (exists k, Analyzer.create_temp_pom env deps out repos = ([], Raise (KeyError k))) \/
  (exists t r, Analyzer.create_temp_pom env deps out repos =
               (EvOpenWrite (OsPath.join out "pom.xml") :: t, r) /\
               Forall (fun ev => is_write_event ev = true) t).
Proof.
  unfold Analyzer.create_temp_pom, Analyzer.open_for_write.
  assert (forall c,
    (exists k, (Analyzer.dependencies_loop deps c ≫= fun pom_content =>
        (emit (EvOpenWrite (OsPath.join out "pom.xml"));;
         check (open_write env (OsPath.join out "pom.xml")));;
        emit (EvWriteText (OsPath.join out "pom.xml")
                (pom_content +:+ unlines ["    </dependencies>"] +:+ "</project>"));;
        mret (OsPath.join out "pom.xml")) = ([], Raise (KeyError k))) \/
    (exists t r, (Analyzer.dependencies_loop deps c ≫= fun pom_content =>
        (emit (EvOpenWrite (OsPath.join out "pom.xml"));;
         check (open_write env (OsPath.join out "pom.xml")));;
        emit (EvWriteText (OsPath.join out "pom.xml")
                (pom_content +:+ unlines ["    </dependencies>"] +:+ "</project>"));;
        mret (OsPath.join out "pom.xml")) =
        (EvOpenWrite (OsPath.join out "pom.xml") :: t, r) /\
        Forall (fun ev => is_write_event ev = true) t)) as Hdeps.
  { intros c. destruct (dependencies_loop_shape deps c) as [[c' ->]|[k ->]].
    - right. munfold. simpl. destruct (open_write env _); simpl.
      + eexists _, _. split; [reflexivity|constructor].
      + eexists _, _. split; [reflexivity|]. by repeat constructor.
    - left. by eexists. }
  destruct repos as [[|repo repos]|]; rewrite ?bind_ret_l; try apply Hdeps.
  match goal with |- context [Analyzer.repositories_loop ?rs ?c] =>
    destruct (repositories_loop_shape rs c) as [[c' ->]|[k ->]] end.
  - rewrite bind_pure_l, bind_ret_l. apply Hdeps.
  - left. by eexists.
Qed.

(** C4: for every coordinate list in which some coordinate lacks its groupId,
    artifactId or version, the synthesis of the manifest fails with the
    exception of the missing field (the code's validation error, a
    [KeyError]) and performs no effect at all, hence opens and writes no
    file. *)
Theorem create_temp_pom_missing_field deps out repos :
  (exists dep, dep ∈ deps /\ lacks_field dep) ->
  exists key,
    result_of (Analyzer.create_temp_pom env deps out repos) = Raise (KeyError key) /\
    trace_of (Analyzer.create_temp_pom env deps out repos) = [] /\
    Forall (fun ev => is_write_event ev = false)
           (trace_of (Analyzer.create_temp_pom env deps out repos)).
Proof.
  intros (dep & Hin & Hlack).
  assert (exists key, Analyzer.create_temp_pom env deps out repos = ([], Raise (KeyError key)))
    as [key ->]; [|exists key; repeat split; constructor].
  unfold Analyzer.create_temp_pom.
  assert (forall c f, exists key,
    Analyzer.dependencies_loop deps c ≫= f = ([], Raise (KeyError key)) :> M string) as Hdeps.
  { intros c f. destruct (dependencies_loop_missing deps c dep Hin Hlack) as [k ->].
    by exists k. }
  destruct repos as [[|repo repos]|]; rewrite ?bind_ret_l; try apply Hdeps.
  match goal with |- context [Analyzer.repositories_loop ?rs ?c] =>
    destruct (repositories_loop_shape rs c) as [[c' ->]|[k ->]] end.
  - rewrite bind_pure_l, bind_ret_l. apply Hdeps.
  - by exists k.
Qed.

End Synthesizer.

(** ** The fetcher *)

Section Fetcher.
Context (env : Env) (self : Analyzer.MavenJarAnalyzer).

(** The fetch opens no archive, starts no decompilation and writes no file. *)
Lemma download_dependencies_trace pom out :
  Forall (fun ev => is_index_event ev = false /\ is_decompile_event ev = false)
         (trace_of (Analyzer.download_dependencies env self pom out)).
Proof.
  unfold Analyzer.download_dependencies. munfold. simpl.
  repeat case_oracle; by repeat constructor.
Qed.

(** A resolver that exits with a status other than 0 makes the fetch print
    the diagnostic output and raise an exception with a fixed message. *)
Lemma download_dependencies_failed pom out r :
  EvExit r ∈ trace_of (Analyzer.download_dependencies env self pom out) ->
  returncode r <> 0 ->
  result_of (Analyzer.download_dependencies env self pom out) =
    Raise (Exception "Maven命令执行失败") /\
  EvPrint ("Maven命令执行失败:" +:+ nl +:+ stderr r)
    ∈ trace_of (Analyzer.download_dependencies env self pom out).
Proof.
  unfold Analyzer.download_dependencies. munfold. simpl. intros Hin Hrc. revert Hin.
  repeat case_oracle; intros Hin; in_trace Hin; injection Hin as ->;
    try (apply Z.eqb_eq in Heqb; done).
  all: split; [done|]; rewrite list_elem_of_In; simpl; tauto.
Qed.

End Fetcher.

(** ** The tool handlers *)

Section Handlers.
Context (env : Env).

Lemma found_classes_copy (found : ODict.t (list ClassRecord)) :
  map (fun '(class_name, class_list) =>
         (class_name, map McpServer.copy_cls_info class_list)) found = found.
Proof.
  induction found as [|[k l] found IH]; [done|]. simpl. rewrite IH. f_equal. f_equal.
  clear. induction l as [|c l IH]; [done|]. simpl. by rewrite copy_cls_info_id, IH.
Qed.

(** What a successful analysis returns. *)
Lemma handle_analyze_dependency_inv arguments data :
  result_of (McpServer.handle_analyze_dependency env arguments) = Ret data ->
  let target_classes := default [] (McpServer.arg_target_classes arguments) in
  McpServer.found_classes data =
    Analyzer.exact_classes_loop (all_classes env (McpServer.jar_files data))
      (map PyStr.lower target_classes) [] /\
  McpServer.missing_classes (McpServer.summary data) =
    List.filter (fun cls => negb (ODict.mem cls (McpServer.found_classes data)))
      target_classes.
Proof.
  unfold McpServer.handle_analyze_dependency. intros H.
  rewrite result_bind in H. simpl in H.
  rewrite result_bind in H. destruct (result_of (check _)); [|done].
  rewrite result_bind in H. destruct (result_of (Analyzer.create_temp_pom _ _ _ _)); [|done].
  rewrite result_bind in H. destruct (result_of (Analyzer.download_dependencies _ _ _ _)); [|done].
  rewrite result_bind, find_exact_result in H. simpl in H. injection H as <-.
  simpl. by rewrite found_classes_copy.
Qed.

Lemma create_temp_pom_trace deps out repos :
  Forall (fun ev => is_write_event ev = true)
         (trace_of (Analyzer.create_temp_pom env deps out repos)).
Proof.
  destruct (create_temp_pom_shape env deps out repos) as [[k ->]|(t & r & -> & Ht)].
  - constructor.
  - by constructor.
Qed.

Lemma find_exact_trace jar_files class_names :
  Forall (fun ev => is_decompile_event ev = false /\ forall r, ev <> EvExit r)
         (trace_of (Analyzer.find_exact_class_in_jars env jar_files class_names)).
Proof.
  apply Forall_forall. intros ev Hin.
  apply exact_jars_loop_trace in Hin as [[jar ->]|[text ->]]; done.
Qed.


(** After a resolver failure the analysis fails with the exception of the
    fetch and opens no archive. *)
Lemma handle_analyze_dependency_failed arguments r :
  EvExit r ∈ trace_of (McpServer.handle_analyze_dependency env arguments) ->
  returncode r <> 0 ->
  result_of (McpServer.handle_analyze_dependency env arguments) =
    Raise (Exception "Maven命令执行失败") /\
  EvPrint ("Maven命令执行失败:" +:+ nl +:+ stderr r)
    ∈ trace_of (McpServer.handle_analyze_dependency env arguments) /\
  Forall (fun ev => is_index_event ev = false)
         (trace_of (McpServer.handle_analyze_dependency env arguments)).
Proof.
  unfold McpServer.handle_analyze_dependency. intros Hin Hrc.
  rewrite trace_bind, result_bind in *. simpl in Hin |- *.
  apply elem_of_cons in Hin as [?|Hin]; [done|].
  rewrite trace_bind, result_bind in *.
  destruct (makedirs env _); simpl in Hin |- *; [by apply elem_of_nil in Hin|].
  rewrite trace_bind, result_bind in *.
  pose proof (create_temp_pom_trace
    (default [] (McpServer.arg_dependencies arguments))
    (default "./maven_temp" (McpServer.arg_work_dir arguments))
    (McpServer.arg_repositories arguments)) as Hpom.
  apply elem_of_app in Hin as [Hin|Hin].
  { apply (proj1 (Forall_forall _ _) Hpom) in Hin. done. }
  destruct (result_of (Analyzer.create_temp_pom _ _ _ _)) as [pom|e];
    [|by apply elem_of_nil in Hin].
  rewrite trace_bind, result_bind in *.
  pose proof (download_dependencies_trace env McpServer.analyzer pom
    (default "./maven_temp" (McpServer.arg_work_dir arguments))) as Hdl.
  apply elem_of_app in Hin as [Hin|Hin].
  - destruct (download_dependencies_failed _ _ _ _ _ Hin Hrc) as [Hres Hprint].
    rewrite Hres. split; [done|]. split.
    + apply list_elem_of_further. apply elem_of_app. right.
      apply elem_of_app. by left.
    + constructor; [done|]. apply Forall_app. split.
      { eapply Forall_impl; [apply Hpom|]. by intros []. }
      rewrite app_nil_r. eapply Forall_impl; [apply Hdl|]. by intros ev [? _].
  - destruct (result_of (Analyzer.download_dependencies _ _ _ _)) as [jars|e];
      [|by apply elem_of_nil in Hin].
    rewrite trace_bind in Hin. apply elem_of_app in Hin as [Hin|Hin].
    + pose proof (find_exact_trace jars
        (default [] (McpServer.arg_target_classes arguments))) as Hfind.
      apply (proj1 (Forall_forall _ _) Hfind) in Hin as [_ Hne]. by destruct (Hne r).
    + rewrite find_exact_result in Hin. by apply elem_of_nil in Hin.
Qed.

End Handlers.

(** C3, as the code has it: whenever the resolver exits with a status other than 0,
    [download_dependencies] prints the captured diagnostic output and raises
    an exception whose message is the fixed text "Maven命令执行失败", which
    does not carry that output; [handle_analyze_dependency] then fails with
    this exception and opens no archive. *)
Theorem resolver_failure_aborts env :
  (forall self pom out r,
     EvExit r ∈ trace_of (Analyzer.download_dependencies env self pom out) ->
     returncode r <> 0 ->
     result_of (Analyzer.download_dependencies env self pom out) =
       Raise (Exception "Maven命令执行失败") /\
     EvPrint ("Maven命令执行失败:" +:+ nl +:+ stderr r)
       ∈ trace_of (Analyzer.download_dependencies env self pom out)) /\
  (forall arguments r,
     EvExit r ∈ trace_of (McpServer.handle_analyze_dependency env arguments) ->
     returncode r <> 0 ->
     result_of (McpServer.handle_analyze_dependency env arguments) =
       Raise (Exception "Maven命令执行失败") /\
     Forall (fun ev => is_index_event ev = false)
            (trace_of (McpServer.handle_analyze_dependency env arguments))).
Proof.
  split.
  - intros self pom out r. apply download_dependencies_failed.
  - intros arguments r Hin Hrc.
    destruct (handle_analyze_dependency_failed env arguments r Hin Hrc) as (? & _ & ?).
    done.
Qed.

(** ** The inspector *)

Lemma byte_of_value (b : Byte.byte) (n : N) : Byte.to_N b = n -> Byte.of_N n = Some b.
Proof. intros <-. apply Byte.of_to_N. Qed.

(** Four bytes that read as 0xCAFEBABE are the magic bytes. *)
Lemma int_from_magic_bytes b0 b1 b2 b3 :
  Analyzer.int_from_bytes_big [b0; b1; b2; b3] = 0xCAFEBABE ->
  [b0; b1; b2; b3] = magic_bytes.
Proof.
  unfold Analyzer.int_from_bytes_big. simpl.
  pose proof (Byte.to_N_bounded b0) as B0. pose proof (Byte.to_N_bounded b1) as B1.
  pose proof (Byte.to_N_bounded b2) as B2. pose proof (Byte.to_N_bounded b3) as B3.
  intros Heq.
  assert (Byte.to_N b0 = 202 /\ Byte.to_N b1 = 254 /\
          Byte.to_N b2 = 186 /\ Byte.to_N b3 = 190)%N as (V0 & V1 & V2 & V3) by lia.
  apply byte_of_value in V0, V1, V2, V3.
  vm_compute in V0, V1, V2, V3. by simplify_eq.
Qed.

Lemma analyze_bytecode_malformed bytecode :
  (length bytecode < 8)%nat \/ take 4 bytecode <> magic_bytes ->
  Analyzer.analyze_bytecode bytecode = None.
Proof.
  unfold Analyzer.analyze_bytecode. intros Hbad.
  destruct (Nat.ltb_spec (length bytecode) 8) as [|Hlen]; [done|].
  destruct Hbad as [?|Hmagic]; [lia|].
  destruct (Z.eqb_spec (Analyzer.int_from_bytes_big (take 4 bytecode)) 0xCAFEBABE)
    as [Heq|]; [|done].
  exfalso. apply Hmagic.
  destruct bytecode as [|b0 [|b1 [|b2 [|b3 rest]]]]; simpl in Hlen; try lia.
  by apply int_from_magic_bytes.
Qed.

(** A buffer of at least 8 bytes with the magic prefix does get a summary. *)
Lemma analyze_bytecode_wellformed rest :
  (4 <= length rest)%nat ->
  exists info, Analyzer.analyze_bytecode (magic_bytes ++ rest) = Some info /\
               Analyzer.magic info = "0xcafebabe" /\
               Analyzer.bytecode_size info = (4 + length rest)%nat.
Proof.
  intros Hlen. unfold Analyzer.analyze_bytecode.
  destruct (Nat.ltb_spec (length (magic_bytes ++ rest)) 8) as [Hlt|_].
  { rewrite length_app in Hlt. simpl in Hlt. lia. }
  change (take 4 (magic_bytes ++ rest)) with magic_bytes.
  change (Analyzer.int_from_bytes_big magic_bytes =? 0xCAFEBABE) with true.
  cbn [negb]. eexists. split; [reflexivity|]. split; [reflexivity|].
  cbn [Analyzer.bytecode_size]. by rewrite length_app.
Qed.

(** C2, as the code has it: for every buffer that is shorter than 8 bytes or
    does not start with the four magic bytes CA FE BA BE, the minimal
    inspection of an entry with these bytes raises no exception; it returns
    Python's [None], and in no case a summary. *)
Theorem analyze_class_basic_malformed env jar path bytecode :
  result_of (Analyzer.get_class_bytecode env jar path) = Ret bytecode ->
  (length bytecode < 8)%nat \/ take 4 bytecode <> magic_bytes ->
  Analyzer.analyze_bytecode bytecode = None /\
  result_of (Analyzer.analyze_class_basic env jar path) = Ret None /\
  (forall info, result_of (Analyzer.analyze_class_basic env jar path) <> Ret (Some info)) /\
  (forall e, result_of (Analyzer.analyze_class_basic env jar path) <> Raise e).
Proof.
  intros Hread Hbad. pose proof (analyze_bytecode_malformed bytecode Hbad) as Hnone.
  assert (result_of (Analyzer.analyze_class_basic env jar path) = Ret None) as Hres.
  { unfold Analyzer.analyze_class_basic. rewrite result_bind, Hread. simpl.
    by rewrite Hnone. }
  rewrite Hres. repeat split; [done|..]; intros; discriminate.
Qed.

Lemma analyze_class_basic_malformed_witness :
  result_of (Analyzer.analyze_class_basic (Demo.env 0)
               "./maven_temp/dependencies/lib-1.0.jar" "org/example/Bar.class")
  = Ret None.
Proof.
  apply (analyze_class_basic_malformed (Demo.env 0)
           "./maven_temp/dependencies/lib-1.0.jar" "org/example/Bar.class"
           Demo.broken).
  - reflexivity.
  - left. simpl. lia.
Defined.

(** The specification has the inspection fail with an error of its own:
    here the entry holds two bytes, and the call returns normally, with
    [None], instead of raising. *)
Lemma malformed_class_not_raised :
  result_of (Analyzer.get_class_bytecode (Demo.env 0)
               "./maven_temp/dependencies/lib-1.0.jar" "org/example/Bar.class")
    = Ret Demo.broken /\
  (length Demo.broken < 8)%nat /\
  result_of (Analyzer.analyze_class_basic (Demo.env 0)
               "./maven_temp/dependencies/lib-1.0.jar" "org/example/Bar.class")
    = Ret None /\
  ~ exists e,
      result_of (Analyzer.analyze_class_basic (Demo.env 0)
                   "./maven_temp/dependencies/lib-1.0.jar" "org/example/Bar.class")
      = Raise e.
Proof.
  split; [reflexivity|]. split; [simpl; lia|]. split; [reflexivity|].
  intros [e He]. vm_compute in He. discriminate He.
Qed.

(** ** Claims on the decompiler, the indexer and the derived names *)

(** C5: a single-class decompilation never raises.  When the entry has been
    extracted into the temporary directory and the disassembler, run on the
    extracted file, exits with a status other than 0, the decompilation has
    run it once and returns the failure marker followed by the captured
    diagnostic output; the tool handler wraps that text in its result
    object.  (The removal of the temporary directory is taken to succeed,
    as in [with_TemporaryDirectory].) *)
Theorem decompile_class_contains_failure env jar path :
  (exists text, result_of (Analyzer.decompile_class env jar path) = Ret text) /\
  (forall temp_dir entries data r,
     let temp_class_file := OsPath.join temp_dir (OsPath.basename path) in
     let argv := ["javap"; "-c"; "-p"; "-constants"; temp_class_file] in
     mkdtemp env = inr temp_dir ->
     archive env jar = inr entries ->
     open_write env temp_class_file = None ->
     result_of (Analyzer.zip_read env jar entries path) = Ret data ->
     run_javap env argv data = inr r ->
     returncode r <> 0 ->
     exists text,
       Analyzer.decompile_class env jar path =
         ([EvMkdtemp; EvOpenArchive jar; EvOpenWrite temp_class_file;
           EvWriteBytes temp_class_file data; EvRun argv None; EvExit r;
           EvRmtree temp_dir],
          Ret text) /\
       text = "反编译失败: " +:+ stderr r /\
       PyStr.contains (stderr r) text = true /\
       (jar <> "" -> path <> "" ->
        forall arguments,
          McpServer.arg_jar_path arguments = Some jar ->
          McpServer.arg_class_file_path arguments = Some path ->
          result_of (McpServer.handle_decompile_class env arguments) =
            Ret (McpServer.OutDecompile
                   {| McpServer.dr_class_name := McpServer.decompiled_class_name path;
                      McpServer.dr_jar_path := jar;
                      McpServer.dr_class_file_path := path;
                      McpServer.decompiled_code := text |}))).
Proof.
  split; [eexists; apply decompile_class_returns|].
  intros temp_dir entries data r temp_class_file argv Hd Ha Hw Hdata Hrun Hrc.
  subst temp_class_file argv.
  assert (Analyzer.decompile_class env jar path =
          ([EvMkdtemp; EvOpenArchive jar;
            EvOpenWrite (OsPath.join temp_dir (OsPath.basename path));
            EvWriteBytes (OsPath.join temp_dir (OsPath.basename path)) data;
            EvRun ["javap"; "-c"; "-p"; "-constants";
                   OsPath.join temp_dir (OsPath.basename path)] None;
            EvExit r; EvRmtree temp_dir],
           Ret ("反编译失败: " +:+ stderr r))) as Hrun_failed.
  { revert Hdata.
    unfold Analyzer.decompile_class, Analyzer.with_TemporaryDirectory, Analyzer.ZipFile,
      Analyzer.open_for_write, Analyzer.zip_read.
    munfold. simpl. rewrite Hd. simpl. rewrite Ha. simpl. rewrite Hw. simpl.
    destruct (List.find _ (rev entries)) as [entry|]; simpl; [|done].
    destruct (read_error env jar path); simpl; [done|]. intros [= ->].
    rewrite Hrun. simpl. destruct (Z.eqb_spec (returncode r) 0); [done|]. reflexivity. }
  eexists. split; [exact Hrun_failed|]. split; [done|]. split.
  - apply PyStrFacts.contains_app_r.
  - intros Hjar Hpath arguments Hj Hp. unfold McpServer.handle_decompile_class.
    rewrite Hj, Hp. simpl.
    destruct (String.eqb_spec jar ""); [done|].
    destruct (String.eqb_spec path ""); [done|]. simpl.
    by rewrite result_bind, Hrun_failed.
Qed.

Lemma decompile_class_contains_failure_witness :
  exists text,
    Analyzer.decompile_class (Demo.env 0)
      "./maven_temp/dependencies/lib-1.0.jar" "org/example/Bar.class" =
    ([EvMkdtemp; EvOpenArchive "./maven_temp/dependencies/lib-1.0.jar";
      EvOpenWrite "/tmp/tmpdir/Bar.class";
      EvWriteBytes "/tmp/tmpdir/Bar.class" Demo.broken;
      EvRun ["javap"; "-c"; "-p"; "-constants"; "/tmp/tmpdir/Bar.class"] None;
      EvExit (Demo.failed_process "Error: unexpected end of file");
      EvRmtree "/tmp/tmpdir"],
     Ret text) /\
    text = "反编译失败: Error: unexpected end of file".
Proof.
  destruct (decompile_class_contains_failure (Demo.env 0)
              "./maven_temp/dependencies/lib-1.0.jar" "org/example/Bar.class")
    as [_ H].
  destruct (H "/tmp/tmpdir"
              [ ("META-INF/MANIFEST.MF", []);
                ("org/example/Foo.class", Demo.cafebabe52);
                ("org/example/Bar.class", Demo.broken) ]
              Demo.broken (Demo.failed_process "Error: unexpected end of file"))
    as (text & Hres & Htext & _).
  - reflexivity.
  - reflexivity.
  - reflexivity.
  - reflexivity.
  - reflexivity.
  - simpl. lia.
  - exists text. split; [exact Hres|exact Htext].
Defined.

(** C8, as the code has it: the indexer never raises.  An artifact whose
    archive cannot be opened is caught inside the indexer, reported on the
    console and contributes no record, so that a lookup over a list of
    artifacts gives the result it gives without that artifact.  In an archive
    that can be read the indexer looks at the names only: an entry whose name
    does not end in ".class" is passed over, and every entry whose name does
    is recorded, whatever its bytes. *)
Theorem get_classes_from_jar_recoverable env jar :
  (exists classes, result_of (Analyzer.get_classes_from_jar env jar) = Ret classes) /\
  (forall e, archive env jar = inl e ->
     Analyzer.get_classes_from_jar env jar =
       ([EvOpenArchive jar;
         EvPrint ("解析jar包失败 " +:+ jar +:+ ": " +:+ exc_str e)], Ret []) /\
     forall before after class_names,
       result_of (Analyzer.find_exact_class_in_jars env (before ++ jar :: after) class_names) =
       result_of (Analyzer.find_exact_class_in_jars env (before ++ after) class_names)) /\
  (forall entries, archive env jar = inr entries ->
     exists classes,
       result_of (Analyzer.get_classes_from_jar env jar) = Ret classes /\
       map file_path classes = List.filter is_class_entry (map fst entries) /\
       (forall cls, cls ∈ classes -> is_class_entry (file_path cls) = true) /\
       (forall name bytes, (name, bytes) ∈ entries -> is_class_entry name = true ->
                           entry_record jar name ∈ classes)).
Proof.
  split; [eexists; apply get_classes_result|]. split.
  - intros e He. pose proof (get_classes_unreadable env jar e He) as Hget.
    split; [done|]. intros before after class_names.
    rewrite !find_exact_result. do 2 f_equal. unfold all_classes.
    rewrite !flat_map_app. simpl. unfold classes_of at 2. by rewrite Hget.
  - intros entries He. rewrite (get_classes_readable env jar entries He).
    eexists. split; [reflexivity|]. split; [|split].
    + rewrite map_map. simpl. apply map_id.
    + intros cls [p [<- Hp]]%list_elem_of_In%in_map_iff.
      by apply filter_In in Hp as [_ Hp].
    + intros name bytes Hin Hclass. apply list_elem_of_In, in_map, filter_In.
      split; [|done]. apply list_elem_of_In in Hin.
      by apply (in_map fst) in Hin.
Qed.

Lemma get_classes_from_jar_recoverable_witness :
  Analyzer.get_classes_from_jar (Demo.env 0) "./maven_temp/dependencies/bad.jar" =
    ([EvOpenArchive "./maven_temp/dependencies/bad.jar";
      EvPrint "解析jar包失败 ./maven_temp/dependencies/bad.jar: File is not a zip file"],
     Ret []).
Proof.
  destruct (get_classes_from_jar_recoverable (Demo.env 0)
              "./maven_temp/dependencies/bad.jar") as (_ & H & _).
  destruct (H (BadZipFile "File is not a zip file") eq_refl) as [Hget _].
  exact Hget.
Defined.

(** The specification has the indexer skip a malformed entry: here
    [org/example/Bar.class] holds two bytes, which the inspector rejects, and
    the indexer records it all the same. *)
Lemma malformed_entry_is_indexed :
  archive (Demo.env 0) "./maven_temp/dependencies/lib-1.0.jar" =
    inr [ ("META-INF/MANIFEST.MF", []);
          ("org/example/Foo.class", Demo.cafebabe52);
          ("org/example/Bar.class", Demo.broken) ] /\
  Analyzer.analyze_bytecode Demo.broken = None /\
  result_of (Analyzer.get_classes_from_jar (Demo.env 0)
               "./maven_temp/dependencies/lib-1.0.jar") =
    Ret [ {| class_name := "org.example.Foo";
             file_path := "org/example/Foo.class";
             jar_path := "./maven_temp/dependencies/lib-1.0.jar" |};
          {| class_name := "org.example.Bar";
             file_path := "org/example/Bar.class";
             jar_path := "./maven_temp/dependencies/lib-1.0.jar" |} ].
Proof. repeat split; reflexivity. Qed.

(** C10, as the code has it: the decompile handlers replace every '/' by '.' and then
    delete every occurrence of ".class", the indexer drops the last six
    characters and then replaces every '/' by '.'.  For every entry path that
    ends in ".class" and in which, once '/' is replaced by '.', ".class"
    occurs at the end only, the two names are equal; for some entry path with
    ".class" in a directory segment they differ. *)
Theorem decompiled_class_name_agrees :
  (forall path,
     PyStr.endswith path ".class" = true ->
     PyStr.occurrences ".class" (PyStr.replace "/" "." path) = 1%nat ->
     McpServer.decompiled_class_name path = indexed_class_name path /\
     RemoteServer.decompiled_class_name path = indexed_class_name path) /\
  (exists path,
     PyStr.endswith path ".class" = true /\
     (1 < PyStr.occurrences ".class" path)%nat /\
     McpServer.decompiled_class_name path <> indexed_class_name path /\
     RemoteServer.decompiled_class_name path <> indexed_class_name path).
Proof.
  split.
  - intros path [q ->]%PyStrFacts.endswith_spec Hocc.
    rewrite entry_record_name.
    unfold McpServer.decompiled_class_name, RemoteServer.decompiled_class_name.
    rewrite PyStrFacts.replace_char, PyStrFacts.subst_char_app in *.
    change (PyStr.subst_char "/" "." ".class") with ".class" in *.
    by rewrite PyStrFacts.replace_only_suffix.
  - exists "a.class/Foo.class". repeat split; vm_compute; (lia || discriminate).
Qed.

Lemma decompiled_class_name_agrees_witness :
  McpServer.decompiled_class_name "org/example/Foo.class" = "org.example.Foo" /\
  indexed_class_name "org/example/Foo.class" = "org.example.Foo".
Proof.
  destruct decompiled_class_name_agrees as [H _].
  destruct (H "org/example/Foo.class") as [Hmcp _]; [reflexivity|reflexivity|].
  split; [|reflexivity]. rewrite Hmcp. reflexivity.
Defined.

(** The specification asks for ".class" to occur only at the end of the
    entry path itself; in [BOOT-INF/classes/Foo.class] it does, and yet the
    two names differ, because "/class" has become ".class" before the
    deletion. *)
Lemma decompiled_class_name_differs :
  PyStr.endswith "BOOT-INF/classes/Foo.class" ".class" = true /\
  PyStr.occurrences ".class" "BOOT-INF/classes/Foo.class" = 1%nat /\
  McpServer.decompiled_class_name "BOOT-INF/classes/Foo.class" = "BOOT-INFes.Foo" /\
  indexed_class_name "BOOT-INF/classes/Foo.class" = "BOOT-INF.classes.Foo" /\
  McpServer.decompiled_class_name "BOOT-INF/classes/Foo.class"
    <> indexed_class_name "BOOT-INF/classes/Foo.class".
Proof. repeat split; vm_compute; discriminate. Qed.

Lemma resolver_failure_aborts_witness :
  result_of (McpServer.handle_analyze_dependency (Demo.env 1) (Demo.request ["Foo"])) =
    Raise (Exception "Maven命令执行失败") /\
  Forall (fun ev => is_index_event ev = false)
         (trace_of (McpServer.handle_analyze_dependency (Demo.env 1) (Demo.request ["Foo"]))).
Proof.
  destruct (resolver_failure_aborts (Demo.env 1)) as [_ H].
  apply (H (Demo.request ["Foo"])
           {| returncode := 1; stdout := ""; stderr := "Could not resolve dependencies" |}).
  - rewrite list_elem_of_In. vm_compute. repeat (first [left; reflexivity | right]).
  - simpl. lia.
Defined.

(** The specification has the exception carry the diagnostic output: here
    the resolver exits with status 1 and the message of the exception does
    not contain what the resolver wrote. *)
Lemma resolution_error_without_diagnostics :
  exists r e,
    EvExit r ∈ trace_of (Analyzer.download_dependencies (Demo.env 1) McpServer.analyzer
                           "./maven_temp/pom.xml" "./maven_temp") /\
    returncode r = 1 /\
    stderr r = "Could not resolve dependencies" /\
    result_of (Analyzer.download_dependencies (Demo.env 1) McpServer.analyzer
                 "./maven_temp/pom.xml" "./maven_temp") = Raise e /\
    exc_str e = "Maven命令执行失败" /\
    PyStr.contains (stderr r) (exc_str e) = false.
Proof.
  exists {| returncode := 1; stdout := ""; stderr := "Could not resolve dependencies" |},
         (Exception "Maven命令执行失败").
  split; [|by vm_compute].
  rewrite list_elem_of_In. vm_compute. repeat (first [left; reflexivity | right]).
Qed.

Lemma create_temp_pom_missing_field_witness :
  result_of (Analyzer.create_temp_pom (Demo.env 0)
               [Demo.coordinate; delete "version" Demo.coordinate] "./maven_temp" None)
    = Raise (KeyError "version") /\
  trace_of (Analyzer.create_temp_pom (Demo.env 0)
              [Demo.coordinate; delete "version" Demo.coordinate] "./maven_temp" None)
    = [].
Proof.
  destruct (create_temp_pom_missing_field (Demo.env 0)
              [Demo.coordinate; delete "version" Demo.coordinate] "./maven_temp" None)
    as (key & Hres & Htrace & _).
  - exists (delete "version" Demo.coordinate). split.
    + apply list_elem_of_In. simpl. tauto.
    + right. right. apply lookup_delete_eq.
  - split; [|exact Htrace]. rewrite Hres. vm_compute in Hres.
    injection Hres as <-. reflexivity.
Defined.

(** ** The combined operation *)

Section Pipeline.
Context (env : Env).




End Pipeline.



(** ** Duplicate names and names that differ in case *)

Lemma hits_requested lowers key classes :
  PyStr.lower key ∈ lowers -> hits lowers key classes = same_name key classes.
Proof.
  intros Hreq%str_in_spec. unfold hits, same_name. apply filter_ext. intros cls.
  destruct (String.eqb_spec (Analyzer.simple_name cls) key) as [->|];
    [by rewrite Hreq|apply andb_false_r].
Qed.

Lemma elem_of_same_name key classes cls :
  cls ∈ same_name key classes <-> cls ∈ classes /\ Analyzer.simple_name cls = key.
Proof.
  unfold same_name. by rewrite list_elem_of_In, filter_In, String.eqb_eq, <- list_elem_of_In.
Qed.

Lemma elem_of_all_classes env jar_files cls :
  cls ∈ all_classes env jar_files <->
  exists jar, jar ∈ jar_files /\ cls ∈ classes_of env jar.
Proof.
  unfold all_classes. rewrite list_elem_of_In, in_flat_map.
  by setoid_rewrite list_elem_of_In.
Qed.

(** C6: when two artifacts each hold a class of one simple name and that
    name is requested, the exact lookup over the two artifacts has a single
    key for it, whose list holds the records of the first artifact followed
    by those of the second; the consumers of the lookup, which are the
    decompile loops of the two servers and the command-line check, all take
    the first element of that list. *)
Theorem find_exact_duplicate_simple_names env j1 j2 cls1 cls2 class_names name :
  cls1 ∈ classes_of env j1 ->
  cls2 ∈ classes_of env j2 ->
  Analyzer.simple_name cls1 = Analyzer.simple_name cls2 ->
  name ∈ class_names ->
  PyStr.lower name = PyStr.lower (Analyzer.simple_name cls1) ->
  let key := Analyzer.simple_name cls1 in
  exists found rep others,
    result_of (Analyzer.find_exact_class_in_jars env [j1; j2] class_names) = Ret found /\
    NoDup (ODict.keys found) /\
    ODict.get key found =
      Some (same_name key (classes_of env j1) ++ same_name key (classes_of env j2)) /\
    cls1 ∈ same_name key (classes_of env j1) /\
    cls2 ∈ same_name key (classes_of env j2) /\
    same_name key (classes_of env j1) ++ same_name key (classes_of env j2) = rep :: others /\
    rep ∈ classes_of env j1 /\
    (exists decompiled_classes,
       result_of (McpServer.decompile_loop env found []) = Ret decompiled_classes /\
       ODict.get key decompiled_classes =
         Some (decompiled_text env (jar_path rep) (file_path rep))) /\
    (exists decompiled_classes,
       result_of (RemoteServer.decompile_loop env found []) = Ret decompiled_classes /\
       ODict.get key decompiled_classes =
         Some (decompiled_text env (jar_path rep) (file_path rep))) /\
    (key ∈ class_names ->
     EvPrint (decompiled_text env (jar_path rep) (file_path rep))
       ∈ trace_of (Cli.decompile_targets env class_names found)).
Proof.
  intros H1 H2 Hsame Hname Hlower. cbv zeta.
  assert (PyStr.lower (Analyzer.simple_name cls1) ∈ map PyStr.lower class_names) as Hreq.
  { rewrite <- Hlower. by apply lower_requested. }
  set (key := Analyzer.simple_name cls1) in *.
  assert (cls1 ∈ same_name key (classes_of env j1)) as Hc1 by by apply elem_of_same_name.
  assert (cls2 ∈ same_name key (classes_of env j2)) as Hc2 by by apply elem_of_same_name.
  destruct (same_name key (classes_of env j1)) as [|rep others] eqn:Hl1.
  { by apply elem_of_nil in Hc1. }
  assert (rep ∈ classes_of env j1) as Hrep.
  { assert (rep ∈ same_name key (classes_of env j1)) as Hin
      by (rewrite Hl1; apply list_elem_of_here).
    by apply elem_of_same_name in Hin as [? _]. }
  set (found := Analyzer.exact_classes_loop (all_classes env [j1; j2])
                  (map PyStr.lower class_names) []).
  assert (NoDup (ODict.keys found)) as Hnd.
  { apply NoDup_exact_classes_loop. constructor. }
  assert (Forall (fun item => snd item <> []) found) as Hne.
  { apply nonempty_exact_classes_loop. constructor. }
  assert (ODict.get key found =
          Some ((rep :: others) ++ same_name key (classes_of env j2))) as Hget.
  { unfold found. rewrite get_exact_classes_loop. unfold all_classes. simpl.
    rewrite app_nil_r, hits_app, !hits_requested, Hl1 by done. done. }
  exists found, rep, (others ++ same_name key (classes_of env j2)).
  split; [apply find_exact_result|]. repeat split; try done.
  - eexists. split; [apply decompile_loop_result|].
    rewrite get_fold_record_text by done. by rewrite Hget.
  - eexists. split; [apply remote_decompile_loop_result|].
    rewrite get_fold_record_text by done. by rewrite Hget.
  - intros Hkey. by apply (decompile_targets_first env class_names found key rep _ Hne Hkey Hget).
Qed.

Lemma find_exact_duplicate_simple_names_witness :
  exists found,
    result_of (Analyzer.find_exact_class_in_jars (Demo.env 0)
                 ["./maven_temp/dependencies/lib-1.0.jar";
                  "./maven_temp/dependencies/shaded.jar"] ["Foo"]) = Ret found /\
    ODict.get "Foo" found =
      Some [ {| class_name := "org.example.Foo";
                file_path := "org/example/Foo.class";
                jar_path := "./maven_temp/dependencies/lib-1.0.jar" |};
             {| class_name := "shaded.Foo";
                file_path := "shaded/Foo.class";
                jar_path := "./maven_temp/dependencies/shaded.jar" |} ].
Proof.
  destruct (find_exact_duplicate_simple_names (Demo.env 0)
              "./maven_temp/dependencies/lib-1.0.jar"
              "./maven_temp/dependencies/shaded.jar"
              {| class_name := "org.example.Foo";
                 file_path := "org/example/Foo.class";
                 jar_path := "./maven_temp/dependencies/lib-1.0.jar" |}
              {| class_name := "shaded.Foo";
                 file_path := "shaded/Foo.class";
                 jar_path := "./maven_temp/dependencies/shaded.jar" |}
              ["Foo"] "Foo")
    as (found & rep & others & Hres & _ & Hget & _).
  - rewrite list_elem_of_In. vm_compute. tauto.
  - rewrite list_elem_of_In. vm_compute. tauto.
  - reflexivity.
  - apply list_elem_of_here.
  - reflexivity.
  - exists found. split; [exact Hres|exact Hget].
Defined.

(** C9, as the code has it: when a requested name differs from the simple name of a
    class of the artifacts in letter case only, the class is filed under its
    own simple name, which is not the requested name.  The requested name
    is no key of the result, and is listed in [missing_classes], exactly
    when no class of the artifacts has the requested name itself as its
    simple name. *)
Theorem case_variant_reported_missing env arguments data name jar cls :
  result_of (McpServer.handle_analyze_dependency env arguments) = Ret data ->
  name ∈ default [] (McpServer.arg_target_classes arguments) ->
  jar ∈ McpServer.jar_files data ->
  cls ∈ classes_of env jar ->
  PyStr.lower name = PyStr.lower (Analyzer.simple_name cls) ->
  name <> Analyzer.simple_name cls ->
  let exact_name_absent :=
    forall jar' cls', jar' ∈ McpServer.jar_files data -> cls' ∈ classes_of env jar' ->
                      Analyzer.simple_name cls' <> name in
  (exists key class_list,
     key = Analyzer.simple_name cls /\ key <> name /\
     ODict.get key (McpServer.found_classes data) = Some class_list /\
     cls ∈ class_list) /\
  (ODict.get name (McpServer.found_classes data) = None <-> exact_name_absent) /\
  (name ∈ McpServer.missing_classes (McpServer.summary data) <-> exact_name_absent).
Proof.
  intros Hdata Hname Hjar Hcls Hlower Hne exact_name_absent. subst exact_name_absent.
  destruct (handle_analyze_dependency_inv env arguments data Hdata) as [Hfound Hmissing].
  assert (ODict.get name (McpServer.found_classes data) = None <->
          (forall jar' cls', jar' ∈ McpServer.jar_files data -> cls' ∈ classes_of env jar' ->
                             Analyzer.simple_name cls' <> name)) as Hnone.
  { rewrite Hfound, get_exact_classes_loop. split.
    - intros Hget jar' cls' Hjar' Hcls' Heq.
      assert (cls' ∈ hits (map PyStr.lower (default [] (McpServer.arg_target_classes arguments)))
                     name (all_classes env (McpServer.jar_files data))) as Hc.
      { apply elem_of_hits. split; [apply elem_of_all_classes; eauto|]. split; [|done].
        rewrite Heq. by apply lower_requested. }
      destruct (hits _ name _) as [|c l]; [by apply elem_of_nil in Hc|done].
    - intros Hexact. destruct (hits _ name _) as [|c l] eqn:Hhits; [done|].
      assert (c ∈ hits (map PyStr.lower (default [] (McpServer.arg_target_classes arguments)))
                    name (all_classes env (McpServer.jar_files data))) as Hc
        by (rewrite Hhits; apply list_elem_of_here).
      apply elem_of_hits in Hc as ((jar' & Hjar' & Hc)%elem_of_all_classes & _ & Heq).
      by destruct (Hexact jar' c Hjar' Hc). }
  split; [|split; [done|]].
  - exists (Analyzer.simple_name cls). rewrite Hfound, get_exact_classes_loop.
    assert (cls ∈ hits (map PyStr.lower (default [] (McpServer.arg_target_classes arguments)))
                  (Analyzer.simple_name cls) (all_classes env (McpServer.jar_files data))) as Hc.
    { apply elem_of_hits. split; [apply elem_of_all_classes; eauto|]. split; [|done].
      rewrite <- Hlower. by apply lower_requested. }
    destruct (hits _ _ _) as [|c l]; [by apply elem_of_nil in Hc|].
    eexists. split; [done|]. split; [done|]. split; [done|]. exact Hc.
  - rewrite <- Hnone, Hmissing, list_elem_of_In, filter_In, <- list_elem_of_In.
    unfold ODict.mem. destruct (ODict.get name _); simpl.
    + split; [intros [_ Hf]; discriminate Hf|intros Hf; discriminate Hf].
    + split; [done|by intros _].
Qed.

Lemma case_variant_reported_missing_witness :
  exists data,
    result_of (McpServer.handle_analyze_dependency (Demo.env 0) (Demo.request ["bar"])) = Ret data /\
    ODict.keys (McpServer.found_classes data) = ["Bar"] /\
    "bar" ∈ McpServer.missing_classes (McpServer.summary data).
Proof.
  eexists. split; [reflexivity|]. split; [reflexivity|].
  match goal with
  | |- _ ∈ McpServer.missing_classes (McpServer.summary ?data) =>
      destruct (case_variant_reported_missing (Demo.env 0) (Demo.request ["bar"]) data "bar"
                  "./maven_temp/dependencies/lib-1.0.jar"
                  {| class_name := "org.example.Bar";
                     file_path := "org/example/Bar.class";
                     jar_path := "./maven_temp/dependencies/lib-1.0.jar" |})
        as (_ & _ & Hmissing)
  end.
  - reflexivity.
  - apply list_elem_of_here.
  - rewrite list_elem_of_In. vm_compute. tauto.
  - rewrite list_elem_of_In. vm_compute. tauto.
  - reflexivity.
  - discriminate.
  - apply Hmissing. intros jar' cls' Hjar' Hcls' Heq.
    rewrite list_elem_of_In in Hjar'. vm_compute in Hjar'.
    rewrite list_elem_of_In in Hcls'.
    destruct Hjar' as [<-|[<-|[<-|[]]]]; vm_compute in Hcls';
      repeat (destruct Hcls' as [<-|Hcls']; [discriminate Heq|]); exact Hcls'.
Defined.

(** The specification lists every such requested name as missing.  Here
    "foo" is requested; it differs in case only from the class [Foo], which
    is filed under "Foo"; but the artifacts also hold a class [foo], so that
    "foo" is a key of the result and is not listed as missing. *)
Lemma case_variant_not_missing :
  exists data cls,
    result_of (McpServer.handle_analyze_dependency (Demo.env 0) (Demo.request ["foo"])) = Ret data /\
    cls ∈ classes_of (Demo.env 0) "./maven_temp/dependencies/lib-1.0.jar" /\
    Analyzer.simple_name cls = "Foo" /\
    PyStr.lower "foo" = PyStr.lower (Analyzer.simple_name cls) /\
    "foo" <> Analyzer.simple_name cls /\
    (exists class_list,
       ODict.get "Foo" (McpServer.found_classes data) = Some class_list /\ cls ∈ class_list) /\
    McpServer.missing_classes (McpServer.summary data) = [] /\
    "foo" ∉ McpServer.missing_classes (McpServer.summary data).
Proof.
  eexists.
  exists {| class_name := "org.example.Foo";
            file_path := "org/example/Foo.class";
            jar_path := "./maven_temp/dependencies/lib-1.0.jar" |}.
  split; [reflexivity|]. split.
  { rewrite list_elem_of_In. vm_compute. tauto. }
  split; [reflexivity|]. split; [reflexivity|]. split; [discriminate|]. split.
  - eexists. split; [reflexivity|]. apply list_elem_of_here.
  - split; [reflexivity|]. apply not_elem_of_nil.
Qed.

(** * Further properties of the code *)

(** ** More on strings *)

Module PyStrMore.
Import PyStr.

Lemma contains_char_cons c a s :
  contains (String c "") (String a s) = Ascii.eqb c a || contains (String c "") s.
Proof. cbn [contains is_prefix]. by rewrite andb_true_r. Qed.

Lemma contains_char_app c s t :
  contains (String c "") (s +:+ t) = contains (String c "") s || contains (String c "") t.
Proof.
  induction s as [|a s IH].
  - rewrite PyStrFacts.app_nil_l. by destruct t.
  - rewrite PyStrFacts.app_cons, !contains_char_cons, IH. by rewrite orb_assoc.
Qed.

(** The first position of [c] in a text that holds [c] right after a part
    without [c]. *)
Lemma index_app_fresh c p r :
  contains (String c "") p = false -> index c (p +:+ String c r) = len p.
Proof.
  induction p as [|a p IH]; intros Hp.
  - rewrite PyStrFacts.app_nil_l. simpl. by rewrite Ascii.eqb_refl.
  - rewrite contains_char_cons in Hp. apply orb_false_elim in Hp as [Ha Hp].
    rewrite PyStrFacts.app_cons. cbn [index]. rewrite Ascii.eqb_sym, Ha.
    unfold len in *. simpl. by rewrite IH.
Qed.

Lemma subst_char_fresh a b s :
  a <> b -> contains (String a "") (subst_char a b s) = false.
Proof.
  intros Hne. induction s as [|c s IH]; [reflexivity|].
  cbn [subst_char]. rewrite contains_char_cons, IH, orb_false_r.
  destruct (Ascii.eqb_spec c a) as [->|Hca].
  - by apply Ascii.eqb_neq.
  - apply Ascii.eqb_neq. congruence.
Qed.

Lemma repeat_comm s n : repeat s n +:+ s = s +:+ repeat s n.
Proof.
  induction n as [|n IH]; simpl.
  - by rewrite PyStrFacts.app_nil_l, PyStrFacts.app_nil_r.
  - by rewrite PyStrFacts.app_assoc, IH.
Qed.

Lemma lower_app s t : lower (s +:+ t) = lower s +:+ lower t.
Proof.
  induction s as [|c s IH]; [reflexivity|].
  rewrite PyStrFacts.app_cons. simpl. by rewrite PyStrFacts.app_cons, IH.
Qed.

(** [sub in s] holds exactly when [s] is some text, [sub], some text. *)
Lemma contains_spec sub s :
  contains sub s = true <-> exists pre post, s = pre +:+ sub +:+ post.
Proof.
  split.
  - induction s as [|c s IH].
    + cbn [contains]. rewrite orb_false_r. destruct sub; [|done].
      intros _. by exists "", "".
    + cbn [contains]. intros [Hpre|Hrest]%orb_prop.
      * exists "". clear IH. revert Hpre. generalize (String c s). clear c s.
        induction sub as [|a sub IH]; intros s Hpre.
        { exists s. reflexivity. }
        destruct s as [|b s]; [done|]. simpl in Hpre.
        apply andb_prop in Hpre as [->%Ascii.eqb_eq Hpre].
        destruct (IH s Hpre) as [post Hpost]. exists post.
        rewrite PyStrFacts.app_nil_l in *. rewrite PyStrFacts.app_cons. by f_equal.
      * destruct (IH Hrest) as (pre & post & ->). by exists (String c pre), post.
  - intros (pre & post & ->). induction pre as [|c pre IH].
    + rewrite PyStrFacts.app_nil_l.
      assert (is_prefix sub (sub +:+ post) = true) as H by apply PyStrFacts.prefix_app.
      destruct (sub +:+ post); cbn [contains]; by rewrite H.
    + rewrite PyStrFacts.app_cons. cbn [contains]. rewrite IH. apply orb_true_r.
Qed.

End PyStrMore.

(** ** Access flags and descriptors *)

Lemma access_flags_loop_filter items flags acc :
  Analyzer.access_flags_loop items flags acc =
  acc ++ map snd (filter (fun it => Z.land flags (fst it) <> 0) items).
Proof.
  revert acc. induction items as [|[v n] items IH]; intros acc; simpl.
  - by rewrite app_nil_r.
  - rewrite filter_cons. simpl. destruct (Z.eqb_spec (Z.land flags v) 0) as [E|E]; simpl.
    + rewrite decide_False by (intros H; by apply H). apply IH.
    + rewrite decide_True by done. rewrite IH. simpl. by rewrite <- app_assoc.
Qed.

Lemma elem_of_filter_names (P : Z * string -> Prop) `{!forall x, Decision (P x)}
    (items : list (Z * string)) v n :
  NoDup (map snd items) -> (v, n) ∈ items ->
  n ∈ map snd (filter P items) <-> P (v, n).
Proof.
  intros Hnd Hin. rewrite list_elem_of_fmap. split.
  - intros ([v' n'] & -> & [HP Hin']%list_elem_of_filter). simpl in *.
    assert (v' = v) as ->; [|done].
    clear HP. induction items as [|[v0 n0] items IH]; [by apply elem_of_nil in Hin|].
    simpl in Hnd. apply NoDup_cons in Hnd as [Hfresh Hnd].
    apply elem_of_cons in Hin as [Hin|Hin], Hin' as [Hin'|Hin'].
    + congruence.
    + exfalso. apply Hfresh. injection Hin as _ <-.
      apply list_elem_of_fmap. by exists (v', n').
    + exfalso. apply Hfresh. injection Hin' as _ <-.
      apply list_elem_of_fmap. by exists (v, n').
    + by apply IH.
  - intros HP. exists (v, n). split; [done|]. by apply list_elem_of_filter.
Qed.

Lemma filter_ext_elem {A} (P Q : A -> Prop)
    `{!forall x, Decision (P x), !forall x, Decision (Q x)} (l : list A) :
  (forall x, x ∈ l -> P x <-> Q x) -> filter P l = filter Q l.
Proof.
  induction l as [|a l IH]; intros Hext; [done|].
  rewrite !filter_cons. rewrite IH by (intros x Hx; apply Hext; by right).
  destruct (decide (P a)) as [HP|HP], (decide (Q a)) as [HQ|HQ]; try done.
  - exfalso. apply HQ, Hext; [by left|done].
  - exfalso. apply HP, Hext; [by left|done].
Qed.

Lemma flag_map_NoDup : NoDup (map snd Analyzer.flag_map).
Proof. apply NoDup_ListNoDup. repeat constructor; vm_compute; intuition congruence. Qed.

(** X1. [_parse_access_flags] reports the name of a table entry exactly when
    the flag word has a bit in common with the entry's mask, and reports the
    names in the order of the table (a sublist of the table's names). *)
Theorem parse_access_flags_spec (flags value : Z) (name : string) :
  (value, name) ∈ Analyzer.flag_map ->
  (name ∈ Analyzer._parse_access_flags flags <-> Z.land flags value <> 0) /\
  sublist (Analyzer._parse_access_flags flags) (map snd Analyzer.flag_map).
Proof.
  intros Hin. unfold Analyzer._parse_access_flags.
  rewrite access_flags_loop_filter, app_nil_l. split.
  - by rewrite (elem_of_filter_names _ _ value name flag_map_NoDup Hin).
  - apply fmap_sublist, sublist_filter.
Qed.

Lemma parse_access_flags_spec_witness :
  ("static" ∈ Analyzer._parse_access_flags 0x0019 <-> Z.land 0x0019 0x0008 <> 0) /\
  sublist (Analyzer._parse_access_flags 0x0019) (map snd Analyzer.flag_map).
Proof.
  apply (parse_access_flags_spec 0x0019 0x0008 "static").
  rewrite list_elem_of_In. vm_compute. repeat (first [left; reflexivity | right]).
Defined.

(** X2. Only the twelve bits of the table matter to [_parse_access_flags]:
    the flag word can be masked with 0x17FF without changing the result, and
    a flag word with none of those bits gives the empty list. *)
Theorem parse_access_flags_mask (flags : Z) :
  Analyzer._parse_access_flags flags =
    Analyzer._parse_access_flags (Z.land flags 0x17FF) /\
  (Z.land flags 0x17FF = 0 -> Analyzer._parse_access_flags flags = []).
Proof.
  assert (Analyzer._parse_access_flags flags =
          Analyzer._parse_access_flags (Z.land flags 0x17FF)) as Hmask.
  { unfold Analyzer._parse_access_flags. rewrite !access_flags_loop_filter.
    f_equal. f_equal. apply filter_ext_elem.
    intros [v n] Hin. simpl. rewrite <- Z.land_assoc.
    assert (Z.land 0x17FF v = v) as ->; [|done].
    apply list_elem_of_In in Hin. vm_compute in Hin.
    repeat (destruct Hin as [Hin|Hin]; [by injection Hin as <- _|]). done. }
  split; [done|]. intros H0. by rewrite Hmask, H0.
Qed.

Lemma parse_access_flags_mask_witness :
  Analyzer._parse_access_flags 0x0800 =
    Analyzer._parse_access_flags (Z.land 0x0800 0x17FF) /\
  Analyzer._parse_access_flags 0x0800 = [].
Proof.
  destruct (parse_access_flags_mask 0x0800) as [Hmask Hnone].
  split; [exact Hmask | apply Hnone; reflexivity].
Defined.

Lemma parse_field_type_frames_leaf py n descriptor :
  PyStr.startswith descriptor "[" = false ->
  Analyzer.parse_field_type_frames py (S n) descriptor =
  ([], Ret (Analyzer._parse_field_type descriptor)).
Proof.
  intros H. destruct descriptor as [|[b0 b1 b2 b3 b4 b5 b6 b7] rest]; [reflexivity|].
  destruct b0, b1, b2, b3, b4, b5, b6, b7;
    first [reflexivity | (simpl in H; discriminate H)].
Qed.

Lemma parse_field_type_frames_bracket py n rest :
  Analyzer.parse_field_type_frames py (S n) (String "[" rest) =
  (t ← Analyzer.parse_field_type_frames py n rest; mret (t +:+ "[]")).
Proof. reflexivity. Qed.

(** A call returns the value of the function, or is cut short. *)
Lemma parse_field_type_frames_shape py n descriptor :
  Analyzer.parse_field_type_frames py n descriptor =
    ([], Ret (Analyzer._parse_field_type descriptor)) \/
  Analyzer.parse_field_type_frames py n descriptor =
    ([], Raise (Analyzer.recursion_error py)).
Proof.
  revert descriptor. induction n as [|n IH]; intros descriptor; [by right|].
  destruct (PyStr.startswith descriptor "[") eqn:E.
  - destruct descriptor as [|c rest]; [discriminate E|].
    unfold PyStr.startswith in E. cbn [PyStr.is_prefix] in E.
    apply andb_prop in E as [<-%Ascii.eqb_eq _].
    rewrite parse_field_type_frames_bracket.
    destruct (IH rest) as [-> | ->]; [left|right]; reflexivity.
  - left. by apply parse_field_type_frames_leaf.
Qed.

(** X3. A call of [_parse_field_type] on [n] leading '[' before a
    descriptor that starts otherwise nests [n] calls: when the interpreter
    allows them, it returns the parsed descriptor followed by [n] times
    "[]"; when it does not, the call raises the interpreter's
    [RecursionError]. *)
Theorem parse_field_type_array py (n : nat) (descriptor : string) :
  PyStr.startswith descriptor "[" = false ->
  ((n < Analyzer.frames py)%nat ->
   Analyzer._parse_field_type_call py (PyStr.repeat "[" n +:+ descriptor) =
     ([], Ret (Analyzer._parse_field_type descriptor +:+ PyStr.repeat "[]" n))) /\
  ((Analyzer.frames py <= n)%nat ->
   Analyzer._parse_field_type_call py (PyStr.repeat "[" n +:+ descriptor) =
     ([], Raise (Analyzer.recursion_error py))).
Proof.
  intros Hleaf. unfold Analyzer._parse_field_type_call.
  generalize (Analyzer.frames py). intros f. split.
  - revert f. induction n as [|n IH]; intros f Hlt.
    + destruct f as [|f]; [lia|]. rewrite PyStrFacts.app_nil_l, PyStrFacts.app_nil_r.
      by apply parse_field_type_frames_leaf.
    + destruct f as [|f]; [lia|]. cbn [PyStr.repeat]. rewrite PyStrFacts.app_assoc.
      change ("[" +:+ ?s) with (String "["%char s).
      rewrite parse_field_type_frames_bracket, IH, bind_pure_l by lia.
      unfold mret, M_ret, m_ret. rewrite PyStrFacts.app_assoc.
      by rewrite PyStrMore.repeat_comm.
  - revert n. induction f as [|f IH]; intros n Hle; [reflexivity|].
    destruct n as [|n]; [lia|]. cbn [PyStr.repeat]. rewrite PyStrFacts.app_assoc.
    change ("[" +:+ ?s) with (String "["%char s).
    rewrite parse_field_type_frames_bracket, IH by lia. reflexivity.
Qed.

Lemma parse_field_type_array_witness :
  Analyzer._parse_field_type_call sample_interpreter
    (PyStr.repeat "[" 2 +:+ "Ljava/lang/String;") =
  ([], Ret ("java.lang.String" +:+ PyStr.repeat "[]" 2)).
Proof.
  apply (parse_field_type_array sample_interpreter 2 "Ljava/lang/String;").
  - reflexivity.
  - simpl. lia.
Defined.

(** X4. An object descriptor "L<body>;" is parsed to [body] with every '/'
    replaced by '.'; the result holds no '/'. *)
Theorem parse_field_type_object (body : string) :
  Analyzer._parse_field_type ("L" +:+ body +:+ ";") = PyStr.subst_char "/" "." body /\
  PyStr.contains "/" (Analyzer._parse_field_type ("L" +:+ body +:+ ";")) = false.
Proof.
  assert (Analyzer._parse_field_type ("L" +:+ body +:+ ";") =
          PyStr.subst_char "/" "." body) as Heq.
  { change ("L" +:+ body +:+ ";") with (String "L"%char (body +:+ ";")).
    cbn [Analyzer._parse_field_type].
    assert (PyStr.endswith (String "L" (body +:+ ";")) ";" = true) as ->.
    { apply PyStrFacts.endswith_spec. by exists (String "L"%char body). }
    change (PyStr.startswith (String "L" (body +:+ ";")) "L") with true.
    cbn [andb PyStr.drop].
    change 1%nat with (PyStr.len ";") at 1.
    rewrite PyStrFacts.slice_to_neg_app. apply PyStrFacts.replace_char. }
  split; [done|]. rewrite Heq. by apply PyStrMore.subst_char_fresh.
Qed.

(** X5. For a descriptor "(<params>)<ret>" whose parameter part holds no
    ')', [_format_method_signature] gives "<name>(<params>) -> <ret>"; a
    descriptor without '(' or without ')' is appended to the name as it is. *)
Theorem format_method_signature_spec (name params ret descriptor : string) :
  (PyStr.contains ")" params = false ->
   Analyzer._format_method_signature name ("(" +:+ params +:+ ")" +:+ ret) =
   name +:+ "(" +:+ params +:+ ") -> " +:+ ret) /\
  (PyStr.contains "(" descriptor = false \/ PyStr.contains ")" descriptor = false ->
   Analyzer._format_method_signature name descriptor = name +:+ descriptor).
Proof.
  split.
  - intros Hp. unfold Analyzer._format_method_signature.
    change ("(" +:+ params +:+ ")" +:+ ret) with (String "("%char (params +:+ ")" +:+ ret)).
    rewrite !PyStrMore.contains_char_cons, !PyStrMore.contains_char_app.
    change (PyStr.contains ")" (")" +:+ ret)) with true.
    rewrite orb_true_r, orb_true_r. cbn [Ascii.eqb Bool.eqb orb andb PyStr.index].
    change (Ascii.eqb "(" "(") with true. change (Ascii.eqb "(" ")") with false.
    cbn iota. change (")" +:+ ret) with (String ")"%char ret).
    rewrite (PyStrMore.index_app_fresh _ _ _ Hp).
    unfold PyStr.slice.
    replace (S (PyStr.len params) - (0 + 1))%nat with (PyStr.len params) by lia.
    replace (S (PyStr.len params) + 1)%nat with (S (S (PyStr.len params))) by lia.
    change (PyStr.drop (0 + 1) (String "(" ?s)) with s.
    change (PyStr.drop (S (S ?n)) (String "(" ?s)) with (PyStr.drop (S n) s).
    rewrite PyStrFacts.take_app_len.
    assert (PyStr.drop (S (PyStr.len params)) (params +:+ String ")" ret) = ret) as ->; [|done].
    { change (String ")" ret) with (")" +:+ ret).
      rewrite <- (PyStrFacts.drop_app_len (params +:+ ")") ret) at 2.
      rewrite PyStrFacts.app_assoc, PyStrFacts.len_app. f_equal. simpl. lia. }
  - intros H. unfold Analyzer._format_method_signature.
    destruct H as [-> | ->]; [done|]. by rewrite andb_false_r.
Qed.

Lemma format_method_signature_spec_witness :
  Analyzer._format_method_signature "main" ("(" +:+ "[Ljava/lang/String;" +:+ ")" +:+ "V") =
    "main" +:+ "(" +:+ "[Ljava/lang/String;" +:+ ") -> " +:+ "V" /\
  Analyzer._format_method_signature "count" "I" = "count" +:+ "I".
Proof.
  split.
  - apply (format_method_signature_spec "main" "[Ljava/lang/String;" "V" "I"). reflexivity.
  - apply (format_method_signature_spec "count" "" "" "I"). left. reflexivity.
Defined.

(** ** The two lookups *)

Lemma last_cons_nonempty {A} (x : A) l d : l <> [] -> List.last (x :: l) d = List.last l d.
Proof. by destruct l. Qed.

(** The last piece of [s.split(sep)] is a suffix of [s]; it is all of [s]
    when there is one piece only. *)
Lemma last_split_suffix sep s :
  exists pre, s = pre +:+ List.last (PyStr.split sep s) "" /\
              (forall w, PyStr.split sep s = [w] -> pre = "").
Proof.
  induction s as [|c s (pre & IH & Hone)].
  - by exists "".
  - pose proof (PyStrFacts.split_nonempty sep s) as Hne.
    cbn [PyStr.split]. destruct (Ascii.eqb c sep).
    + exists (String c pre). rewrite last_cons_nonempty by done. split.
      * rewrite PyStrFacts.app_cons. by f_equal.
      * intros w Hw. injection Hw as _ Hw. done.
    + destruct (PyStr.split sep s) as [|w [|w' ws]] eqn:E; [done|..].
      * rewrite (Hone w eq_refl) in IH. simpl in IH. subst s.
        exists "". by split.
      * exists (String c pre). split.
        -- rewrite PyStrFacts.app_cons. f_equal. exact IH.
        -- intros w0 Hw0. discriminate Hw0.
Qed.

(** A class's simple name occurs in its qualified name, also after
    lower-casing. *)
Lemma simple_name_contained cls :
  PyStr.contains (PyStr.lower (Analyzer.simple_name cls))
                 (PyStr.lower (class_name cls)) = true.
Proof.
  unfold Analyzer.simple_name.
  destruct (last_split_suffix "." (class_name cls)) as (pre & Heq & _).
  rewrite Heq at 2. rewrite PyStrMore.lower_app. apply PyStrFacts.contains_app_r.
Qed.

Lemma sublist_List_filter {A} (f : A -> bool) l : sublist (List.filter f l) l.
Proof.
  induction l as [|a l IH]; simpl; [constructor|].
  destruct (f a); by constructor.
Qed.

Lemma all_classes_cons env jar jars :
  all_classes env (jar :: jars) = classes_of env jar ++ all_classes env jars.
Proof. reflexivity. Qed.

Lemma find_class_loop_result env jars pat acc :
  result_of (Analyzer.find_class_loop env jars pat acc) =
  Ret (acc ++ Analyzer.pattern_matches pat (all_classes env jars)).
Proof.
  revert acc. induction jars as [|jar jars IH]; intros acc; cbn [Analyzer.find_class_loop].
  - simpl. by rewrite app_nil_r.
  - rewrite result_bind, get_classes_result, IH, all_classes_cons.
    unfold Analyzer.pattern_matches. by rewrite List.filter_app, <- app_assoc.
Qed.

Lemma find_class_loop_trace env jars pat acc :
  trace_of (Analyzer.find_class_loop env jars pat acc) =
  flat_map (fun jar => trace_of (Analyzer.get_classes_from_jar env jar)) jars.
Proof.
  revert acc. induction jars as [|jar jars IH]; intros acc; cbn [Analyzer.find_class_loop].
  - reflexivity.
  - by rewrite trace_bind, get_classes_result, IH.
Qed.

Lemma exact_jars_loop_trace_eq env jars lowers result :
  trace_of (Analyzer.exact_jars_loop env jars lowers result) =
  flat_map (fun jar => trace_of (Analyzer.get_classes_from_jar env jar)) jars.
Proof.
  revert result. induction jars as [|jar jars IH]; intros result;
    cbn [Analyzer.exact_jars_loop].
  - reflexivity.
  - by rewrite trace_bind, get_classes_result, IH.
Qed.

Lemma index_events_of_scan env jars :
  List.filter is_index_event
    (flat_map (fun jar => trace_of (Analyzer.get_classes_from_jar env jar)) jars) =
  map EvOpenArchive jars.
Proof.
  induction jars as [|jar jars IH]; [reflexivity|].
  cbn [flat_map map]. rewrite List.filter_app, IH.
  change (EvOpenArchive jar :: map EvOpenArchive jars)
    with ([EvOpenArchive jar] ++ map EvOpenArchive jars). f_equal.
  destruct (archive env jar) as [e|entries] eqn:E.
  - by rewrite (get_classes_unreadable _ _ _ E).
  - by rewrite (get_classes_readable _ _ _ E).
Qed.

(** X6. The substring lookup never raises and returns indexed classes in
    scan order; with the empty pattern these are all indexed classes.  For
    an ASCII pattern, an indexed class of ASCII name is returned exactly
    when its lower-cased qualified name contains the lower-cased pattern. *)
Theorem find_class_in_jars_spec env jar_files class_name_pattern :
  exists matched,
    result_of (Analyzer.find_class_in_jars env jar_files class_name_pattern) = Ret matched /\
    sublist matched (all_classes env jar_files) /\
    (class_name_pattern = "" -> matched = all_classes env jar_files) /\
    (PyStr.is_ascii class_name_pattern = true ->
     forall cls,
       cls ∈ all_classes env jar_files ->
       PyStr.is_ascii (class_name cls) = true ->
       cls ∈ matched <->
       exists pre post,
         PyStr.lower (class_name cls) = pre +:+ PyStr.lower class_name_pattern +:+ post).
Proof.
  unfold Analyzer.find_class_in_jars. rewrite find_class_loop_result, app_nil_l.
  eexists. split; [reflexivity|]. split; [apply sublist_List_filter|]. split.
  - intros ->. unfold Analyzer.pattern_matches.
    induction (all_classes env jar_files) as [|cls l IH]; [done|].
    cbn [List.filter].
    assert (PyStr.contains (PyStr.lower "") (PyStr.lower (class_name cls)) = true) as ->
      by by destruct (PyStr.lower (class_name cls)).
    f_equal. exact IH.
  - intros _ cls Hcls _. unfold Analyzer.pattern_matches.
    rewrite list_elem_of_In, filter_In, PyStrMore.contains_spec, <- list_elem_of_In.
    tauto.
Qed.

Lemma find_class_in_jars_spec_witness :
  {| class_name := "org.example.Foo"; file_path := "org/example/Foo.class";
     jar_path := "./maven_temp/dependencies/lib-1.0.jar" |}
  ∈ Analyzer.pattern_matches "EXAMPLE.f"
      (all_classes (Demo.env 0) ["./maven_temp/dependencies/lib-1.0.jar"]).
Proof.
  destruct (find_class_in_jars_spec (Demo.env 0)
              ["./maven_temp/dependencies/lib-1.0.jar"] "EXAMPLE.f")
    as (matched & Hres & _ & _ & Hiff).
  vm_compute in Hres. injection Hres as <-.
  apply <- (Hiff eq_refl
              {| class_name := "org.example.Foo"; file_path := "org/example/Foo.class";
                 jar_path := "./maven_temp/dependencies/lib-1.0.jar" |}).
  - by exists "org.", "oo".
  - reflexivity.
  - rewrite list_elem_of_In. vm_compute. left. reflexivity.
Defined.

(** X7. For ASCII names: whatever the exact lookup files under a key is
    also found by the substring lookup for that key. *)
Theorem find_exact_within_find_class env jar_files class_names found key class_list cls matched :
  Forall (fun name => PyStr.is_ascii name = true) class_names ->
  PyStr.is_ascii (class_name cls) = true ->
  result_of (Analyzer.find_exact_class_in_jars env jar_files class_names) = Ret found ->
  ODict.get key found = Some class_list ->
  cls ∈ class_list ->
  result_of (Analyzer.find_class_in_jars env jar_files key) = Ret matched ->
  cls ∈ matched.
Proof.
  intros _ _. rewrite find_exact_result. intros [= <-] Hget Hcls.
  unfold Analyzer.find_class_in_jars. rewrite find_class_loop_result, app_nil_l.
  intros [= <-]. rewrite get_exact_classes_loop in Hget. simpl in Hget.
  destruct (hits _ key _) as [|h hs] eqn:Hh; [done|]. injection Hget as <-.
  rewrite <- Hh in Hcls. apply elem_of_hits in Hcls as (Hin & _ & <-).
  unfold Analyzer.pattern_matches. rewrite list_elem_of_In, filter_In, <- list_elem_of_In.
  split; [done|]. apply simple_name_contained.
Qed.

Lemma find_exact_within_find_class_witness :
  {| class_name := "shaded.foo"; file_path := "shaded/foo.class";
     jar_path := "./maven_temp/dependencies/shaded.jar" |}
  ∈ Analyzer.pattern_matches "foo"
      (all_classes (Demo.env 0) ["./maven_temp/dependencies/lib-1.0.jar";
                                 "./maven_temp/dependencies/shaded.jar"]).
Proof.
  eapply (find_exact_within_find_class (Demo.env 0)
            ["./maven_temp/dependencies/lib-1.0.jar";
             "./maven_temp/dependencies/shaded.jar"] ["FOO"] _ "foo").
  - repeat constructor.
  - reflexivity.
  - reflexivity.
  - vm_compute. reflexivity.
  - rewrite list_elem_of_In. vm_compute. left. reflexivity.
  - vm_compute. reflexivity.
Defined.

(** X8. The exact lookup never raises.  The keys of its mapping are
    distinct, and the list under a key [k] is non-empty and holds exactly
    the indexed classes of simple name [k], in scan order.  For ASCII
    requested names, an indexed class of ASCII name is filed under its
    simple name exactly when its lower-cased simple name is among the
    lower-cased requested names. *)
Theorem find_exact_class_in_jars_spec env jar_files class_names :
  exists found,
    result_of (Analyzer.find_exact_class_in_jars env jar_files class_names) = Ret found /\
    NoDup (ODict.keys found) /\
    (forall k class_list,
       ODict.get k found = Some class_list ->
       class_list <> [] /\
       class_list = same_name k (all_classes env jar_files)) /\
    (Forall (fun name => PyStr.is_ascii name = true) class_names ->
     forall cls,
       cls ∈ all_classes env jar_files ->
       PyStr.is_ascii (class_name cls) = true ->
       (exists class_list,
          ODict.get (Analyzer.simple_name cls) found = Some class_list /\ cls ∈ class_list) <->
       PyStr.lower (Analyzer.simple_name cls) ∈ map PyStr.lower class_names).
Proof.
  rewrite find_exact_result. eexists. split; [reflexivity|]. split; [|split].
  - apply NoDup_exact_classes_loop. constructor.
  - intros k l. rewrite get_exact_classes_loop. simpl.
    destruct (hits _ k _) as [|h hs] eqn:Hh; [done|]. intros [= <-].
    assert (h ∈ hits (map PyStr.lower class_names) k (all_classes env jar_files)) as Hin
      by (rewrite Hh; left).
    apply elem_of_hits in Hin as (_ & Hlow & <-).
    split; [done|]. rewrite <- Hh. by apply hits_requested.
  - intros _ cls Hin _. rewrite get_exact_classes_loop. simpl. split.
    + intros (l & Hget & Hcls).
      destruct (hits _ _ _) as [|h hs] eqn:Hh; [done|]. injection Hget as <-.
      rewrite <- Hh in Hcls. by apply elem_of_hits in Hcls as (_ & Hlow & _).
    + intros Hlow.
      assert (cls ∈ hits (map PyStr.lower class_names) (Analyzer.simple_name cls)
                         (all_classes env jar_files)) as Hhit
        by by apply elem_of_hits.
      destruct (hits _ _ _) as [|h hs]; [by apply elem_of_nil in Hhit|].
      by eexists.
Qed.

Lemma find_exact_class_in_jars_spec_witness :
  [ {| class_name := "org.example.Foo"; file_path := "org/example/Foo.class";
       jar_path := "./maven_temp/dependencies/lib-1.0.jar" |};
    {| class_name := "shaded.Foo"; file_path := "shaded/Foo.class";
       jar_path := "./maven_temp/dependencies/shaded.jar" |} ] =
  same_name "Foo"
    (all_classes (Demo.env 0) ["./maven_temp/dependencies/lib-1.0.jar";
                               "./maven_temp/dependencies/shaded.jar"]).
Proof.
  destruct (find_exact_class_in_jars_spec (Demo.env 0)
              ["./maven_temp/dependencies/lib-1.0.jar";
               "./maven_temp/dependencies/shaded.jar"] ["foo"])
    as (found & Hres & _ & Hkeys & _).
  vm_compute in Hres. injection Hres as <-.
  apply (Hkeys "Foo"). reflexivity.
Defined.

(** X9. Both lookups perform the same effects, whatever is asked for: every
    artifact is opened once, in the order of the list.  In particular the
    exact lookup with no requested name still opens every artifact, and
    returns the empty mapping. *)
Theorem lookups_scan_every_artifact env jar_files class_names class_name_pattern :
  trace_of (Analyzer.find_exact_class_in_jars env jar_files class_names) =
    trace_of (Analyzer.find_class_in_jars env jar_files class_name_pattern) /\
  List.filter is_index_event
    (trace_of (Analyzer.find_exact_class_in_jars env jar_files class_names)) =
    map EvOpenArchive jar_files /\
  result_of (Analyzer.find_exact_class_in_jars env jar_files []) = Ret [].
Proof.
  unfold Analyzer.find_exact_class_in_jars, Analyzer.find_class_in_jars.
  rewrite exact_jars_loop_trace_eq, find_class_loop_trace. split; [done|]. split.
  - apply index_events_of_scan.
  - rewrite exact_jars_loop_result. f_equal. simpl.
    induction (all_classes env jar_files) as [|cls l IH]; [done|]. exact IH.
Qed.

(** ** The fetch and the manifest *)

Lemma endswith_join a f suf :
  PyStr.endswith f suf = true -> PyStr.endswith (OsPath.join a f) suf = true.
Proof.
  intros [q ->]%PyStrFacts.endswith_spec. unfold OsPath.join.
  destruct (PyStr.startswith _ "/"); [|destruct (_ || _)]; apply PyStrFacts.endswith_spec.
  - by exists q.
  - exists (a +:+ q). by rewrite PyStrFacts.app_assoc.
  - exists (a +:+ "/" +:+ q). by rewrite !PyStrFacts.app_assoc.
Qed.

(** X10. When the resolver has exited with status 0, the fetch returns the
    names of the listing that end in ".jar", each joined to the
    [dependencies] directory, in listing order; every returned path ends in
    ".jar". *)
Theorem download_dependencies_success env self pom out r names :
  EvExit r ∈ trace_of (Analyzer.download_dependencies env self pom out) ->
  returncode r = 0 ->
  listdir env (OsPath.join out "dependencies") = inr names ->
  exists jar_files,
    result_of (Analyzer.download_dependencies env self pom out) = Ret jar_files /\
    jar_files = map (OsPath.join (OsPath.join out "dependencies"))
                    (List.filter (fun f => PyStr.endswith f ".jar") names) /\
    Forall (fun p => PyStr.endswith p ".jar" = true) jar_files /\
    (length jar_files <= length names)%nat.
Proof.
  intros Hin Hrc Hls.
  assert (result_of (Analyzer.download_dependencies env self pom out) =
          Ret (map (OsPath.join (OsPath.join out "dependencies"))
                   (List.filter (fun f => PyStr.endswith f ".jar") names))) as Hres.
  { revert Hin. unfold Analyzer.download_dependencies. munfold. simpl. rewrite Hls.
    repeat case_oracle; intros Hin; in_trace Hin; injection Hin as ->;
      try reflexivity.
    all: apply Z.eqb_neq in Heqb; done. }
  eexists. split; [exact Hres|]. split; [done|]. split.
  - apply Forall_forall. intros p [f [<- Hf]]%list_elem_of_In%in_map_iff.
    apply filter_In in Hf as [_ Hf]. by apply endswith_join.
  - rewrite length_map. apply filter_length_le.
Qed.

Lemma download_dependencies_success_witness :
  result_of (Analyzer.download_dependencies (Demo.env 0) McpServer.analyzer
               "./maven_temp/pom.xml" "./maven_temp") =
  Ret ["./maven_temp/dependencies/lib-1.0.jar"; "./maven_temp/dependencies/shaded.jar";
       "./maven_temp/dependencies/bad.jar"].
Proof.
  destruct (download_dependencies_success (Demo.env 0) McpServer.analyzer
              "./maven_temp/pom.xml" "./maven_temp"
              {| returncode := 0; stdout := "BUILD SUCCESS"; stderr := "" |}
              ["lib-1.0.jar"; "notes.txt"; "shaded.jar"; "bad.jar"])
    as (jar_files & Hres & -> & _).
  - rewrite list_elem_of_In. vm_compute. repeat (first [left; reflexivity | right]).
  - reflexivity.
  - reflexivity.
  - exact Hres.
Defined.

(** X11. The fetch starts at most the one resolver process, with the
    manifest and the output directory as absolute paths and the work
    directory as its current directory; it lists the output directory only
    after that process has exited with status 0; and when the output
    directory cannot be created, nothing else is done. *)
Theorem download_dependencies_order env self pom out :
  let target_dir := OsPath.join out "dependencies" in
  (forall argv cwd,
     EvRun argv cwd ∈ trace_of (Analyzer.download_dependencies env self pom out) ->
     argv = [ Analyzer.maven_cmd self; "-f"; abspath env pom;
              "dependency:copy-dependencies";
              "-DoutputDirectory=" +:+ abspath env target_dir;
              "-DincludeScope=compile" ] /\
     cwd = Some (abspath env out)) /\
  (length (List.filter is_run_event
             (trace_of (Analyzer.download_dependencies env self pom out))) <= 1)%nat /\
  (forall p,
     EvListdir p ∈ trace_of (Analyzer.download_dependencies env self pom out) ->
     p = target_dir /\
     exists r, EvExit r ∈ trace_of (Analyzer.download_dependencies env self pom out) /\
               returncode r = 0) /\
  (forall e,
     makedirs env target_dir = Some e ->
     Analyzer.download_dependencies env self pom out = ([EvMakedirs target_dir], Raise e)).
Proof.
  intros target_dir. subst target_dir.
  unfold Analyzer.download_dependencies. munfold. simpl. repeat split.
  1,2: revert H; repeat case_oracle; intros Hin; in_trace Hin; by injection Hin.
  - repeat case_oracle; lia.
  - revert H; repeat case_oracle; intros Hin; in_trace Hin; by injection Hin.
  - revert H; repeat case_oracle; intros Hin; in_trace Hin.
    all: eexists; split; [rewrite list_elem_of_In; simpl; eauto 8|by apply Z.eqb_eq].
  - intros e ->. reflexivity.
Qed.

Lemma download_dependencies_order_witness :
  "./maven_temp/dependencies" = OsPath.join "./maven_temp" "dependencies" /\
  exists r,
    EvExit r ∈ trace_of (Analyzer.download_dependencies (Demo.env 0) McpServer.analyzer
                           "./maven_temp/pom.xml" "./maven_temp") /\
    returncode r = 0.
Proof.
  apply (download_dependencies_order (Demo.env 0) McpServer.analyzer
           "./maven_temp/pom.xml" "./maven_temp").
  rewrite list_elem_of_In. vm_compute. repeat (first [left; reflexivity | right]).
Defined.

Lemma dependencies_loop_ok deps c :
  Forall (fun dep => ~ lacks_field dep) deps ->
  Analyzer.dependencies_loop deps c =
  ([], Ret (c +:+ fold_right (fun dep acc => dependency_text dep +:+ acc) "" deps)).
Proof.
  revert c. induction deps as [|dep deps IH]; intros c Hok.
  - simpl. by rewrite PyStrFacts.app_nil_r.
  - apply Forall_cons in Hok as [Hdep Hok]. cbn [Analyzer.dependencies_loop fold_right].
    unfold lacks_field in Hdep. rewrite !getitem_shape.
    destruct (dep !! "groupId") as [g|] eqn:Eg; [|tauto].
    destruct (dep !! "artifactId") as [a|] eqn:Ea; [|tauto].
    destruct (dep !! "version") as [v|] eqn:Ev; [|tauto].
    rewrite !bind_pure_l, IH by done. unfold dependency_text.
    rewrite Eg, Ea, Ev. simpl default. by rewrite PyStrFacts.app_assoc.
Qed.

(** X12. For coordinates that all have their three fields and no
    repository ([None] or the empty list), the synthesis opens [pom.xml] in
    the output directory, writes the header, one block per coordinate in
    the order given and the footer, and returns the path; these are its
    only effects.  When the file cannot be opened, nothing is written. *)
Theorem create_temp_pom_success env deps out repos :
  Forall (fun dep => ~ lacks_field dep) deps ->
  repos = None \/ repos = Some [] ->
  let pom_path := OsPath.join out "pom.xml" in
  (open_write env pom_path = None ->
   Analyzer.create_temp_pom env deps out repos =
     ([EvOpenWrite pom_path; EvWriteText pom_path (pom_text deps)], Ret pom_path)) /\
  (forall e, open_write env pom_path = Some e ->
   Analyzer.create_temp_pom env deps out repos = ([EvOpenWrite pom_path], Raise e)).
Proof.
  intros Hok Hrepos pom_path. subst pom_path.
  assert (Analyzer.create_temp_pom env deps out repos =
          Analyzer.create_temp_pom env deps out None) as ->
    by by destruct Hrepos as [-> | ->].
  unfold Analyzer.create_temp_pom, Analyzer.open_for_write.
  rewrite bind_ret_l, dependencies_loop_ok, bind_pure_l by done.
  split.
  - intros ->. munfold. simpl. unfold pom_text. by rewrite !PyStrFacts.app_assoc.
  - intros e ->. reflexivity.
Qed.

Lemma create_temp_pom_success_witness :
  Analyzer.create_temp_pom (Demo.env 0) [Demo.coordinate] "./maven_temp" (Some []) =
  ([EvOpenWrite "./maven_temp/pom.xml";
    EvWriteText "./maven_temp/pom.xml" (pom_text [Demo.coordinate])],
   Ret "./maven_temp/pom.xml").
Proof.
  apply (create_temp_pom_success (Demo.env 0) [Demo.coordinate] "./maven_temp" (Some [])).
  - repeat constructor. unfold lacks_field. vm_compute. intuition discriminate.
  - by right.
  - reflexivity.
Defined.

(** ** Reading an entry *)

Lemma find_last_entry (entries : list (string * list Byte.byte)) name :
  name ∈ map fst entries ->
  exists e, List.find (fun e => String.eqb (fst e) name) (rev entries) = Some e /\
            fst e = name /\ e ∈ entries.
Proof.
  intros Hin.
  destruct (List.find (fun e => String.eqb (fst e) name) (rev entries)) as [e|] eqn:E.
  - apply find_some in E as [He Hname]. exists e. split; [done|]. split.
    + by apply String.eqb_eq.
    + apply list_elem_of_In. by apply in_rev.
  - exfalso. apply list_elem_of_fmap in Hin as (e & -> & He).
    apply list_elem_of_In, in_rev in He.
    pose proof (find_none _ _ E e He) as Hno. simpl in Hno.
    by rewrite String.eqb_refl in Hno.
Qed.

(** Reading a listed entry gives the content of an entry of that name, unless
    the entry cannot be read. *)
Lemma zip_read_found env jar entries name :
  name ∈ map fst entries ->
  exists bytes,
    (name, bytes) ∈ entries /\
    Analyzer.zip_read env jar entries name =
      ([], match read_error env jar name with
           | Some e => Raise e
           | None => Ret bytes
           end).
Proof.
  intros Hin. destruct (find_last_entry entries name Hin) as ([n b] & Hfind & Hn & He).
  simpl in Hn. subst n. exists b. split; [done|].
  unfold Analyzer.zip_read. rewrite Hfind. by destruct (read_error env jar name).
Qed.

Lemma zip_read_missing env jar entries name :
  name ∉ map fst entries ->
  Analyzer.zip_read env jar entries name =
  ([], Raise (KeyError ("There is no item named " +:+ py_repr name +:+ " in the archive"))).
Proof.
  intros Hnot. unfold Analyzer.zip_read.
  destruct (List.find _ (rev entries)) as [e|] eqn:E; [|done].
  exfalso. apply find_some in E as [He Hname]. apply Hnot.
  apply String.eqb_eq in Hname as <-. apply list_elem_of_fmap. exists e. split; [done|].
  apply list_elem_of_In. by apply in_rev.
Qed.

Lemma zip_read_last env jar before bytes after name :
  name ∉ map fst after ->
  Analyzer.zip_read env jar (before ++ (name, bytes) :: after) name =
    ([], match read_error env jar name with
         | Some e => Raise e
         | None => Ret bytes
         end).
Proof.
  intros Hnot. unfold Analyzer.zip_read.
  rewrite rev_app_distr. simpl. rewrite <- app_assoc. simpl.
  assert (List.find (fun e => String.eqb (fst e) name) (rev after ++ (name, bytes) :: rev before)
          = Some (name, bytes)) as ->; [|by destruct (read_error env jar name)].
  assert (forall e, e ∈ rev after -> String.eqb (fst e) name = false) as Hfalse.
  { intros e He. apply String.eqb_neq. intros <-. apply Hnot.
    apply list_elem_of_fmap. exists e. split; [done|].
    apply list_elem_of_In, in_rev. by apply list_elem_of_In. }
  induction (rev after) as [|a l IH]; simpl.
  - by rewrite String.eqb_refl.
  - rewrite (Hfalse a) by left. apply IH. intros e He. apply Hfalse. by right.
Qed.

Lemma get_class_bytecode_readable env jar entries path :
  archive env jar = inr entries ->
  Analyzer.get_class_bytecode env jar path =
    (EvOpenArchive jar :: trace_of (Analyzer.zip_read env jar entries path),
     result_of (Analyzer.zip_read env jar entries path)).
Proof.
  intros E. unfold Analyzer.get_class_bytecode, Analyzer.ZipFile. rewrite E.
  munfold. simpl. by destruct (Analyzer.zip_read env jar entries path).
Qed.

Lemma classes_of_readable env jar entries :
  archive env jar = inr entries ->
  classes_of env jar = map (entry_record jar) (List.filter is_class_entry (map fst entries)).
Proof. intros H. unfold classes_of. by rewrite (get_classes_readable _ _ _ H). Qed.

(** X13. A record that the indexer returns for an artifact names an entry of
    the artifact.  The indexer does not read it: when the entry can be read,
    [get_class_bytecode] on the record's [jar_path] and [file_path] returns
    the content of an entry of that name and [analyze_class_basic] does not
    raise; when it cannot (the indexer has listed it all the same), both
    raise the error of the read. *)
Theorem indexed_class_is_readable env jar cls :
  cls ∈ classes_of env jar ->
  exists entries,
    archive env jar = inr entries /\
    jar_path cls = jar /\
    file_path cls ∈ map fst entries /\
    (read_error env jar (file_path cls) = None ->
     exists bytes,
       (file_path cls, bytes) ∈ entries /\
       result_of (Analyzer.get_class_bytecode env (jar_path cls) (file_path cls)) = Ret bytes /\
       result_of (Analyzer.analyze_class_basic env (jar_path cls) (file_path cls)) =
         Ret (Analyzer.analyze_bytecode bytes)) /\
    (forall e,
       read_error env jar (file_path cls) = Some e ->
       result_of (Analyzer.get_class_bytecode env (jar_path cls) (file_path cls)) = Raise e /\
       result_of (Analyzer.analyze_class_basic env (jar_path cls) (file_path cls)) = Raise e).
Proof.
  intros Hcls. destruct (archive env jar) as [e|entries] eqn:E.
  { unfold classes_of in Hcls. rewrite (get_classes_unreadable _ _ _ E) in Hcls.
    by apply elem_of_nil in Hcls. }
  rewrite (classes_of_readable _ _ _ E) in Hcls.
  apply list_elem_of_In, in_map_iff in Hcls as (name & <- & Hname).
  apply filter_In in Hname as [Hname _]. apply list_elem_of_In in Hname.
  destruct (zip_read_found env jar entries name Hname) as (bytes & Hin & Hread).
  exists entries. cbn [entry_record jar_path file_path].
  split; [done|]. split; [done|]. split; [done|].
  unfold Analyzer.analyze_class_basic.
  rewrite result_bind, (get_class_bytecode_readable _ _ _ _ E), Hread. simpl. split.
  - intros ->. by exists bytes.
  - by intros e ->.
Qed.

Lemma indexed_class_is_readable_witness :
  exists bytes,
    result_of (Analyzer.get_class_bytecode (Demo.env 0)
                 "./maven_temp/dependencies/lib-1.0.jar" "org/example/Foo.class") = Ret bytes /\
    result_of (Analyzer.analyze_class_basic (Demo.env 0)
                 "./maven_temp/dependencies/lib-1.0.jar" "org/example/Foo.class") =
      Ret (Analyzer.analyze_bytecode bytes).
Proof.
  destruct (indexed_class_is_readable (Demo.env 0) "./maven_temp/dependencies/lib-1.0.jar"
              {| class_name := "org.example.Foo"; file_path := "org/example/Foo.class";
                 jar_path := "./maven_temp/dependencies/lib-1.0.jar" |})
    as (entries & _ & _ & _ & Hreadable & _).
  - rewrite list_elem_of_In. vm_compute. left. reflexivity.
  - destruct (Hreadable eq_refl) as (bytes & _ & Hbytes & Hbasic).
    exists bytes. split; [exact Hbytes|exact Hbasic].
Defined.

(** X14. [get_class_bytecode] opens the artifact and does nothing else.  An
    artifact that cannot be opened makes it raise that error (the indexer
    swallows it); a name that is no entry makes it raise [KeyError] (the
    text is given for an ASCII name); a listed entry that cannot be read
    makes it raise the error of the read; of several readable entries of
    one name it returns the content of the last. *)
Theorem get_class_bytecode_outcomes env jar path :
  trace_of (Analyzer.get_class_bytecode env jar path) = [EvOpenArchive jar] /\
  (forall e, archive env jar = inl e ->
     result_of (Analyzer.get_class_bytecode env jar path) = Raise e /\
     result_of (Analyzer.get_classes_from_jar env jar) = Ret []) /\
  (forall entries, archive env jar = inr entries -> path ∉ map fst entries ->
     (exists key, result_of (Analyzer.get_class_bytecode env jar path) = Raise (KeyError key)) /\
     (PyStr.is_ascii path = true ->
      result_of (Analyzer.get_class_bytecode env jar path) =
        Raise (KeyError ("There is no item named " +:+ py_repr path +:+ " in the archive")))) /\
  (forall entries e,
     archive env jar = inr entries -> path ∈ map fst entries ->
     read_error env jar path = Some e ->
     result_of (Analyzer.get_class_bytecode env jar path) = Raise e) /\
  (forall before bytes after,
     archive env jar = inr (before ++ (path, bytes) :: after) ->
     path ∉ map fst after ->
     read_error env jar path = None ->
     result_of (Analyzer.get_class_bytecode env jar path) = Ret bytes).
Proof.
  split; [|split; [|split; [|split]]].
  - unfold Analyzer.get_class_bytecode, Analyzer.ZipFile, Analyzer.zip_read.
    munfold. simpl. destruct (archive env jar); simpl; [done|].
    destruct (List.find _ _); [|done]. by destruct (read_error env jar path).
  - intros e E. rewrite (get_classes_unreadable _ _ _ E).
    unfold Analyzer.get_class_bytecode, Analyzer.ZipFile. rewrite E. by munfold.
  - intros entries E Hnot.
    rewrite (get_class_bytecode_readable _ _ _ _ E), (zip_read_missing _ _ _ _ Hnot).
    split; [by eexists|done].
  - intros entries e E Hin Hread.
    destruct (zip_read_found env jar entries path Hin) as (bytes & _ & Hzip).
    by rewrite (get_class_bytecode_readable _ _ _ _ E), Hzip, Hread.
  - intros before bytes after E Hnot Hread.
    by rewrite (get_class_bytecode_readable _ _ _ _ E), (zip_read_last _ _ _ _ _ _ Hnot), Hread.
Qed.

Lemma get_class_bytecode_outcomes_witness :
  result_of (Analyzer.get_class_bytecode (Demo.env 0)
               "./maven_temp/dependencies/bad.jar" "org/example/Foo.class") =
    Raise (BadZipFile "File is not a zip file") /\
  result_of (Analyzer.get_class_bytecode (Demo.env 0)
               "./maven_temp/dependencies/lib-1.0.jar" "org/example/Baz.class") =
    Raise (KeyError "There is no item named 'org/example/Baz.class' in the archive").
Proof.
  destruct (get_class_bytecode_outcomes (Demo.env 0)
              "./maven_temp/dependencies/bad.jar" "org/example/Foo.class")
    as (_ & Hbad & _).
  destruct (get_class_bytecode_outcomes (Demo.env 0)
              "./maven_temp/dependencies/lib-1.0.jar" "org/example/Baz.class")
    as (_ & _ & Hmissing & _).
  split.
  - apply (Hbad (BadZipFile "File is not a zip file")). reflexivity.
  - apply (Hmissing _ eq_refl); [|reflexivity]. rewrite list_elem_of_In. simpl.
    intuition discriminate.
Defined.

(** ** Decompilation *)

Lemma trace_emit_then {A} ev (m : M A) : trace_of (emit ev;; m) = ev :: trace_of m.
Proof. destruct m as [t [a|e]]; reflexivity. Qed.

Lemma result_emit_then {A} ev (m : M A) : result_of (emit ev;; m) = result_of m.
Proof. destruct m as [t [a|e]]; reflexivity. Qed.

(** X15. A decompilation removes the temporary directory it was given,
    once, as its last effect, whatever happened in between (also when the
    entry is missing or the disassembler cannot be started); when no
    temporary directory can be created it does nothing else and returns the
    error text. *)
Theorem decompile_class_cleanup env jar path :
  (forall temp_dir, mkdtemp env = inr temp_dir ->
     exists mid,
       trace_of (Analyzer.decompile_class env jar path) =
         EvMkdtemp :: mid ++ [EvRmtree temp_dir] /\
       Forall (fun ev => is_decompile_event ev = false /\ is_rmtree_event ev = false) mid) /\
  (forall e, mkdtemp env = inl e ->
     Analyzer.decompile_class env jar path =
       ([EvMkdtemp], Ret ("反编译出错: " +:+ exc_str e))).
Proof.
  unfold Analyzer.decompile_class, Analyzer.with_TemporaryDirectory. split.
  - intros d ->. cbn [lift]. rewrite trace_try_except, trace_emit_then, bind_ret_l,
      trace_try_finally_emit.
    eexists. split.
    + match goal with |- _ ++ ?x = _ => assert (x = []) as -> by by destruct (result_of _) end.
      rewrite app_nil_r. reflexivity.
    + unfold Analyzer.ZipFile, Analyzer.open_for_write, Analyzer.zip_read. munfold. simpl.
      repeat case_oracle; by repeat constructor.
  - intros e ->. reflexivity.
Qed.

Lemma decompile_class_cleanup_witness :
  exists mid,
    trace_of (Analyzer.decompile_class (Demo.env 0)
                "./maven_temp/dependencies/lib-1.0.jar" "org/example/Baz.class") =
      EvMkdtemp :: mid ++ [EvRmtree "/tmp/tmpdir"] /\
    Forall (fun ev => is_decompile_event ev = false /\ is_rmtree_event ev = false) mid.
Proof.
  apply (decompile_class_cleanup (Demo.env 0)
           "./maven_temp/dependencies/lib-1.0.jar" "org/example/Baz.class").
  reflexivity.
Defined.

(** X16. What a decompilation returns is decided by its first step that
    fails.  When the entry has been extracted into the temporary directory,
    the disassembler is run once on the extracted file: if it exits, the
    text is its standard output on status 0 and the failure marker with its
    diagnostic output otherwise; if it cannot be started, the text is the
    error marker with the text of that error.  When the artifact cannot be
    opened, the temporary file cannot be created or the entry cannot be
    read, nothing is run and the text is the error marker with the text of
    that error (a name that is no entry is the subject of X17).  In every
    case the temporary directory is removed last. *)
Theorem decompile_class_outcome env jar path temp_dir :
  let temp_class_file := OsPath.join temp_dir (OsPath.basename path) in
  let argv := ["javap"; "-c"; "-p"; "-constants"; temp_class_file] in
  mkdtemp env = inr temp_dir ->
  (forall e,
     archive env jar = inl e ->
     Analyzer.decompile_class env jar path =
       ([EvMkdtemp; EvOpenArchive jar; EvRmtree temp_dir],
        Ret ("反编译出错: " +:+ exc_str e))) /\
  (forall entries e,
     archive env jar = inr entries ->
     open_write env temp_class_file = Some e ->
     Analyzer.decompile_class env jar path =
       ([EvMkdtemp; EvOpenArchive jar; EvOpenWrite temp_class_file; EvRmtree temp_dir],
        Ret ("反编译出错: " +:+ exc_str e))) /\
  (forall entries e,
     archive env jar = inr entries ->
     open_write env temp_class_file = None ->
     path ∈ map fst entries ->
     read_error env jar path = Some e ->
     Analyzer.decompile_class env jar path =
       ([EvMkdtemp; EvOpenArchive jar; EvOpenWrite temp_class_file; EvRmtree temp_dir],
        Ret ("反编译出错: " +:+ exc_str e))) /\
  (forall entries data,
     archive env jar = inr entries ->
     open_write env temp_class_file = None ->
     result_of (Analyzer.zip_read env jar entries path) = Ret data ->
     (forall e,
        run_javap env argv data = inl e ->
        Analyzer.decompile_class env jar path =
          ([EvMkdtemp; EvOpenArchive jar; EvOpenWrite temp_class_file;
            EvWriteBytes temp_class_file data; EvRun argv None; EvRmtree temp_dir],
           Ret ("反编译出错: " +:+ exc_str e))) /\
     (forall r,
        run_javap env argv data = inr r ->
        Analyzer.decompile_class env jar path =
          ([EvMkdtemp; EvOpenArchive jar; EvOpenWrite temp_class_file;
            EvWriteBytes temp_class_file data; EvRun argv None; EvExit r;
            EvRmtree temp_dir],
           Ret (if returncode r =? 0 then stdout r
                else "反编译失败: " +:+ stderr r)))).
Proof.
  intros temp_class_file argv Hd. subst temp_class_file argv.
  unfold Analyzer.decompile_class, Analyzer.with_TemporaryDirectory, Analyzer.ZipFile,
    Analyzer.open_for_write, Analyzer.zip_read.
  munfold. simpl. rewrite Hd. simpl. split; [|split; [|split]].
  - intros e ->. reflexivity.
  - intros entries e -> ->. reflexivity.
  - intros entries e -> -> Hin ->. simpl.
    by destruct (find_last_entry entries path Hin) as (entry & -> & _).
  - intros entries data -> ->. simpl.
    destruct (List.find _ (rev entries)); simpl; [|done].
    destruct (read_error env jar path); simpl; [done|]. intros [= ->]. split.
    + intros e ->. reflexivity.
    + intros r ->. simpl. by destruct (returncode r =? 0).
Qed.

Lemma decompile_class_outcome_witness :
  Analyzer.decompile_class (Demo.env 0)
    "./maven_temp/dependencies/lib-1.0.jar" "org/example/Foo.class" =
  ([EvMkdtemp; EvOpenArchive "./maven_temp/dependencies/lib-1.0.jar";
    EvOpenWrite "/tmp/tmpdir/Foo.class";
    EvWriteBytes "/tmp/tmpdir/Foo.class" Demo.cafebabe52;
    EvRun ["javap"; "-c"; "-p"; "-constants"; "/tmp/tmpdir/Foo.class"] None;
    EvExit (Demo.ok_process "Compiled from /tmp/tmpdir/Foo.class");
    EvRmtree "/tmp/tmpdir"],
   Ret "Compiled from /tmp/tmpdir/Foo.class").
Proof.
  destruct (decompile_class_outcome (Demo.env 0)
              "./maven_temp/dependencies/lib-1.0.jar" "org/example/Foo.class"
              "/tmp/tmpdir" eq_refl) as (_ & _ & _ & Hextracted).
  destruct (Hextracted
              [ ("META-INF/MANIFEST.MF", []);
                ("org/example/Foo.class", Demo.cafebabe52);
                ("org/example/Bar.class", Demo.broken) ]
              Demo.cafebabe52 eq_refl eq_refl eq_refl) as [_ Hexit].
  apply (Hexit (Demo.ok_process "Compiled from /tmp/tmpdir/Foo.class")). reflexivity.
Defined.

Lemma find_entry_missing (entries : list (string * list Byte.byte)) name :
  name ∉ map fst entries ->
  List.find (fun e => String.eqb (fst e) name) (rev entries) = None.
Proof.
  intros Hnot. destruct (List.find _ (rev entries)) as [e|] eqn:E; [|done].
  exfalso. apply find_some in E as [He Hname]. apply Hnot.
  apply String.eqb_eq in Hname as <-. apply list_elem_of_fmap. exists e. split; [done|].
  apply list_elem_of_In. by apply in_rev.
Qed.

(** X17. Decompiling a name that is no entry of a readable artifact creates
    the temporary file (it is opened before the entry is read), writes
    nothing into it, starts no disassembler, removes the temporary
    directory and returns the error marker with the text of the
    [KeyError] (given here for an ASCII name). *)
Theorem decompile_class_missing_entry env jar path entries temp_dir :
  mkdtemp env = inr temp_dir ->
  archive env jar = inr entries ->
  path ∉ map fst entries ->
  open_write env (OsPath.join temp_dir (OsPath.basename path)) = None ->
  PyStr.is_ascii path = true ->
  Analyzer.decompile_class env jar path =
    ([EvMkdtemp; EvOpenArchive jar;
      EvOpenWrite (OsPath.join temp_dir (OsPath.basename path)); EvRmtree temp_dir],
     Ret ("反编译出错: " +:+
          py_repr ("There is no item named " +:+ py_repr path +:+ " in the archive"))).
Proof.
  intros Hd Ha Hnot Hw _.
  unfold Analyzer.decompile_class, Analyzer.with_TemporaryDirectory, Analyzer.ZipFile,
    Analyzer.open_for_write, Analyzer.zip_read.
  munfold. simpl. rewrite Hd. simpl. rewrite Ha. simpl. rewrite Hw. simpl.
  by rewrite (find_entry_missing _ _ Hnot).
Qed.

Lemma decompile_class_missing_entry_witness :
  Analyzer.decompile_class (Demo.env 0)
    "./maven_temp/dependencies/lib-1.0.jar" "org/example/Baz.class" =
  ([EvMkdtemp; EvOpenArchive "./maven_temp/dependencies/lib-1.0.jar";
    EvOpenWrite "/tmp/tmpdir/Baz.class"; EvRmtree "/tmp/tmpdir"],
   Ret ("反编译出错: " +:+ dq +:+
        "There is no item named 'org/example/Baz.class' in the archive" +:+ dq)).
Proof.
  apply (decompile_class_missing_entry (Demo.env 0)
           "./maven_temp/dependencies/lib-1.0.jar" "org/example/Baz.class"
           [ ("META-INF/MANIFEST.MF", []);
             ("org/example/Foo.class", Demo.cafebabe52);
             ("org/example/Bar.class", Demo.broken) ] "/tmp/tmpdir").
  - reflexivity.
  - reflexivity.
  - rewrite list_elem_of_In. simpl. intuition discriminate.
  - reflexivity.
  - reflexivity.
Defined.

(** ** The minimal summary *)

Lemma version_map_get_known major fallback :
  52 <= major <= 65 ->
  Analyzer.version_map_get major fallback = Analyzer.str_of_int (major - 44).
Proof.
  intros H.
  assert (major = 52 \/ major = 53 \/ major = 54 \/ major = 55 \/ major = 56 \/
          major = 57 \/ major = 58 \/ major = 59 \/ major = 60 \/ major = 61 \/
          major = 62 \/ major = 63 \/ major = 64 \/ major = 65) as Hcases by lia.
  repeat (destruct Hcases as [->|Hcases]; [reflexivity|]). by subst.
Qed.

Lemma version_map_get_unknown major fallback :
  major < 52 \/ 65 < major ->
  Analyzer.version_map_get major fallback = fallback.
Proof.
  intros H. unfold Analyzer.version_map_get, Analyzer.java_version_map.
  cbn [List.find fst snd].
  repeat (match goal with
          | |- context [?a =? major] => destruct (Z.eqb_spec a major); [lia|]
          end).
  reflexivity.
Qed.

(** X18. For a buffer that starts with the magic number, followed by two
    bytes of minor and two bytes of major version, the summary reports the
    versions as "major.minor", the whole length as size, and as compatible
    Java release the major version minus 44 when the major version is from
    52 to 65, and "Unknown (major)" otherwise. *)
Theorem analyze_bytecode_versions (m1 m0 j1 j0 : Byte.byte) (rest : list Byte.byte) :
  let minor := Analyzer.int_from_bytes_big [m1; m0] in
  let major := Analyzer.int_from_bytes_big [j1; j0] in
  exists info,
    Analyzer.analyze_bytecode (magic_bytes ++ [m1; m0; j1; j0] ++ rest) = Some info /\
    Analyzer.java_version info =
      Analyzer.str_of_int major +:+ "." +:+ Analyzer.str_of_int minor /\
    Analyzer.bytecode_size info = (8 + length rest)%nat /\
    (52 <= major <= 65 ->
     Analyzer.java_compatible info = Analyzer.str_of_int (major - 44)) /\
    (major < 52 \/ 65 < major ->
     Analyzer.java_compatible info = "Unknown (" +:+ Analyzer.str_of_int major +:+ ")").
Proof.
  intros minor major. eexists. split; [reflexivity|].
  cbn [Analyzer.java_version Analyzer.bytecode_size Analyzer.java_compatible].
  split; [reflexivity|]. split; [reflexivity|]. split.
  - intros H. by apply version_map_get_known.
  - intros H. by apply version_map_get_unknown.
Qed.

Lemma analyze_bytecode_versions_witness :
  exists info,
    Analyzer.analyze_bytecode Demo.cafebabe52 = Some info /\
    Analyzer.java_version info = "52.0" /\
    Analyzer.java_compatible info = "8".
Proof.
  destruct (analyze_bytecode_versions x00 x00 x00 x34 [x00; x10])
    as (info & Hinfo & Hversion & _ & Hknown & _).
  exists info. split; [exact Hinfo|]. split; [exact Hversion|].
  apply Hknown. vm_compute. split; discriminate.
Defined.

(** ** The detailed analysis *)

Lemma get_class_bytecode_trace env jar path :
  trace_of (Analyzer.get_class_bytecode env jar path) = [EvOpenArchive jar].
Proof.
  unfold Analyzer.get_class_bytecode, Analyzer.ZipFile, Analyzer.zip_read. munfold. simpl.
  destruct (archive env jar); simpl; [done|].
  destruct (List.find _ _); [|done]. by destruct (read_error env jar path).
Qed.

Lemma analyze_class_basic_eq env jar path :
  Analyzer.analyze_class_basic env jar path =
  ([EvOpenArchive jar],
   match result_of (Analyzer.get_class_bytecode env jar path) with
   | Ret bytecode => Ret (Analyzer.analyze_bytecode bytecode)
   | Raise e => Raise e
   end).
Proof.
  unfold Analyzer.analyze_class_basic.
  pose proof (get_class_bytecode_trace env jar path) as Ht.
  destruct (Analyzer.get_class_bytecode env jar path) as [t [b|e]]; simpl in *; by subst.
Qed.

(** The dict of a method: built when its three attributes can be read. *)
Lemma method_info_eq method :
  Analyzer.method_info method =
  ([], match Analyzer.member_name method with
       | inl e => Raise e
       | inr name =>
           match Analyzer.member_descriptor method with
           | inl e => Raise e
           | inr descriptor =>
               match Analyzer.member_access_flags method with
               | inl e => Raise e
               | inr flags =>
                   Ret {| Analyzer.method_name := name;
                          Analyzer.method_descriptor := descriptor;
                          Analyzer.method_access_flags := Analyzer._parse_access_flags flags;
                          Analyzer.signature :=
                            Analyzer._format_method_signature name descriptor |}
               end
           end
       end).
Proof.
  unfold Analyzer.method_info.
  destruct (Analyzer.member_name method), (Analyzer.member_descriptor method),
    (Analyzer.member_access_flags method); reflexivity.
Qed.

Lemma field_info_eq py field :
  Analyzer.field_info py field =
  ([], match Analyzer.member_name field with
       | inl e => Raise e
       | inr name =>
           match Analyzer.member_descriptor field with
           | inl e => Raise e
           | inr descriptor =>
               match Analyzer.member_access_flags field with
               | inl e => Raise e
               | inr flags =>
                   match result_of (Analyzer._parse_field_type_call py descriptor) with
                   | Raise e => Raise e
                   | Ret type =>
                       Ret {| Analyzer.field_name := name;
                              Analyzer.field_descriptor := descriptor;
                              Analyzer.field_access_flags := Analyzer._parse_access_flags flags;
                              Analyzer.field_type := type |}
                   end
               end
           end
       end).
Proof.
  unfold Analyzer.field_info.
  destruct (Analyzer.member_name field) as [?|name],
    (Analyzer.member_descriptor field) as [?|descriptor],
    (Analyzer.member_access_flags field) as [?|flags]; try reflexivity.
  cbn [lift]. rewrite !bind_ret_l. unfold Analyzer._parse_field_type_call.
  destruct (parse_field_type_frames_shape py (Analyzer.frames py) descriptor) as [-> | ->];
    reflexivity.
Qed.

Lemma method_info_ret method info :
  result_of (Analyzer.method_info method) = Ret info -> method_info_of method info.
Proof.
  rewrite method_info_eq. unfold method_info_of. simpl.
  destruct (Analyzer.member_name method), (Analyzer.member_descriptor method),
    (Analyzer.member_access_flags method); intros [= <-]; simpl; eauto 6.
Qed.

Lemma method_info_raise method e :
  result_of (Analyzer.method_info method) = Raise e -> read_failure method e.
Proof.
  rewrite method_info_eq. unfold read_failure. simpl.
  destruct (Analyzer.member_name method), (Analyzer.member_descriptor method),
    (Analyzer.member_access_flags method); intros [= <-]; eauto.
Qed.

Lemma field_info_ret py field info :
  result_of (Analyzer.field_info py field) = Ret info -> field_info_of field info.
Proof.
  rewrite field_info_eq. unfold field_info_of, Analyzer._parse_field_type_call. simpl.
  destruct (Analyzer.member_name field) as [?|name]; [done|].
  destruct (Analyzer.member_descriptor field) as [?|descriptor]; [done|].
  destruct (Analyzer.member_access_flags field) as [?|flags]; [done|].
  destruct (parse_field_type_frames_shape py (Analyzer.frames py) descriptor) as [-> | ->];
    simpl; intros [= <-]; simpl; eauto 6.
Qed.

Lemma field_info_raise py field e :
  result_of (Analyzer.field_info py field) = Raise e ->
  read_failure field e \/ e = Analyzer.recursion_error py.
Proof.
  rewrite field_info_eq. unfold read_failure, Analyzer._parse_field_type_call. simpl.
  destruct (Analyzer.member_name field) as [?|name]; [intros [= <-]; eauto|].
  destruct (Analyzer.member_descriptor field) as [?|descriptor]; [intros [= <-]; eauto|].
  destruct (Analyzer.member_access_flags field) as [?|flags]; [intros [= <-]; eauto 6|].
  destruct (parse_field_type_frames_shape py (Analyzer.frames py) descriptor) as [-> | ->];
    simpl; intros [= <-]; eauto.
Qed.

Lemma methods_loop_eq methods acc :
  Analyzer.methods_loop methods acc =
  ([], result_of (Analyzer.methods_loop methods acc)).
Proof.
  revert acc. induction methods as [|m ms IH]; intros acc; [reflexivity|].
  cbn [Analyzer.methods_loop]. rewrite method_info_eq.
  destruct (Analyzer.member_name m), (Analyzer.member_descriptor m),
    (Analyzer.member_access_flags m); try reflexivity.
  rewrite bind_pure_l. apply IH.
Qed.

Lemma fields_loop_eq py fields acc :
  Analyzer.fields_loop py fields acc =
  ([], result_of (Analyzer.fields_loop py fields acc)).
Proof.
  revert acc. induction fields as [|f fs IH]; intros acc; [reflexivity|].
  cbn [Analyzer.fields_loop]. rewrite field_info_eq.
  destruct (Analyzer.member_name f), (Analyzer.member_descriptor f),
    (Analyzer.member_access_flags f); try reflexivity.
  destruct (result_of (Analyzer._parse_field_type_call py _)); [|reflexivity].
  rewrite bind_pure_l. apply IH.
Qed.

Lemma methods_loop_step m ms acc :
  result_of (Analyzer.methods_loop (m :: ms) acc) =
  match result_of (Analyzer.method_info m) with
  | Ret info => result_of (Analyzer.methods_loop ms (acc ++ [info]))
  | Raise e => Raise e
  end.
Proof. cbn [Analyzer.methods_loop]. by rewrite result_bind. Qed.

Lemma fields_loop_step py f fs acc :
  result_of (Analyzer.fields_loop py (f :: fs) acc) =
  match result_of (Analyzer.field_info py f) with
  | Ret info => result_of (Analyzer.fields_loop py fs (acc ++ [info]))
  | Raise e => Raise e
  end.
Proof. cbn [Analyzer.fields_loop]. by rewrite result_bind. Qed.

Lemma methods_loop_ret methods acc l :
  result_of (Analyzer.methods_loop methods acc) = Ret l ->
  exists infos, l = acc ++ infos /\ Forall2 method_info_of methods infos.
Proof.
  revert acc. induction methods as [|m ms IH]; intros acc.
  - intros [= <-]. exists []. by rewrite app_nil_r.
  - rewrite methods_loop_step.
    destruct (result_of (Analyzer.method_info m)) as [info|e] eqn:E; [|done].
    intros (infos & -> & Hall)%IH. exists (info :: infos). split.
    + by rewrite <- app_assoc.
    + constructor; [by apply method_info_ret|done].
Qed.

Lemma fields_loop_ret py fields acc l :
  result_of (Analyzer.fields_loop py fields acc) = Ret l ->
  exists infos, l = acc ++ infos /\ Forall2 field_info_of fields infos.
Proof.
  revert acc. induction fields as [|f fs IH]; intros acc.
  - intros [= <-]. exists []. by rewrite app_nil_r.
  - rewrite fields_loop_step.
    destruct (result_of (Analyzer.field_info py f)) as [info|e] eqn:E; [|done].
    intros (infos & -> & Hall)%IH. exists (info :: infos). split.
    + by rewrite <- app_assoc.
    + constructor; [by apply (field_info_ret py)|done].
Qed.

Lemma methods_loop_raise methods acc e :
  result_of (Analyzer.methods_loop methods acc) = Raise e ->
  exists m, m ∈ methods /\ read_failure m e.
Proof.
  revert acc. induction methods as [|m ms IH]; intros acc; [done|].
  rewrite methods_loop_step.
  destruct (result_of (Analyzer.method_info m)) as [info|e'] eqn:E.
  - intros (m' & Hin & Hfail)%IH. exists m'. split; [by right|done].
  - intros [= ->]. exists m. split; [by left|by apply method_info_raise].
Qed.

Lemma fields_loop_raise py fields acc e :
  result_of (Analyzer.fields_loop py fields acc) = Raise e ->
  (exists f, f ∈ fields /\ read_failure f e) \/ e = Analyzer.recursion_error py.
Proof.
  revert acc. induction fields as [|f fs IH]; intros acc; [done|].
  rewrite fields_loop_step.
  destruct (result_of (Analyzer.field_info py f)) as [info|e'] eqn:E.
  - intros [(f' & Hin & Hfail)| ->]%IH; [left|by right]. exists f'. split; [by right|done].
  - intros [= ->]. apply field_info_raise in E as [Hfail| ->]; [left|by right].
    exists f. split; [by left|done].
Qed.

Lemma methods_loop_nameless methods acc m e :
  m ∈ methods -> Analyzer.member_name m = inl e ->
  exists e', result_of (Analyzer.methods_loop methods acc) = Raise e'.
Proof.
  revert acc. induction methods as [|m0 ms IH]; intros acc Hin Hname;
    [by apply elem_of_nil in Hin|].
  rewrite methods_loop_step.
  destruct (result_of (Analyzer.method_info m0)) as [info|e'] eqn:E; [|by eexists].
  apply elem_of_cons in Hin as [->|Hin]; [|by apply IH].
  rewrite method_info_eq in E. simpl in E. by rewrite Hname in E.
Qed.

Lemma fields_loop_nameless py fields acc f e :
  f ∈ fields -> Analyzer.member_name f = inl e ->
  exists e', result_of (Analyzer.fields_loop py fields acc) = Raise e'.
Proof.
  revert acc. induction fields as [|f0 fs IH]; intros acc Hin Hname;
    [by apply elem_of_nil in Hin|].
  rewrite fields_loop_step.
  destruct (result_of (Analyzer.field_info py f0)) as [info|e'] eqn:E; [|by eexists].
  apply elem_of_cons in Hin as [->|Hin]; [|by apply IH].
  rewrite field_info_eq in E. simpl in E. by rewrite Hname in E.
Qed.

(** The detailed dict in terms of the two loops. *)
Lemma deep_info_eq py class_data :
  Analyzer.deep_info py class_data =
  ([], match result_of (Analyzer.methods_loop (Analyzer.methods class_data) []) with
       | Raise e => Raise e
       | Ret info_methods =>
           match result_of (Analyzer.fields_loop py (Analyzer.fields class_data) []) with
           | Raise e => Raise e
           | Ret info_fields =>
               Ret {| Analyzer.info_class_name :=
                        PyStr.replace "/" "." (Analyzer.get_this class_data);
                      Analyzer.super_class :=
                        match Analyzer.get_super class_data with
                        | Some s =>
                            if String.eqb s "" then None
                            else Some (PyStr.replace "/" "." s)
                        | None => None
                        end;
                      Analyzer.interfaces :=
                        map (PyStr.replace "/" ".") (Analyzer.get_interfaces class_data);
                      Analyzer.info_access_flags :=
                        Analyzer._parse_access_flags (Analyzer.cls_access_flags class_data);
                      Analyzer.info_methods := info_methods;
                      Analyzer.info_fields := info_fields;
                      Analyzer.info_java_version :=
                        Analyzer.str_of_int (fst (Analyzer.version class_data)) +:+ "." +:+
                        Analyzer.str_of_int (snd (Analyzer.version class_data)) |}
           end
       end).
Proof.
  unfold Analyzer.deep_info. cbv zeta.
  rewrite methods_loop_eq.
  destruct (result_of (Analyzer.methods_loop _ _)) as [ms|e]; [|reflexivity].
  rewrite bind_pure_l, fields_loop_eq.
  destruct (result_of (Analyzer.fields_loop _ _ _)) as [fs|e]; reflexivity.
Qed.

(** The detailed analysis with a parser, by the outcome of its steps. *)
Lemma analyze_class_with_javatools_some env py unpack jar path :
  Analyzer.analyze_class_with_javatools env py (Some unpack) jar path =
  let fallback e :=
    [EvOpenArchive jar; EvPrint ("使用javatools分析失败: " +:+ exc_str e);
     EvOpenArchive jar] in
  match result_of (Analyzer.get_class_bytecode env jar path) with
  | Raise e => (fallback e, Raise e)
  | Ret bytecode =>
      match unpack bytecode with
      | inl e => (fallback e, Ret (inr (Analyzer.analyze_bytecode bytecode)))
      | inr class_data =>
          match result_of (Analyzer.deep_info py class_data) with
          | Raise e => (fallback e, Ret (inr (Analyzer.analyze_bytecode bytecode)))
          | Ret info => ([EvOpenArchive jar], Ret (inl info))
          end
      end
  end.
Proof.
  unfold Analyzer.analyze_class_with_javatools. rewrite analyze_class_basic_eq.
  pose proof (get_class_bytecode_trace env jar path) as Ht.
  destruct (Analyzer.get_class_bytecode env jar path) as [t [b|e0]]; simpl in Ht; subst t.
  - munfold. simpl. destruct (unpack b) as [e|cd]; simpl; [reflexivity|].
    pose proof (deep_info_eq py cd) as Hd.
    destruct (Analyzer.deep_info py cd) as [t r]. injection Hd as -> _.
    by destruct r.
  - reflexivity.
Qed.

(** X19. What the detailed analysis does is decided by the parser.  Without
    [javatools] it prints a warning and gives the minimal summary.  With
    it, the entry is read and parsed, and the detailed dict is built from
    the parsed class: when that succeeds, the dict is returned; when the
    parser raises, or building the dict raises (an attribute of a method or
    a field that cannot be read, a recursion cut short), the error is
    printed and the entry is read a second time for the minimal summary.
    The call raises exactly when reading the entry raises, with that
    error. *)
Theorem analyze_class_with_javatools_outcomes env py unpack_class jar path :
  (forall e,
     result_of (Analyzer.analyze_class_with_javatools env py unpack_class jar path) = Raise e <->
     result_of (Analyzer.get_class_bytecode env jar path) = Raise e) /\
  (forall bytecode,
     result_of (Analyzer.get_class_bytecode env jar path) = Ret bytecode ->
     (unpack_class = None ->
      Analyzer.analyze_class_with_javatools env py unpack_class jar path =
        ([EvPrint "警告: javatools未安装，使用基础分析"; EvOpenArchive jar],
         Ret (inr (Analyzer.analyze_bytecode bytecode)))) /\
     (forall unpack e,
        unpack_class = Some unpack -> unpack bytecode = inl e ->
        Analyzer.analyze_class_with_javatools env py unpack_class jar path =
          ([EvOpenArchive jar; EvPrint ("使用javatools分析失败: " +:+ exc_str e);
            EvOpenArchive jar],
           Ret (inr (Analyzer.analyze_bytecode bytecode)))) /\
     (forall unpack class_data e,
        unpack_class = Some unpack -> unpack bytecode = inr class_data ->
        result_of (Analyzer.deep_info py class_data) = Raise e ->
        Analyzer.analyze_class_with_javatools env py unpack_class jar path =
          ([EvOpenArchive jar; EvPrint ("使用javatools分析失败: " +:+ exc_str e);
            EvOpenArchive jar],
           Ret (inr (Analyzer.analyze_bytecode bytecode)))) /\
     (forall unpack class_data info,
        unpack_class = Some unpack -> unpack bytecode = inr class_data ->
        result_of (Analyzer.deep_info py class_data) = Ret info ->
        Analyzer.analyze_class_with_javatools env py unpack_class jar path =
          ([EvOpenArchive jar], Ret (inl info)))).
Proof.
  destruct unpack_class as [unpack|].
  - rewrite analyze_class_with_javatools_some.
    destruct (result_of (Analyzer.get_class_bytecode env jar path)) as [b|e0].
    + split.
      * intros e. destruct (unpack b) as [?|cd]; simpl;
          [|destruct (result_of (Analyzer.deep_info py cd))]; split; intros H; discriminate H.
      * intros bytecode [= <-]. split; [done|]. split; [|split].
        -- intros unpack' e [= <-] ->. reflexivity.
        -- intros unpack' cd e [= <-] -> ->. reflexivity.
        -- intros unpack' cd info [= <-] -> ->. reflexivity.
    + split; [|done]. intros e. simpl. split; intros H; by injection H as ->.
  - unfold Analyzer.analyze_class_with_javatools. rewrite analyze_class_basic_eq.
    destruct (result_of (Analyzer.get_class_bytecode env jar path)) as [b|e0].
    + split.
      * intros e. split; intros H; discriminate H.
      * intros bytecode [= <-]. split; [done|]. split; [|split]; intros; discriminate.
    + split; [|done]. intros e. munfold. simpl. split; intros H; by injection H as ->.
Qed.

Lemma analyze_class_with_javatools_outcomes_witness :
  Analyzer.analyze_class_with_javatools (Demo.env 0) sample_interpreter
    (Some (fun _ => inr nameless_class))
    "./maven_temp/dependencies/lib-1.0.jar" "org/example/Foo.class" =
  ([EvOpenArchive "./maven_temp/dependencies/lib-1.0.jar";
    EvPrint ("使用javatools分析失败: " +:+
             "'JavaMemberInfo' object has no attribute 'name'");
    EvOpenArchive "./maven_temp/dependencies/lib-1.0.jar"],
   Ret (inr (Analyzer.analyze_bytecode Demo.cafebabe52))).
Proof.
  destruct (analyze_class_with_javatools_outcomes (Demo.env 0) sample_interpreter
              (Some (fun _ => inr nameless_class))
              "./maven_temp/dependencies/lib-1.0.jar" "org/example/Foo.class")
    as (_ & Hread).
  destruct (Hread Demo.cafebabe52 eq_refl) as (_ & _ & Hfail & _).
  apply (Hfail (fun _ => inr nameless_class) nameless_class
           (Exception "'JavaMemberInfo' object has no attribute 'name'"));
    reflexivity.
Defined.

Lemma subst_char_nonempty a b s : s <> "" -> PyStr.subst_char a b s <> "".
Proof. by destruct s. Qed.

(** X20. Building the detailed dict has no effect of its own.  It raises
    whenever the name of a method or of a field cannot be read, with the
    error of the first method if that is the one; an error it raises is the
    error of reading an attribute of a member, or the interpreter's
    [RecursionError].  In a dict that is built, no name holds a '/' (class
    name, super class, interfaces), the super class is absent exactly when
    the parser reports none or an empty one, and there is one dict per
    method and per field, in the parser's order, with the values read. *)
Theorem deep_info_spec py (class_data : Analyzer.JavaClassInfo) :
  trace_of (Analyzer.deep_info py class_data) = [] /\
  (forall m e,
     m ∈ Analyzer.methods class_data ++ Analyzer.fields class_data ->
     Analyzer.member_name m = inl e ->
     exists e', result_of (Analyzer.deep_info py class_data) = Raise e') /\
  (forall m rest e,
     Analyzer.methods class_data = m :: rest ->
     Analyzer.member_name m = inl e ->
     result_of (Analyzer.deep_info py class_data) = Raise e) /\
  (forall e,
     result_of (Analyzer.deep_info py class_data) = Raise e ->
     (exists m, m ∈ Analyzer.methods class_data ++ Analyzer.fields class_data /\
                read_failure m e) \/
     e = Analyzer.recursion_error py) /\
  (forall info,
     result_of (Analyzer.deep_info py class_data) = Ret info ->
     PyStr.contains "/" (Analyzer.info_class_name info) = false /\
     Forall (fun iface => PyStr.contains "/" iface = false) (Analyzer.interfaces info) /\
     length (Analyzer.interfaces info) = length (Analyzer.get_interfaces class_data) /\
     (forall s, Analyzer.super_class info = Some s -> s <> "" /\ PyStr.contains "/" s = false) /\
     (Analyzer.super_class info = None <->
      Analyzer.get_super class_data = None \/ Analyzer.get_super class_data = Some "") /\
     Forall2 method_info_of (Analyzer.methods class_data) (Analyzer.info_methods info) /\
     Forall2 field_info_of (Analyzer.fields class_data) (Analyzer.info_fields info)).
Proof.
  rewrite deep_info_eq. simpl. split; [done|]. split; [|split; [|split]].
  - intros m e [Hin|Hin]%elem_of_app Hname.
    + destruct (methods_loop_nameless _ [] _ _ Hin Hname) as [e' ->]. by eexists.
    + destruct (result_of (Analyzer.methods_loop _ _)); [|by eexists].
      destruct (fields_loop_nameless py _ [] _ _ Hin Hname) as [e' ->]. by eexists.
  - intros m rest e -> Hname. rewrite methods_loop_step, method_info_eq. simpl.
    by rewrite Hname.
  - intros e.
    destruct (result_of (Analyzer.methods_loop _ _)) as [ms|e1] eqn:Em.
    + destruct (result_of (Analyzer.fields_loop _ _ _)) as [fs|e2] eqn:Ef; [done|].
      intros [= <-]. apply fields_loop_raise in Ef as [(f & Hin & Hfail)| ->]; [left|by right].
      exists f. split; [apply elem_of_app; by right|done].
    + intros [= <-]. apply methods_loop_raise in Em as (m & Hin & Hfail). left.
      exists m. split; [apply elem_of_app; by left|done].
  - intros info.
    destruct (result_of (Analyzer.methods_loop _ _)) as [ms|e1] eqn:Em; [|done].
    destruct (result_of (Analyzer.fields_loop _ _ _)) as [fs|e2] eqn:Ef; [|done].
    intros [= <-]. cbn [Analyzer.info_class_name Analyzer.interfaces Analyzer.super_class
                        Analyzer.info_methods Analyzer.info_fields].
    apply methods_loop_ret in Em as (ms' & -> & Hms).
    apply fields_loop_ret in Ef as (fs' & -> & Hfs).
    split; [|split; [|split; [|split; [|split; [|split]]]]].
    + rewrite PyStrFacts.replace_char. by apply PyStrMore.subst_char_fresh.
    + apply Forall_forall. intros i [x [<- _]]%list_elem_of_In%in_map_iff.
      rewrite PyStrFacts.replace_char. by apply PyStrMore.subst_char_fresh.
    + apply length_map.
    + intros s. destruct (Analyzer.get_super class_data) as [x|]; [|done].
      destruct (String.eqb_spec x ""); [done|]. intros [= <-].
      rewrite PyStrFacts.replace_char. split.
      * by apply subst_char_nonempty.
      * by apply PyStrMore.subst_char_fresh.
    + destruct (Analyzer.get_super class_data) as [x|]; [|by split; [left|]].
      destruct (String.eqb_spec x "") as [->|Hx].
      * split; [by right|done].
      * split; [done|]. intros [H|H]; [done|]. by injection H.
    + exact Hms.
    + exact Hfs.
Qed.

Lemma deep_info_spec_witness :
  result_of (Analyzer.deep_info sample_interpreter nameless_class) =
    Raise (Exception "'JavaMemberInfo' object has no attribute 'name'") /\
  exists info,
    result_of (Analyzer.deep_info sample_interpreter sample_class) = Ret info /\
    Forall2 field_info_of (Analyzer.fields sample_class) (Analyzer.info_fields info).
Proof.
  split.
  - destruct (deep_info_spec sample_interpreter nameless_class) as (_ & _ & Hfirst & _).
    apply (Hfirst (nameless_member "([Ljava/lang/String;)V" 0x0009) []); reflexivity.
  - eexists. split; [reflexivity|].
    destruct (deep_info_spec sample_interpreter sample_class) as (_ & _ & _ & _ & Hbuilt).
    apply Hbuilt. reflexivity.
Defined.

(** ** The tool handlers, continued *)

Lemma handle_analyze_dependency_inv_full env arguments data :
  result_of (McpServer.handle_analyze_dependency env arguments) = Ret data ->
  let target_classes := default [] (McpServer.arg_target_classes arguments) in
  let found :=
    Analyzer.exact_classes_loop (all_classes env (McpServer.jar_files data))
      (map PyStr.lower target_classes) [] in
  data =
    {| McpServer.found_classes := found;
       McpServer.jar_files := McpServer.jar_files data;
       McpServer.work_dir := default "./maven_temp" (McpServer.arg_work_dir arguments);
       McpServer.summary :=
         {| McpServer.total_jars := length (McpServer.jar_files data);
            McpServer.found_classes_count := length found;
            McpServer.missing_classes :=
              List.filter (fun cls => negb (ODict.mem cls found)) target_classes |} |}.
Proof.
  unfold McpServer.handle_analyze_dependency. intros H.
  rewrite result_bind in H. simpl in H.
  rewrite result_bind in H. destruct (result_of (check _)); [|done].
  rewrite result_bind in H. destruct (result_of (Analyzer.create_temp_pom _ _ _ _)); [|done].
  rewrite result_bind in H. destruct (result_of (Analyzer.download_dependencies _ _ _ _)); [|done].
  rewrite result_bind, find_exact_result in H. simpl in H. injection H as <-.
  simpl. by rewrite found_classes_copy.
Qed.

Lemma mem_keys {V} k (d : ODict.t V) : ODict.mem k d = true <-> k ∈ ODict.keys d.
Proof.
  unfold ODict.mem. destruct (ODict.get k d) as [v|] eqn:E.
  - split; [intros _|done]. by eapply ODictFacts.get_Some_keys.
  - split; [done|]. intros Hk. by apply ODictFacts.get_None_keys in E.
Qed.

(** X21. [call_tool] never raises.  A name other than the three tool names
    is answered with an error object and no effect at all; an exception of
    the analysis handler is answered, after the handler's effects, with an
    error object that holds the exception's text. *)
Theorem call_tool_total env name arguments :
  (exists out, result_of (McpServer.call_tool env name arguments) = Ret out) /\
  (name <> "analyze_maven_dependency" -> name <> "decompile_class" ->
   name <> "find_and_decompile_classes" ->
   McpServer.call_tool env name arguments =
     ([], Ret (McpServer.OutError ("Unknown tool: " +:+ name)))) /\
  (forall e,
     result_of (McpServer.handle_analyze_dependency env arguments) = Raise e ->
     McpServer.call_tool env "analyze_maven_dependency" arguments =
       (trace_of (McpServer.handle_analyze_dependency env arguments),
        Ret (McpServer.OutError (exc_str e)))).
Proof.
  split; [|split].
  - unfold McpServer.call_tool.
    match goal with
    | |- context [try_except ?body _] =>
        apply (try_except_returns body (fun e => McpServer.OutError (exc_str e)))
    end.
  - intros H1%String.eqb_neq H2%String.eqb_neq H3%String.eqb_neq.
    unfold McpServer.call_tool. by rewrite H1, H2, H3.
  - intros e He. unfold McpServer.call_tool. cbn [String.eqb Ascii.eqb Bool.eqb].
    change ("analyze_maven_dependency" =? "analyze_maven_dependency")%string with true.
    cbv iota.
    destruct (McpServer.handle_analyze_dependency env arguments) as [t [d|e']];
      simpl in He; [done|]. injection He as ->. munfold. simpl. by rewrite app_nil_r.
Qed.

Lemma call_tool_total_witness :
  McpServer.call_tool (Demo.env 0) "find_and_decompile" (Demo.request ["Foo"]) =
  ([], Ret (McpServer.OutError "Unknown tool: find_and_decompile")).
Proof.
  apply (call_tool_total (Demo.env 0) "find_and_decompile" (Demo.request ["Foo"]));
    discriminate.
Defined.

(** X22. [handle_decompile_class] answers a call that lacks [jar_path] or
    [class_file_path], or gives an empty one, with an error object and
    performs no effect; otherwise it performs one decompilation and reports
    its text with both arguments unchanged. *)
Theorem handle_decompile_class_arguments env arguments :
  (McpServer.falsy (McpServer.arg_jar_path arguments) = true \/
   McpServer.falsy (McpServer.arg_class_file_path arguments) = true ->
   McpServer.handle_decompile_class env arguments =
     ([], Ret (McpServer.OutError "jar_path and class_file_path are required"))) /\
  (forall jar path,
     McpServer.arg_jar_path arguments = Some jar -> jar <> "" ->
     McpServer.arg_class_file_path arguments = Some path -> path <> "" ->
     McpServer.handle_decompile_class env arguments =
       (trace_of (Analyzer.decompile_class env jar path),
        Ret (McpServer.OutDecompile
               {| McpServer.dr_class_name := McpServer.decompiled_class_name path;
                  McpServer.dr_jar_path := jar;
                  McpServer.dr_class_file_path := path;
                  McpServer.decompiled_code := decompiled_text env jar path |}))).
Proof.
  unfold McpServer.handle_decompile_class. split.
  - intros [-> | ->]; [done|]. by rewrite orb_true_r.
  - intros jar path -> Hjar%String.eqb_neq -> Hpath%String.eqb_neq.
    cbn [McpServer.falsy default from_option id]. rewrite Hjar, Hpath. cbn [orb].
    pose proof (decompile_class_returns env jar path) as Hres.
    destruct (Analyzer.decompile_class env jar path) as [t [text|e]]; simpl in Hres; [|done].
    injection Hres as ->. munfold. simpl. by rewrite app_nil_r.
Qed.

Lemma handle_decompile_class_arguments_witness :
  McpServer.handle_decompile_class (Demo.env 0) (Demo.request ["Foo"]) =
  ([], Ret (McpServer.OutError "jar_path and class_file_path are required")).
Proof.
  apply (handle_decompile_class_arguments (Demo.env 0) (Demo.request ["Foo"])).
  left. reflexivity.
Defined.

(** X23. In the result of the analysis handler the summary agrees with the
    rest: [total_jars] and [found_classes_count] are the lengths of
    [jar_files] and of [found_classes]; [missing_classes] is a sublist of
    the requested names, and a requested name is in it exactly when it is no
    key of [found_classes]; [work_dir] is the requested directory, or
    [./maven_temp]. *)
Theorem handle_analyze_dependency_summary env arguments data :
  result_of (McpServer.handle_analyze_dependency env arguments) = Ret data ->
  let target_classes := default [] (McpServer.arg_target_classes arguments) in
  McpServer.total_jars (McpServer.summary data) = length (McpServer.jar_files data) /\
  McpServer.found_classes_count (McpServer.summary data) =
    length (ODict.keys (McpServer.found_classes data)) /\
  sublist (McpServer.missing_classes (McpServer.summary data)) target_classes /\
  (forall name,
     name ∈ target_classes ->
     name ∈ McpServer.missing_classes (McpServer.summary data) <->
     name ∉ ODict.keys (McpServer.found_classes data)) /\
  McpServer.work_dir data = default "./maven_temp" (McpServer.arg_work_dir arguments).
Proof.
  intros H target_classes. subst target_classes.
  pose proof (handle_analyze_dependency_inv_full env arguments data H) as Hdata.
  cbv zeta in Hdata. rewrite Hdata. cbn [McpServer.total_jars McpServer.found_classes_count
    McpServer.missing_classes McpServer.summary McpServer.jar_files McpServer.found_classes
    McpServer.work_dir].
  split; [done|]. split; [unfold ODict.keys; by rewrite length_map|].
  split; [apply sublist_List_filter|]. split; [|done].
  intros name Hname. rewrite list_elem_of_In, filter_In, <- list_elem_of_In.
  rewrite negb_true_iff, <- mem_keys, not_true_iff_false. tauto.
Qed.

Lemma handle_analyze_dependency_summary_witness :
  exists data,
    result_of (McpServer.handle_analyze_dependency (Demo.env 0)
                 (Demo.request ["Foo"; "Baz"])) = Ret data /\
    McpServer.total_jars (McpServer.summary data) = 3%nat /\
    McpServer.missing_classes (McpServer.summary data) = ["Baz"].
Proof.
  eexists. split; [reflexivity|].
  split.
  - etransitivity;
      [apply (handle_analyze_dependency_summary (Demo.env 0) (Demo.request ["Foo"; "Baz"]));
       reflexivity|].
    reflexivity.
  - reflexivity.
Defined.

Lemma filter_all {A} (l : list A) : List.filter (fun _ => true) l = l.
Proof. induction l as [|x l IH]; [done|]. simpl. by f_equal. Qed.

(** X24. When the fetch has produced no jar, the analysis handler still
    succeeds: no artifact is opened, [found_classes] is empty and every
    requested name is reported missing. *)
Theorem handle_analyze_dependency_no_jars env arguments data :
  result_of (McpServer.handle_analyze_dependency env arguments) = Ret data ->
  McpServer.jar_files data = [] ->
  McpServer.found_classes data = [] /\
  McpServer.missing_classes (McpServer.summary data) =
    default [] (McpServer.arg_target_classes arguments) /\
  McpServer.found_classes_count (McpServer.summary data) = 0%nat /\
  Forall (fun ev => is_index_event ev = false)
         (trace_of (McpServer.handle_analyze_dependency env arguments)).
Proof.
  intros H Hjars.
  pose proof (handle_analyze_dependency_inv_full env arguments data H) as Hdata.
  cbv zeta in Hdata. rewrite Hjars in Hdata. simpl in Hdata.
  rewrite filter_all in Hdata. split; [by rewrite Hdata|]. split; [by rewrite Hdata|].
  split; [by rewrite Hdata|].
  revert H. unfold McpServer.handle_analyze_dependency. intros H.
  rewrite trace_bind. rewrite result_bind in H. simpl in H |- *.
  constructor; [done|].
  rewrite trace_bind. rewrite result_bind in H.
  destruct (makedirs env _); simpl in H |- *; [done|].
  rewrite trace_bind. rewrite result_bind in H. apply Forall_app. split.
  { eapply Forall_impl; [apply create_temp_pom_trace|]. by intros []. }
  destruct (result_of (Analyzer.create_temp_pom _ _ _ _)) as [pom|e]; [|done].
  rewrite trace_bind. rewrite result_bind in H. apply Forall_app. split.
  { eapply Forall_impl; [apply download_dependencies_trace|]. by intros ev [? _]. }
  destruct (result_of (Analyzer.download_dependencies _ _ _ _)) as [jars|e]; [|done].
  rewrite result_bind, find_exact_result in H. simpl in H. injection H as <-.
  simpl in Hjars. subst jars. rewrite trace_bind. simpl. constructor.
Qed.

Lemma handle_analyze_dependency_no_jars_witness :
  exists data,
    result_of (McpServer.handle_analyze_dependency (Demo.env_with 0 ["notes.txt"])
                 (Demo.request ["Foo"])) = Ret data /\
    McpServer.found_classes data = [] /\
    McpServer.missing_classes (McpServer.summary data) = ["Foo"].
Proof.
  eexists. split; [reflexivity|].
  destruct (handle_analyze_dependency_no_jars (Demo.env_with 0 ["notes.txt"])
              (Demo.request ["Foo"]) _ eq_refl eq_refl) as (Hfound & Hmissing & _).
  split; [exact Hfound|exact Hmissing].
Defined.

(** ** The remote server *)

Lemma download_dependencies_no_rmtree env self pom out :
  Forall (fun ev => is_rmtree_event ev = false)
         (trace_of (Analyzer.download_dependencies env self pom out)).
Proof.
  unfold Analyzer.download_dependencies. munfold. simpl.
  repeat case_oracle; by repeat constructor.
Qed.

Lemma create_temp_pom_no_rmtree env deps out repos :
  Forall (fun ev => is_rmtree_event ev = false)
         (trace_of (Analyzer.create_temp_pom env deps out repos)).
Proof. eapply Forall_impl; [apply create_temp_pom_trace|]. by intros []. Qed.

Lemma find_exact_no_rmtree env jar_files class_names :
  Forall (fun ev => is_rmtree_event ev = false)
         (trace_of (Analyzer.find_exact_class_in_jars env jar_files class_names)).
Proof.
  apply Forall_forall. intros ev Hev.
  apply exact_jars_loop_trace in Hev as [[jar ->]|[text ->]]; reflexivity.
Qed.

Lemma bind_ret_pair {A B} t (a : A) (f : A -> M B) :
  (t, Ret a) ≫= f = (t ++ trace_of (f a), result_of (f a)).
Proof. munfold. by destruct (f a). Qed.

(** The endpoint in terms of the three steps of the analysis. *)
Lemma analyze_dependency_eq env renv request wd created :
  work_dir_setup env renv request = inr (wd, created) ->
  RemoteServer.analyze_dependency env renv request =
  let c := Analyzer.create_temp_pom env (request_dependencies request) wd
             (request_repositories request) in
  let cleanup := if created && path_exists env wd then [EvRmtree wd] else [] in
  match result_of c with
  | Raise e =>
      (EvMakedirs wd :: trace_of c ++ cleanup, Raise (HTTPException 500 (exc_str e)))
  | Ret pom =>
      let d := Analyzer.download_dependencies env RemoteServer.analyzer pom wd in
      match result_of d with
      | Raise e =>
          (EvMakedirs wd :: trace_of c ++ trace_of d ++ cleanup,
           Raise (HTTPException 500 (exc_str e)))
      | Ret [] =>
          (EvMakedirs wd :: trace_of c ++ trace_of d ++ cleanup,
           Raise (HTTPException 500 "404: No jar files downloaded"))
      | Ret jars =>
          (EvMakedirs wd :: trace_of c ++ trace_of d ++
             trace_of (Analyzer.find_exact_class_in_jars env jars
                         (RemoteServer.req_target_classes request)),
           Ret {| RemoteServer.found_classes :=
                    Analyzer.exact_classes_loop (all_classes env jars)
                      (map PyStr.lower (RemoteServer.req_target_classes request)) [];
                  RemoteServer.jar_files := jars;
                  RemoteServer.work_dir := wd;
                  RemoteServer.temp_dir := created |})
      end
  end.
Proof.
  intros Hsetup. cbv zeta.
  unfold RemoteServer.analyze_dependency, work_dir_setup, request_dependencies,
    request_repositories in *.
  match goal with
  | |- (?setup ≫= ?k) = _ =>
      assert (setup = ([EvMakedirs wd], Ret (wd, created))) as ->
  end.
  { destruct (McpServer.falsy _).
    - destruct (RemoteServer.mkdtemp_analyze renv); [done|]. by injection Hsetup as -> ->.
    - destruct (makedirs env _); [done|]. by injection Hsetup as <- <-. }
  rewrite bind_ret_pair. cbv zeta.
  destruct (Analyzer.create_temp_pom env _ wd _) as [t1 [pom|e1]]; simpl.
  - pose proof (find_exact_result env) as Hfind.
    destruct (Analyzer.download_dependencies env RemoteServer.analyzer pom wd)
      as [t2 [[|j js]|e2]]; simpl.
    + munfold. simpl. destruct (created && path_exists env wd); simpl;
        by rewrite ?app_nil_r, <- ?app_assoc.
    + specialize (Hfind (j :: js) (RemoteServer.req_target_classes request)).
      destruct (Analyzer.find_exact_class_in_jars env (j :: js) _) as [t3 [f|e3]];
        simpl in Hfind; [|done]. injection Hfind as ->.
      munfold. simpl. by rewrite ?app_nil_r, <- ?app_assoc.
    + munfold. simpl. destruct (created && path_exists env wd); simpl;
        by rewrite ?app_nil_r, <- ?app_assoc.
  - munfold. simpl. destruct (created && path_exists env wd); simpl;
      by rewrite ?app_nil_r.
Qed.

Lemma analyze_dependency_setup_failed env renv request e :
  work_dir_setup env renv request = inl e ->
  result_of (RemoteServer.analyze_dependency env renv request) = Raise e /\
  Forall (fun ev => is_write_event ev = false /\ is_run_event ev = false)
         (trace_of (RemoteServer.analyze_dependency env renv request)).
Proof.
  unfold RemoteServer.analyze_dependency, work_dir_setup.
  destruct (McpServer.falsy _).
  - destruct (RemoteServer.mkdtemp_analyze renv); [|done]. intros [= ->]. by split.
  - destruct (makedirs env _); [|done]. intros [= ->]. split; [done|].
    by repeat constructor.
Qed.

(** X25. Once the work directory is set up, [POST /api/analyze] fails with
    status 500 only, whatever went wrong: the 404 that it raises itself
    when the fetch has produced no jar is caught by its own handler and
    comes out as status 500, with [str] of the 404 exception as detail
    ("404: No jar files downloaded").  Only a failure to set up the work
    directory escapes as it is, before anything is written or run. *)
Theorem analyze_dependency_errors env renv request :
  (forall e,
     result_of (RemoteServer.analyze_dependency env renv request) = Raise e ->
     work_dir_setup env renv request = inl e \/
     exists detail, e = HTTPException 500 detail) /\
  (forall e,
     work_dir_setup env renv request = inl e ->
     result_of (RemoteServer.analyze_dependency env renv request) = Raise e /\
     Forall (fun ev => is_write_event ev = false /\ is_run_event ev = false)
            (trace_of (RemoteServer.analyze_dependency env renv request))) /\
  (forall wd created pom,
     work_dir_setup env renv request = inr (wd, created) ->
     result_of (Analyzer.create_temp_pom env (request_dependencies request) wd
                  (request_repositories request)) = Ret pom ->
     result_of (Analyzer.download_dependencies env RemoteServer.analyzer pom wd) = Ret [] ->
     result_of (RemoteServer.analyze_dependency env renv request) =
       Raise (HTTPException 500 (exc_str (HTTPException 404 "No jar files downloaded")))).
Proof.
  split; [|split].
  - intros e. destruct (work_dir_setup env renv request) as [e0|[wd created]] eqn:Hsetup.
    + destruct (analyze_dependency_setup_failed _ _ _ _ Hsetup) as [-> _].
      intros [= ->]. by left.
    + rewrite (analyze_dependency_eq _ _ _ _ _ Hsetup). cbv zeta.
      destruct (result_of (Analyzer.create_temp_pom _ _ _ _)) as [pom|e1].
      * destruct (result_of (Analyzer.download_dependencies _ _ _ _)) as [[|j js]|e2];
          simpl; intros [= <-]; right; by eexists.
      * simpl. intros [= <-]. right. by eexists.
  - apply analyze_dependency_setup_failed.
  - intros wd created pom Hsetup Hpom Hdl.
    rewrite (analyze_dependency_eq _ _ _ _ _ Hsetup). cbv zeta. by rewrite Hpom, Hdl.
Qed.

Lemma analyze_dependency_errors_witness :
  result_of (RemoteServer.analyze_dependency (Demo.env_with 0 ["notes.txt"])
               DemoRemote.renv (DemoRemote.request ["Foo"] None)) =
  Raise (HTTPException 500 "404: No jar files downloaded").
Proof.
  destruct (analyze_dependency_errors (Demo.env_with 0 ["notes.txt"])
              DemoRemote.renv (DemoRemote.request ["Foo"] None)) as (_ & _ & Hnone).
  apply (Hnone "/tmp/maven_analyze_1" true "/tmp/maven_analyze_1/pom.xml"); reflexivity.
Defined.

(** X26. When [POST /api/analyze] fails after the work directory is set
    up, a temporary directory that the endpoint created itself is removed,
    as the last effect, provided it still exists; a work directory given by
    the caller is never removed. *)
Theorem analyze_dependency_cleanup env renv request wd created e :
  work_dir_setup env renv request = inr (wd, created) ->
  result_of (RemoteServer.analyze_dependency env renv request) = Raise e ->
  exists t,
    trace_of (RemoteServer.analyze_dependency env renv request) =
      EvMakedirs wd :: t ++
        (if created && path_exists env wd then [EvRmtree wd] else []) /\
    Forall (fun ev => is_rmtree_event ev = false) t /\
    (created = false ->
     Forall (fun ev => is_rmtree_event ev = false)
            (trace_of (RemoteServer.analyze_dependency env renv request))).
Proof.
  intros Hsetup. rewrite (analyze_dependency_eq _ _ _ _ _ Hsetup). cbv zeta.
  pose proof (create_temp_pom_no_rmtree env (request_dependencies request) wd
                (request_repositories request)) as Hc.
  assert (forall t, Forall (fun ev => is_rmtree_event ev = false) t ->
            exists t0,
              EvMakedirs wd :: t ++ (if created && path_exists env wd then [EvRmtree wd] else [])
              = EvMakedirs wd :: t0 ++ (if created && path_exists env wd then [EvRmtree wd] else []) /\
              Forall (fun ev => is_rmtree_event ev = false) t0 /\
              (created = false ->
               Forall (fun ev => is_rmtree_event ev = false)
                 (EvMakedirs wd :: t ++
                    (if created && path_exists env wd then [EvRmtree wd] else [])))) as Hshape.
  { intros t Ht. exists t. split; [done|]. split; [done|]. intros ->. simpl.
    rewrite app_nil_r. by constructor. }
  destruct (result_of (Analyzer.create_temp_pom _ _ _ _)) as [pom|e1].
  - pose proof (download_dependencies_no_rmtree env RemoteServer.analyzer pom wd) as Hd.
    destruct (result_of (Analyzer.download_dependencies _ _ _ _)) as [[|j js]|e2];
      simpl; intros [= <-]; rewrite app_assoc; apply Hshape; by apply Forall_app.
  - simpl. intros [= <-]. by apply Hshape.
Qed.

Lemma analyze_dependency_cleanup_witness :
  exists t,
    trace_of (RemoteServer.analyze_dependency (Demo.env_with 0 ["notes.txt"])
                DemoRemote.renv (DemoRemote.request ["Foo"] None)) =
      EvMakedirs "/tmp/maven_analyze_1" :: t ++ [EvRmtree "/tmp/maven_analyze_1"] /\
    Forall (fun ev => is_rmtree_event ev = false) t.
Proof.
  destruct (analyze_dependency_cleanup (Demo.env_with 0 ["notes.txt"])
              DemoRemote.renv (DemoRemote.request ["Foo"] None)
              "/tmp/maven_analyze_1" true
              (HTTPException 500 "404: No jar files downloaded") eq_refl eq_refl)
    as (t & Ht & Hno & _).
  exists t. split; [exact Ht|exact Hno].
Defined.

Lemma analyze_dependency_inv env renv request data :
  result_of (RemoteServer.analyze_dependency env renv request) = Ret data ->
  work_dir_setup env renv request =
    inr (RemoteServer.work_dir data, RemoteServer.temp_dir data) /\
  RemoteServer.temp_dir data = McpServer.falsy (RemoteServer.req_work_dir request) /\
  RemoteServer.jar_files data <> [] /\
  RemoteServer.found_classes data =
    Analyzer.exact_classes_loop (all_classes env (RemoteServer.jar_files data))
      (map PyStr.lower (RemoteServer.req_target_classes request)) [].
Proof.
  destruct (work_dir_setup env renv request) as [e0|[wd created]] eqn:Hsetup.
  { destruct (analyze_dependency_setup_failed _ _ _ _ Hsetup) as [-> _]. done. }
  assert (created = McpServer.falsy (RemoteServer.req_work_dir request)) as Hcreated.
  { unfold work_dir_setup in Hsetup. destruct (McpServer.falsy _).
    - destruct (RemoteServer.mkdtemp_analyze renv); [done|]. by injection Hsetup.
    - destruct (makedirs env _); [done|]. by injection Hsetup. }
  rewrite (analyze_dependency_eq _ _ _ _ _ Hsetup). cbv zeta.
  destruct (result_of (Analyzer.create_temp_pom _ _ _ _)) as [pom|e1]; [|done].
  destruct (result_of (Analyzer.download_dependencies _ _ _ _)) as [[|j js]|e2]; [done| |done].
  simpl. intros [= <-]. by simpl.
Qed.

(** X27. When [POST /api/analyze] succeeds, at least one jar was fetched,
    the mapping is the exact lookup over the fetched jars, [temp_dir] tells
    whether the request came without a work directory, and nothing has been
    removed: a temporary work directory is left in place. *)
Theorem analyze_dependency_success env renv request data :
  result_of (RemoteServer.analyze_dependency env renv request) = Ret data ->
  work_dir_setup env renv request =
    inr (RemoteServer.work_dir data, RemoteServer.temp_dir data) /\
  RemoteServer.temp_dir data = McpServer.falsy (RemoteServer.req_work_dir request) /\
  RemoteServer.jar_files data <> [] /\
  RemoteServer.found_classes data =
    Analyzer.exact_classes_loop (all_classes env (RemoteServer.jar_files data))
      (map PyStr.lower (RemoteServer.req_target_classes request)) [] /\
  Forall (fun ev => is_rmtree_event ev = false)
         (trace_of (RemoteServer.analyze_dependency env renv request)).
Proof.
  intros Hdata.
  destruct (analyze_dependency_inv _ _ _ _ Hdata) as (Hsetup & Htemp & Hjars & Hfound).
  split; [done|]. split; [done|]. split; [done|]. split; [done|].
  revert Hdata. rewrite (analyze_dependency_eq _ _ _ _ _ Hsetup). cbv zeta.
  pose proof (create_temp_pom_no_rmtree env (request_dependencies request)
                (RemoteServer.work_dir data) (request_repositories request)) as Hc.
  destruct (result_of (Analyzer.create_temp_pom _ _ _ _)) as [pom|e1]; [|done].
  pose proof (download_dependencies_no_rmtree env RemoteServer.analyzer pom
                (RemoteServer.work_dir data)) as Hd.
  destruct (result_of (Analyzer.download_dependencies _ _ _ _)) as [[|j js]|e2]; [done| |done].
  intros _. simpl. constructor; [done|]. apply Forall_app. split; [done|].
  apply Forall_app. split; [done|]. apply find_exact_no_rmtree.
Qed.

Lemma analyze_dependency_success_witness :
  exists data,
    result_of (RemoteServer.analyze_dependency (Demo.env 0) DemoRemote.renv
                 (DemoRemote.request ["Foo"] (Some "./maven_temp"))) = Ret data /\
    RemoteServer.temp_dir data = false /\
    RemoteServer.jar_files data <> [].
Proof.
  eexists. split; [reflexivity|].
  destruct (analyze_dependency_success (Demo.env 0) DemoRemote.renv
              (DemoRemote.request ["Foo"] (Some "./maven_temp")) _ eq_refl)
    as (_ & Htemp & Hjars & _).
  split; [exact Htemp|exact Hjars].
Defined.

(** X28. [POST /api/decompile] fails exactly when the jar path does not
    exist: then nothing is done and the 404 it raises comes out as status
    500, with [str] of the 404 exception as detail
    ("404: Jar file not found: <path>").  Otherwise it
    performs one decompilation and returns its text; a failed decompilation
    is returned as text, not as an error. *)
Theorem remote_decompile_class_outcomes env request :
  let jar := RemoteServer.req_jar_path request in
  let path := RemoteServer.req_class_file_path request in
  (path_exists env jar = false ->
   RemoteServer.decompile_class env request =
     ([], Raise (HTTPException 500
                   (exc_str (HTTPException 404 ("Jar file not found: " +:+ jar)))))) /\
  (path_exists env jar = true ->
   RemoteServer.decompile_class env request =
     (trace_of (Analyzer.decompile_class env jar path),
      Ret {| McpServer.dr_class_name := RemoteServer.decompiled_class_name path;
             McpServer.dr_jar_path := jar;
             McpServer.dr_class_file_path := path;
             McpServer.decompiled_code := decompiled_text env jar path |})).
Proof.
  intros jar path. subst jar path. unfold RemoteServer.decompile_class. split.
  - intros ->. reflexivity.
  - intros ->. cbn [negb].
    pose proof (decompile_class_returns env (RemoteServer.req_jar_path request)
                  (RemoteServer.req_class_file_path request)) as Hres.
    destruct (Analyzer.decompile_class env _ _) as [t [text|e]]; simpl in Hres; [|done].
    injection Hres as ->. munfold. simpl. by rewrite app_nil_r.
Qed.

Lemma remote_decompile_class_outcomes_witness :
  result_of (RemoteServer.decompile_class (Demo.env 0)
               {| RemoteServer.req_jar_path := "./maven_temp/dependencies/lib-1.0.jar";
                  RemoteServer.req_class_file_path := "org/example/Bar.class" |}) =
  Ret {| McpServer.dr_class_name := "org.example.Bar";
         McpServer.dr_jar_path := "./maven_temp/dependencies/lib-1.0.jar";
         McpServer.dr_class_file_path := "org/example/Bar.class";
         McpServer.decompiled_code := "反编译失败: Error: unexpected end of file" |}.
Proof.
  destruct (remote_decompile_class_outcomes (Demo.env 0)
              {| RemoteServer.req_jar_path := "./maven_temp/dependencies/lib-1.0.jar";
                 RemoteServer.req_class_file_path := "org/example/Bar.class" |})
    as [_ Hexists].
  rewrite (Hexists eq_refl). reflexivity.
Defined.

(** X29. [POST /api/find-and-decompile] always analyses in a temporary work
    directory of its own.  When the analysis succeeds it returns the
    analysis result with one text per found name, the text of decompiling
    the first class filed under the name; when the analysis fails, it fails
    with the same error, and no decompilation is started. *)
Theorem remote_find_and_decompile_spec env renv request :
  (forall data,
     result_of (RemoteServer.analyze_dependency env renv (analyze_request_of request)) =
       Ret data ->
     RemoteServer.temp_dir data = true /\
     exists decompiled_classes,
       result_of (RemoteServer.find_and_decompile env renv request) =
         Ret (data, decompiled_classes) /\
       ODict.keys decompiled_classes = ODict.keys (RemoteServer.found_classes data) /\
       forall name cls others,
         (name, cls :: others) ∈ RemoteServer.found_classes data ->
         ODict.get name decompiled_classes =
           Some (decompiled_text env (jar_path cls) (file_path cls))) /\
  (forall e,
     result_of (RemoteServer.analyze_dependency env renv (analyze_request_of request)) =
       Raise e ->
     RemoteServer.find_and_decompile env renv request =
       (trace_of (RemoteServer.analyze_dependency env renv (analyze_request_of request)),
        Raise e)).
Proof.
  unfold RemoteServer.find_and_decompile. fold (analyze_request_of request). split.
  - intros data Hdata.
    destruct (analyze_dependency_inv _ _ _ _ Hdata) as (_ & Htemp & _ & Hfound).
    split; [done|].
    assert (NoDup (ODict.keys (RemoteServer.found_classes data))) as Hnd.
    { rewrite Hfound. apply NoDup_exact_classes_loop. constructor. }
    assert (Forall (fun item => snd item <> []) (RemoteServer.found_classes data)) as Hne.
    { rewrite Hfound. apply nonempty_exact_classes_loop. constructor. }
    exists (fold_left (record_text env) (RemoteServer.found_classes data) []).
    split; [|split].
    + rewrite result_bind, Hdata, result_bind, remote_decompile_loop_result. reflexivity.
    + by rewrite keys_fold_record_text.
    + intros name cls others Hin. rewrite get_fold_record_text by done.
      by rewrite (ODictFacts.elem_get _ _ _ Hnd Hin).
  - intros e He.
    destruct (RemoteServer.analyze_dependency env renv (analyze_request_of request))
      as [t [d|e']]; simpl in He; [done|]. by injection He as ->.
Qed.

Lemma remote_find_and_decompile_spec_witness :
  exists data,
    result_of (RemoteServer.find_and_decompile remote_demo_env DemoRemote.renv
                 (DemoRemote.find_request ["Bar"])) =
      Ret (data, [("Bar", "反编译失败: Error: unexpected end of file")]) /\
    RemoteServer.temp_dir data = true.
Proof.
  eexists. split; [reflexivity|].
  apply (remote_find_and_decompile_spec remote_demo_env DemoRemote.renv
           (DemoRemote.find_request ["Bar"])).
  reflexivity.
Defined.

(** X30. [DELETE /api/cleanup/...] removes nothing but the directory it is
    given, and that only when the directory exists; it reports success
    exactly when it has removed it, reports a missing directory without any
    effect, and turns a failure of the removal into status 500. *)
Theorem cleanup_work_dir_spec env renv work_dir :
  Forall (fun ev => ev = EvRmtree work_dir)
         (trace_of (RemoteServer.cleanup_work_dir env renv work_dir)) /\
  (forall r,
     result_of (RemoteServer.cleanup_work_dir env renv work_dir) = Ret r ->
     (RemoteServer.status r = "success" /\ path_exists env work_dir = true /\
      trace_of (RemoteServer.cleanup_work_dir env renv work_dir) = [EvRmtree work_dir]) \/
     (RemoteServer.status r = "not_found" /\ path_exists env work_dir = false /\
      trace_of (RemoteServer.cleanup_work_dir env renv work_dir) = [])) /\
  (forall e,
     result_of (RemoteServer.cleanup_work_dir env renv work_dir) = Raise e ->
     exists e0, RemoteServer.rmtree renv work_dir = Some e0 /\
                e = HTTPException 500 (exc_str e0)).
Proof.
  unfold RemoteServer.cleanup_work_dir. munfold. simpl.
  destruct (path_exists env work_dir); simpl;
    [destruct (RemoteServer.rmtree renv work_dir) as [e0|] eqn:E; simpl|].
  - split; [by repeat constructor|]. split; [done|]. intros e [= <-]. by exists e0.
  - split; [by repeat constructor|]. split; [|done]. intros r [= <-]. by left.
  - split; [constructor|]. split; [|done]. intros r [= <-]. by right.
Qed.

Lemma cleanup_work_dir_spec_witness :
  trace_of (RemoteServer.cleanup_work_dir (Demo.env 0) DemoRemote.renv
              "/tmp/maven_analyze_1") = [EvRmtree "/tmp/maven_analyze_1"].
Proof.
  destruct (cleanup_work_dir_spec (Demo.env 0) DemoRemote.renv "/tmp/maven_analyze_1")
    as (_ & Hret & _).
  destruct (Hret {| RemoteServer.status := "success";
                    RemoteServer.message := "Cleaned up /tmp/maven_analyze_1" |} eq_refl)
    as [(_ & _ & Htrace)|(Hstatus & _)]; [exact Htrace|discriminate Hstatus].
Defined.
